(** * canvas-calendar-bridge: the Canvas to Google Calendar bridge

    A shallow embedding of [src/canvas.ts] (the Canvas client: type
    detection, course aggregation, filtering and transformation) and of
    [src/index.ts] (the time-zone helper [convertToEST] and the tool
    handlers [list_calendar_events], [update_calendar_event] and
    [sync_to_calendar]), followed by the properties the specification
    states about them.

    Conventions of the embedding.
    - A JavaScript value that the code only tests for truthiness, compares
      with [undefined], copies or interpolates into a template literal is a
      [jsval].  Numbers are the integral ones ([Z]).
    - A [Date] is its time value in milliseconds since the epoch; an
      invalid [Date] (time value [NaN]) is [None].
    - The runtime (ECMAScript [Date] and [Intl]) and the two remote
      services are parameters of the development: the pure part in a
      [Platform] record, the effectful part in a [Services] record over an
      abstract [World].  A concrete platform for the zone America/New_York
      is given in [Module NewYork].
    - Logging ([console.error]) has no effect on results and is left out,
      but expressions evaluated only to be logged are kept when they can
      throw. *)

From Stdlib Require Import ZArith List String Ascii Bool Lia DecimalString.
Import ListNotations.
Open Scope string_scope.
Open Scope Z_scope.

(** ** JavaScript values and strings *)

Definition nl : string := String (ascii_of_nat 10) EmptyString.
Definition dquote : string := String (ascii_of_nat 34) EmptyString.

Inductive jsval : Type :=
| JUndef
| JNull
| JBool (b : bool)
| JNum (n : Z)
| JStr (s : string)
| JObj.

(** ToBoolean. *)
Definition truthy (v : jsval) : bool :=
  match v with
  | JUndef | JNull => false
  | JBool b => b
  | JNum n => negb (n =? 0)
  | JStr s => negb (String.eqb s EmptyString)
  | JObj => true
  end.

(** [a || b]. *)
Definition js_or (a b : jsval) : jsval := if truthy a then a else b.

(** A number in decimal, as JavaScript prints an integer of magnitude below
    1e21; from there on JavaScript prints the exponent form, which is not
    modelled. *)
Definition Z_to_string (n : Z) : string := NilZero.string_of_int (Z.to_int n).

(** ToString, as applied by a template literal [`${v}`]. *)
Definition to_str (v : jsval) : string :=
  match v with
  | JUndef => "undefined"
  | JNull => "null"
  | JBool true => "true"
  | JBool false => "false"
  | JNum n => Z_to_string n
  | JStr s => s
  | JObj => "[object Object]"
  end.

(** [v === true]. *)
Definition is_true (v : jsval) : bool :=
  match v with JBool true => true | _ => false end.

(** [v !== undefined]. *)
Definition is_defined (v : jsval) : bool :=
  match v with JUndef => false | _ => true end.

(** [t.includes(s)] as a proposition: [s] occurs in [t]. *)
Definition includes (t s : string) : Prop :=
  exists pre post, t = pre ++ s ++ post.

(** [t.includes(s)] computed. *)
Fixpoint includesb (t s : string) : bool :=
  String.prefix s t
  || match t with
     | String _ t' => includesb t' s
     | EmptyString => false
     end.

(** [arr?.includes(x)] on an optional array of strings. *)
Definition arr_includes (arr : option (list string)) (x : string) : bool :=
  match arr with
  | None => false
  | Some l => existsb (String.eqb x) l
  end.

(** [arr.join(sep)]. *)
Fixpoint join (sep : string) (l : list string) : string :=
  match l with
  | [] => EmptyString
  | [x] => x
  | x :: rest => x ++ sep ++ join sep rest
  end.

(** [s.split(sep)] for a non-empty separator.  [skip] counts the characters
    of a separator just matched that are still to be passed over, [cur] is
    the piece being collected. *)
Fixpoint split_go (sep s : string) (skip : nat) (cur : string) : list string :=
  match s with
  | EmptyString => [cur]
  | String c s' =>
      match skip with
      | S k => split_go sep s' k cur
      | O =>
          if String.prefix sep s
          then cur :: split_go sep s' (Nat.pred (String.length sep)) EmptyString
          else split_go sep s' O (cur ++ String c EmptyString)
      end
  end.

Definition split (sep s : string) : list string := split_go sep s O EmptyString.

(** [arr[i]] interpolated into a template literal: a missing element is
    [undefined]. *)
Definition at_index (l : list string) (i : nat) : string :=
  match nth_error l i with
  | Some x => x
  | None => "undefined"
  end.

(** ** Thrown values and the monad of the handlers *)

(** What a [catch] clause receives: an [Error] instance with its message, or
    any other thrown value with its [String(...)] rendering. *)
Inductive thrown : Type :=
| ErrorObj (message : string)
| ThrownValue (shown : string).

(** [error instanceof Error ? error.message : String(error)]. *)
Definition message_or_String (e : thrown) : string :=
  match e with
  | ErrorObj m => m
  | ThrownValue s => s
  end.

(** [error instanceof Error ? error.message : 'unknown']. *)
Definition message_or_unknown (e : thrown) : string :=
  match e with
  | ErrorObj m => m
  | ThrownValue _ => "unknown"
  end.

Definition result (A : Type) : Type := (thrown + A)%type.

Module Eff.
(** State over the outside world, with exceptions. *)
Definition M (World A : Type) : Type := World -> result A * World.

Definition ret {World A} (a : A) : M World A := fun w => (inr a, w).

Definition throw {World A} (e : thrown) : M World A := fun w => (inl e, w).

Definition bind {World A B} (m : M World A) (k : A -> M World B) : M World B :=
  fun w =>
    match m w with
    | (inl e, w') => (inl e, w')
    | (inr a, w') => k a w'
    end.

(** [try { m } catch (error) { h error }]. *)
Definition try_catch {World A} (m : M World A) (h : thrown -> M World A) : M World A :=
  fun w =>
    match m w with
    | (inl e, w') => h e w'
    | (inr a, w') => (inr a, w')
    end.

(** A pure computation that may throw. *)
Definition lift {World A} (r : result A) : M World A := fun w => (r, w).

(** An interaction with the world that cannot throw. *)
Definition total {World A} (f : World -> A * World) : M World A :=
  fun w => let (a, w') := f w in (inr a, w').
End Eff.

Declare Scope eff_scope.
Delimit Scope eff_scope with eff.
Notation "x <- m ;; k" := (Eff.bind m (fun x => k))
  (at level 100, m at next level, right associativity) : eff_scope.
Notation "m ;;; k" := (Eff.bind m (fun _ => k))
  (at level 100, right associativity) : eff_scope.

Ltac eff_unfold :=
  unfold Eff.try_catch, Eff.bind, Eff.lift, Eff.total, Eff.ret, Eff.throw.

(** ** The runtime: Date and Intl *)

(** The largest time value of a [Date], 8.64e15 ms. *)
Definition MAX_TIME : Z := 8640000000000000.

(** TimeClip: [new Date(ms)] is a valid date only within the range. *)
Definition TimeClip (t : Z) : option Z :=
  if Z.abs t <=? MAX_TIME then Some t else None.

Record Platform : Type := {
  (** [new Date(s).getTime()] for a string [s]; [None] is [NaN]. *)
  Date_parse : string -> option Z;
  (** [d.toISOString()] of a valid date. *)
  toISOString : Z -> string;
  (** [d.toLocaleString('en-US', { timeZone: 'America/New_York',
      year: 'numeric', month: '2-digit', day: '2-digit', hour: '2-digit',
      minute: '2-digit', second: '2-digit', hour12: false })];
      [None] when the call throws. *)
  toLocaleString_numeric : Z -> option string;
  (** [d.toLocaleString('en-US', { timeZone: 'America/New_York',
      year: 'numeric', month: 'long', day: 'numeric', hour: 'numeric',
      minute: '2-digit', hour12: true })]; [None] when the call throws. *)
  toLocaleString_long : Z -> option string;
  (** [d.setDate(d.getDate() + n); d.getTime()] in the local zone of the
      process; [None] when the result is out of range. *)
  setDate_plus : Z -> Z -> option Z
}.

(** [new Date(v)] for a value that came out of JSON: a string is parsed, a
    number is a time value; [null], [true] and [false] are converted to the
    numbers 0, 1 and 0; [undefined] and objects give an invalid date. *)
Definition Date_new (P : Platform) (v : jsval) : option Z :=
  match v with
  | JStr s => Date_parse P s
  | JNum n => TimeClip n
  | JBool b => Some (if b then 1 else 0)
  | JNull => Some 0
  | JUndef | JObj => None
  end.

(** [d.toISOString()]: throws a [RangeError] on an invalid date. *)
Definition Date_toISOString (P : Platform) (d : option Z) : result string :=
  match d with
  | Some t => inr (toISOString P t)
  | None => inl (ErrorObj "Invalid time value")
  end.

(** ** canvas.ts *)

(** A course as returned by [GET /courses]. *)
Module Course.
Record t : Type := { id : jsval; name : jsval }.
End Course.

(** An assignment as returned by [GET /courses/:id/assignments], with the
    two fields [getUpcomingAssignments] stamps on it. *)
Module Assignment.
Record t : Type := {
  id : jsval;
  name : jsval;
  description : jsval;
  due_at : jsval;
  points_possible : jsval;
  html_url : jsval;
  workflow_state : jsval;
  published : jsval;
  is_quiz_assignment : jsval;
  quiz_id : jsval;
  discussion_topic : jsval;
  submission_types : option (list string);
  course_name : jsval;
  course_id : jsval
}.

(** [assignment.course_name = course.name; assignment.course_id = course.id]. *)
Definition stamp (course : Course.t) (a : t) : t :=
  {| id := id a; name := name a; description := description a;
     due_at := due_at a; points_possible := points_possible a;
     html_url := html_url a; workflow_state := workflow_state a;
     published := published a; is_quiz_assignment := is_quiz_assignment a;
     quiz_id := quiz_id a; discussion_topic := discussion_topic a;
     submission_types := submission_types a;
     course_name := Course.name course; course_id := Course.id course |}.
End Assignment.

(** The argument of [detectItemType]: a calendar-event wrapper with an
    optional nested assignment. *)
Module CanvasEvent.
Record t : Type := { type : jsval; assignment : option Assignment.t }.
End CanvasEvent.

(** [event.assignment?.f] for a scalar field [f]. *)
Definition nested (f : Assignment.t -> jsval) (a : option Assignment.t) : jsval :=
  match a with Some x => f x | None => JUndef end.

(** [event.assignment?.submission_types?.includes(x)]. *)
Definition nested_includes (a : option Assignment.t) (x : string) : bool :=
  match a with
  | Some r => arr_includes (Assignment.submission_types r) x
  | None => false
  end.

Definition detectItemType (event : CanvasEvent.t) : string :=
  let a := CanvasEvent.assignment event in
  if truthy (nested Assignment.quiz_id a) || nested_includes a "online_quiz"
  then "quiz"
  else if truthy (nested Assignment.discussion_topic a)
          || nested_includes a "discussion_topic"
  then "discussion"
  else if (match a with Some _ => true | None => false end)
          || (match CanvasEvent.type event with
              | JStr s => String.eqb s "assignment"
              | _ => false
              end)
  then "assignment"
  else "event".

(** The object built by step 4 of [getUpcomingAssignments]. *)
Module Item.
Record t : Type := {
  id : jsval;
  title : jsval;
  name : jsval;
  type : string;
  due_at : jsval;
  start_at : jsval;
  end_at : jsval;
  all_day : bool;
  description : jsval;
  points_possible : jsval;
  context_name : jsval;
  context_code : string;
  workflow_state : jsval;
  html_url : jsval;
  assignment : Assignment.t
}.
End Item.

(** The type detection inlined in the transformation (step 4). *)
Definition itemType (assignment : Assignment.t) : string :=
  if truthy (js_or (Assignment.is_quiz_assignment assignment)
                   (Assignment.quiz_id assignment))
  then "quiz"
  else if arr_includes (Assignment.submission_types assignment) "discussion_topic"
  then "discussion"
  else "assignment".

(** The callback of [events.map] in step 4. *)
Definition transform (assignment : Assignment.t) : Item.t :=
  {| Item.id := Assignment.id assignment;
     Item.title := Assignment.name assignment;
     Item.name := Assignment.name assignment;
     Item.type := itemType assignment;
     Item.due_at := Assignment.due_at assignment;
     Item.start_at := Assignment.due_at assignment;
     Item.end_at := Assignment.due_at assignment;
     Item.all_day := false;
     Item.description := js_or (Assignment.description assignment) (JStr EmptyString);
     Item.points_possible := Assignment.points_possible assignment;
     Item.context_name := Assignment.course_name assignment;
     Item.context_code := "course_" ++ to_str (Assignment.course_id assignment);
     Item.workflow_state := Assignment.workflow_state assignment;
     Item.html_url := Assignment.html_url assignment;
     Item.assignment := assignment |}.

(** The predicate of [allAssignments.filter] in step 3. *)
Definition published_with_due_date (assignment : Assignment.t) : bool :=
  let isPublished := is_true (Assignment.published assignment) in
  let hasDueDate := truthy (Assignment.due_at assignment) in
  isPublished && hasDueDate.

(** Steps 3 and 4: what [getUpcomingAssignments] returns once every course
    has been fetched. *)
Definition normalize_all (allAssignments : list Assignment.t) : list Item.t :=
  map transform (filter published_with_due_date allAssignments).

(** ** The remote services *)

(** An event as the calendar service returns it. *)
Module GEvent.
Record t : Type := {
  id : jsval;
  summary : jsval;
  htmlLink : jsval;
  start_dateTime : jsval;
  start_date : jsval;
  end_dateTime : jsval;
  end_date : jsval
}.
End GEvent.

(** [{ dateTime, timeZone }]. *)
Module EventTime.
Record t : Type := { dateTime : jsval; timeZone : jsval }.
End EventTime.

Module Reminder.
Record t : Type := { method : string; minutes : Z }.
End Reminder.

(** The payload [sync_to_calendar] hands to [createEvent]. *)
Module CalendarEvent.
Record t : Type := {
  summary : string;
  description : string;
  start : EventTime.t;
  end_ : EventTime.t;
  useDefault : bool;
  overrides : list Reminder.t
}.
End CalendarEvent.

(** The [updates] object of [update_calendar_event]: a key that was never
    assigned is [None]. *)
Module Updates.
Record t : Type := {
  summary : option jsval;
  description : option jsval;
  start : option EventTime.t;
  end_ : option EventTime.t
}.
Definition empty : t :=
  {| summary := None; description := None; start := None; end_ := None |}.
End Updates.

Record Services (World : Type) : Type := {
  (** [new Date().getTime()]: reading the clock never throws. *)
  clock : World -> Z * World;
  (** [this.fetch('/courses?enrollment_state=active')]. *)
  fetch_courses : Eff.M World (list Course.t);
  (** [this.fetch(`/courses/${course.id}/assignments`)]. *)
  fetch_assignments : jsval -> Eff.M World (list Assignment.t);
  (** [googleClient.createEvent(event)]. *)
  createEvent : CalendarEvent.t -> Eff.M World GEvent.t;
  (** [googleClient.listEvents(timeMin, timeMax, maxResults)]; the result is
      [events.items], [None] when the field is missing. *)
  listEvents : string -> string -> Z -> Eff.M World (option (list GEvent.t));
  (** [googleClient.updateEvent(eventId, updates)]. *)
  updateEvent : string -> Updates.t -> Eff.M World GEvent.t
}.
Arguments clock {World}.
Arguments fetch_courses {World}.
Arguments fetch_assignments {World}.
Arguments createEvent {World}.
Arguments listEvents {World}.
Arguments updateEvent {World}.

(** The error thrown again by the [catch] of step 2:
    [new Error(`Failed to fetch assignments for course "${course.name}": ${errorMsg}`)]. *)
Definition wrapped_fetch_error (course : Course.t) (error : thrown) : thrown :=
  let errorMsg := message_or_String error in
  ErrorObj ("Failed to fetch assignments for course " ++ dquote
            ++ to_str (Course.name course) ++ dquote ++ ": " ++ errorMsg).

Section CanvasClient.
Context {World : Type} (S : Services World).
Local Open Scope eff_scope.

(** The body of [for (const course of courses)] in step 2: a failing fetch
    is caught, wrapped and thrown again. *)
Definition fetch_course (course : Course.t) (allAssignments : list Assignment.t)
  : Eff.M World (list Assignment.t) :=
  Eff.try_catch
    (assignments <- fetch_assignments S (Course.id course) ;;
     Eff.ret (allAssignments ++ map (Assignment.stamp course) assignments)%list)
    (fun error => Eff.throw (wrapped_fetch_error course error)).

Fixpoint fetch_all (courses : list Course.t) (allAssignments : list Assignment.t)
  : Eff.M World (list Assignment.t) :=
  match courses with
  | [] => Eff.ret allAssignments
  | course :: rest =>
      all <- fetch_course course allAssignments ;;
      fetch_all rest all
  end.

(** The outer [try ... catch] logs and throws the same error again. *)
Definition getUpcomingAssignments : Eff.M World (list Item.t) :=
  Eff.try_catch
    (Eff.total (clock S) ;;;
     courses <- fetch_courses S ;;
     allAssignments <- fetch_all courses [] ;;
     Eff.ret (normalize_all allAssignments))
    (fun error => Eff.throw error).
End CanvasClient.

(** ** index.ts: the time-zone helper *)

Module EST.
Record t : Type := { datetime : string; readable : string }.
End EST.

(** [convertToEST(utcDateString)].  The [try ... catch] turns an exception of
    either [toLocaleString] call into [null]; [split] and the indexing of its
    result never throw ([parts[0]] always exists). *)
Definition convertToEST (P : Platform) (utcDateString : jsval) : option EST.t :=
  if negb (truthy utcDateString) then None
  else
    match Date_new P utcDateString with
    | None => None
    | Some date =>
        match toLocaleString_numeric P date with
        | None => None
        | Some estDateStr =>
            let parts := split ", " estDateStr in
            let datePart := split "/" (nth 0 parts EmptyString) in
            let timePart := at_index parts 1 in
            let year := at_index datePart 2 in
            let month := at_index datePart 0 in
            let day := at_index datePart 1 in
            let datetime := year ++ "-" ++ month ++ "-" ++ day ++ "T" ++ timePart in
            match toLocaleString_long P date with
            | None => None
            | Some readable =>
                Some {| EST.datetime := datetime; EST.readable := readable |}
            end
        end
    end.

(** ** index.ts: the tool handlers *)

(** [(args?.x as number) || d] for a numeric argument that is absent
    ([None]) or an integral number. *)
Definition num_or (arg : option Z) (d : Z) : Z :=
  match arg with
  | Some n => if n =? 0 then d else n
  | None => d
  end.

(** [Math.ceil(a / b)] for integral [a] and a positive [b], computed
    exactly.  For the difference of two time values and [b] the length of a
    day the double-precision quotient has the same ceiling: a quotient that
    is not integral lies at least [1 / 86400000] away from the nearest
    integer, more than the rounding error of a double below [2^27]. *)
Definition ceil_div (a b : Z) : Z := - ((- a) / b).

Definition MS_PER_DAY : Z := 1000 * 60 * 60 * 24.

(** [Math.ceil((dueDateUTC.getTime() - now.getTime()) / (1000 * 60 * 60 * 24))]. *)
Definition daysDiff_of (due now : Z) : Z := ceil_div (due - now) MS_PER_DAY.

(** [daysDiff <= daysAhead && daysDiff > 0]. *)
Definition in_window (daysAhead daysDiff : Z) : bool :=
  (daysDiff <=? daysAhead) && (daysDiff >? 0).

Module TypeInfo.
Record t : Type := { emoji : string; label : string }.
End TypeInfo.

Definition typeInfo_event : TypeInfo.t :=
  {| TypeInfo.emoji := "📅"; TypeInfo.label := "Calendar Event" |}.

(** [typeInfo[key]] on the table's own keys.  The keys every object
    inherits, such as [constructor], are not modelled; the types the
    transformation builds are not among them. *)
Definition typeInfo (key : string) : option TypeInfo.t :=
  if String.eqb key "assignment"
  then Some {| TypeInfo.emoji := "📚"; TypeInfo.label := "Canvas Assignment" |}
  else if String.eqb key "quiz"
  then Some {| TypeInfo.emoji := "📝"; TypeInfo.label := "Canvas Quiz" |}
  else if String.eqb key "discussion"
  then Some {| TypeInfo.emoji := "💬"; TypeInfo.label := "Canvas Discussion" |}
  else if String.eqb key "event"
  then Some typeInfo_event
  else None.

(** [typeInfo[assignment.type] || typeInfo['event']]. *)
Definition itemInfo_of (assignment : Item.t) : TypeInfo.t :=
  match typeInfo (Item.type assignment) with
  | Some i => i
  | None => typeInfo_event
  end.

(** [assignment.due_at || assignment.assignment?.due_at]. *)
Definition dueAtField_of (assignment : Item.t) : jsval :=
  js_or (Item.due_at assignment) (Assignment.due_at (Item.assignment assignment)).

(** [assignment.title || assignment.name || assignment.assignment?.name]. *)
Definition nameField_of (assignment : Item.t) : jsval :=
  js_or (js_or (Item.title assignment) (Item.name assignment))
        (Assignment.name (Item.assignment assignment)).

(** The points, course and link cells of the description template. *)
Definition points_text (assignment : Item.t) : string :=
  to_str (js_or (js_or (Item.points_possible assignment)
                       (Assignment.points_possible (Item.assignment assignment)))
                (JStr "N/A")).

Definition course_text (assignment : Item.t) : string :=
  to_str (js_or (Item.context_name assignment) (JStr "N/A")).

Definition link_text (assignment : Item.t) : string :=
  to_str (js_or (js_or (Item.html_url assignment)
                       (Assignment.html_url (Item.assignment assignment)))
                (JStr EmptyString)).

Definition NEW_YORK : jsval := JStr "America/New_York".

(** The [event] object literal of [sync_to_calendar]. *)
Definition sync_event (assignment : Item.t) (dueEST endEST : EST.t) : CalendarEvent.t :=
  let nameField := nameField_of assignment in
  let itemInfo := itemInfo_of assignment in
  let eventStart := EST.datetime dueEST in
  let eventEnd := EST.datetime endEST in
  {| CalendarEvent.summary := TypeInfo.emoji itemInfo ++ " " ++ to_str nameField;
     CalendarEvent.description :=
       TypeInfo.label itemInfo ++ nl ++ nl
       ++ "Due: " ++ EST.readable dueEST ++ " EST" ++ nl
       ++ "Points: " ++ points_text assignment ++ nl
       ++ "Course: " ++ course_text assignment ++ nl ++ nl
       ++ "Link: " ++ link_text assignment;
     CalendarEvent.start :=
       {| EventTime.dateTime := JStr eventStart; EventTime.timeZone := NEW_YORK |};
     CalendarEvent.end_ :=
       {| EventTime.dateTime := JStr eventEnd; EventTime.timeZone := NEW_YORK |};
     CalendarEvent.useDefault := false;
     CalendarEvent.overrides :=
       [ {| Reminder.method := "popup"; Reminder.minutes := 24 * 60 |};
         {| Reminder.method := "popup"; Reminder.minutes := 60 |} ] |}.

(** What one iteration of the sync loop pushes: a message on [synced] or a
    reason on [skipped]. *)
Inductive outcome : Type :=
| Synced (syncMessage : string)
| Skipped (skipReason : string).

Definition reason_no_due_date (nameField : jsval) : string :=
  to_str (js_or nameField (JStr "Unknown"))
  ++ " (no due date - checked due_at and assignment.due_at)".

Definition reason_invalid_due_date (nameField dueAtField : jsval) : string :=
  to_str nameField ++ " (invalid due date: " ++ to_str dueAtField ++ ")".

Definition reason_date_conversion (nameField : jsval) : string :=
  to_str nameField ++ " (date conversion failed)".

Definition reason_end_date_conversion (nameField : jsval) : string :=
  to_str nameField ++ " (end date conversion failed)".

Definition reason_outside (nameField : jsval) (daysAhead daysDiff : Z) : string :=
  to_str nameField ++ " (outside " ++ Z_to_string daysAhead ++ " day window - "
  ++ Z_to_string daysDiff ++ " days away)".

Definition reason_error (assignment : Item.t) (error : thrown) : string :=
  let itemName := js_or (js_or (Item.title assignment) (Item.name assignment))
                        (JStr "Unknown") in
  let errorMessage := message_or_unknown error in
  to_str itemName ++ " (error: " ++ errorMessage ++ ")".

Definition sync_message (assignment : Item.t) (dueEST : EST.t) : string :=
  to_str (nameField_of assignment) ++ " (" ++ TypeInfo.label (itemInfo_of assignment)
  ++ ") - Due: " ++ EST.readable dueEST.

Section Handlers.
Context (P : Platform) {World : Type} (S : Services World).
Local Open Scope eff_scope.

(** The branch taken when [daysDiff <= daysAhead && daysDiff > 0]. *)
Definition create_in_window (assignment : Item.t) (dueAtField : jsval) (due : Z)
  : Eff.M World outcome :=
  let nameField := nameField_of assignment in
  match convertToEST P dueAtField with
  | None => Eff.ret (Skipped (reason_date_conversion nameField))
  | Some dueEST =>
      let endDate := TimeClip (due + 60 * 60 * 1000) in
      endISO <- Eff.lift (Date_toISOString P endDate) ;;
      match convertToEST P (JStr endISO) with
      | None => Eff.ret (Skipped (reason_end_date_conversion nameField))
      | Some endEST =>
          let event := sync_event assignment dueEST endEST in
          createEvent S event ;;;
          Eff.ret (Synced (sync_message assignment dueEST))
      end
  end.

(** The body of the [try] block of one iteration.  Every path pushes once,
    as its last action, so the pushed entry is returned; the value logged
    by [dueDateUTC.toISOString()] is dropped but its exception is not. *)
Definition sync_try (daysAhead : Z) (assignment : Item.t) : Eff.M World outcome :=
  let dueAtField := dueAtField_of assignment in
  let nameField := nameField_of assignment in
  if negb (truthy dueAtField)
  then Eff.ret (Skipped (reason_no_due_date nameField))
  else
    let dueDateUTC := Date_new P dueAtField in
    Eff.lift (Date_toISOString P dueDateUTC) ;;;
    match dueDateUTC with
    | None => Eff.ret (Skipped (reason_invalid_due_date nameField dueAtField))
    | Some due =>
        now <- Eff.total (clock S) ;;
        let daysDiff := daysDiff_of due now in
        if in_window daysAhead daysDiff
        then create_in_window assignment dueAtField due
        else Eff.ret (Skipped (reason_outside nameField daysAhead daysDiff))
    end.

(** One iteration: the [try] block and its [catch]. *)
Definition sync_item (daysAhead : Z) (assignment : Item.t) : Eff.M World outcome :=
  Eff.try_catch (sync_try daysAhead assignment)
                (fun error => Eff.ret (Skipped (reason_error assignment error))).

(** [for (const assignment of assignments)], with the two result arrays. *)
Fixpoint sync_loop (daysAhead : Z) (assignments : list Item.t)
         (synced skipped : list string) : Eff.M World (list string * list string) :=
  match assignments with
  | [] => Eff.ret (synced, skipped)
  | assignment :: rest =>
      o <- sync_item daysAhead assignment ;;
      match o with
      | Synced syncMessage =>
          sync_loop daysAhead rest (synced ++ [syncMessage])%list skipped
      | Skipped skipReason =>
          sync_loop daysAhead rest synced (skipped ++ [skipReason])%list
      end
  end.

Definition nat_to_string (n : nat) : string := Z_to_string (Z.of_nat n).

Definition sync_result_text (synced skipped : list string) : string :=
  let resultText :=
    "Successfully synced " ++ nat_to_string (List.length synced)
    ++ " item(s) to Google Calendar (EST timezone):" ++ nl ++ nl in
  let resultText :=
    if (0 <? List.length synced)%nat then resultText ++ join nl synced
    else resultText in
  if (0 <? List.length skipped)%nat
  then resultText ++ nl ++ nl ++ "Skipped " ++ nat_to_string (List.length skipped)
       ++ " item(s):" ++ nl ++ join nl skipped
  else resultText.

(** The part of the [sync_to_calendar] case that computes the two arrays. *)
Definition sync_run (args_daysAhead : option Z)
  : Eff.M World (list string * list string) :=
  let daysAhead := num_or args_daysAhead 14 in
  assignments <- getUpcomingAssignments S ;;
  sync_loop daysAhead assignments [] [].

(** [case 'sync_to_calendar']: the text of the response. *)
Definition sync_to_calendar (args_daysAhead : option Z) : Eff.M World string :=
  r <- sync_run args_daysAhead ;;
  Eff.ret (sync_result_text (fst r) (snd r)).
End Handlers.

(** The arguments of [update_calendar_event] as they arrive ([undefined] for
    an absent key). *)
Module UpdateArgs.
Record t : Type := {
  eventId : jsval;
  title : jsval;
  description : jsval;
  startTime : jsval;
  endTime : jsval;
  timezone : jsval
}.
End UpdateArgs.

(** The construction of [updates] in [case 'update_calendar_event']. *)
Definition build_updates (args : UpdateArgs.t) : Updates.t :=
  let updates := Updates.empty in
  let updates :=
    if truthy (UpdateArgs.title args)
    then {| Updates.summary := Some (UpdateArgs.title args);
            Updates.description := Updates.description updates;
            Updates.start := Updates.start updates;
            Updates.end_ := Updates.end_ updates |}
    else updates in
  let updates :=
    if is_defined (UpdateArgs.description args)
    then {| Updates.summary := Updates.summary updates;
            Updates.description := Some (UpdateArgs.description args);
            Updates.start := Updates.start updates;
            Updates.end_ := Updates.end_ updates |}
    else updates in
  let updates :=
    if truthy (UpdateArgs.startTime args)
    then
      let timezone := js_or (UpdateArgs.timezone args) NEW_YORK in
      {| Updates.summary := Updates.summary updates;
         Updates.description := Updates.description updates;
         Updates.start := Some {| EventTime.dateTime := UpdateArgs.startTime args;
                                  EventTime.timeZone := timezone |};
         Updates.end_ := Updates.end_ updates |}
    else updates in
  if truthy (UpdateArgs.endTime args)
  then
    let timezone := js_or (UpdateArgs.timezone args) NEW_YORK in
    {| Updates.summary := Updates.summary updates;
       Updates.description := Updates.description updates;
       Updates.start := Updates.start updates;
       Updates.end_ := Some {| EventTime.dateTime := UpdateArgs.endTime args;
                               EventTime.timeZone := timezone |} |}
  else updates.

(** The calendar service's side of [PATCH /calendars/primary/events/:id]
    (patch semantics: a field present in the request body replaces the stored
    one, every other field is kept).  It is not part of the repository; it
    serves to read the effect of an [updates] object on a stored event. *)
Module Stored.
Record t : Type := {
  summary : jsval;
  description : jsval;
  start : EventTime.t;
  end_ : EventTime.t
}.

Definition patch (e : t) (u : Updates.t) : t :=
  {| summary := match Updates.summary u with Some v => v | None => summary e end;
     description :=
       match Updates.description u with Some v => v | None => description e end;
     start := match Updates.start u with Some v => v | None => start e end;
     end_ := match Updates.end_ u with Some v => v | None => end_ e end |}.
End Stored.

Section CalendarHandlers.
Context (P : Platform) {World : Type} (S : Services World).
Local Open Scope eff_scope.

(** The callback of [events.items.map] in [case 'list_calendar_events']. *)
Definition render_event (event : GEvent.t) : string :=
  let start := js_or (GEvent.start_dateTime event) (GEvent.start_date event) in
  let end_ := js_or (GEvent.end_dateTime event) (GEvent.end_date event) in
  "• " ++ to_str (js_or (GEvent.summary event) (JStr "Untitled")) ++ nl
  ++ "  Start: " ++ to_str start ++ nl
  ++ "  End: " ++ to_str end_ ++ nl
  ++ "  ID: " ++ to_str (GEvent.id event)
  ++ (if truthy (GEvent.htmlLink event)
      then nl ++ "  Link: " ++ to_str (GEvent.htmlLink event)
      else EmptyString).

(** [case 'list_calendar_events']: the text of the response. *)
Definition list_calendar_events (args_daysAhead args_maxResults : option Z)
  : Eff.M World string :=
  let daysAhead := num_or args_daysAhead 7 in
  let maxResults := num_or args_maxResults 10 in
  now <- Eff.total (clock S) ;;
  futureDate <- Eff.total (clock S) ;;
  let futureDate := setDate_plus P futureDate daysAhead in
  timeMin <- Eff.lift (Date_toISOString P (Some now)) ;;
  timeMax <- Eff.lift (Date_toISOString P futureDate) ;;
  items <- listEvents S timeMin timeMax maxResults ;;
  match items with
  | None | Some [] =>
      Eff.ret ("No upcoming events found in the next " ++ Z_to_string daysAhead
               ++ " days.")
  | Some items =>
      let eventList := join (nl ++ nl) (map render_event items) in
      Eff.ret ("Found " ++ Z_to_string (Z.of_nat (List.length items))
               ++ " upcoming event(s) in the next " ++ Z_to_string daysAhead
               ++ " days:" ++ nl ++ nl ++ eventList)
  end.

(** [case 'update_calendar_event']: the text of the response. *)
Definition update_calendar_event (args : UpdateArgs.t) : Eff.M World string :=
  let eventId := UpdateArgs.eventId args in
  if negb (truthy eventId)
  then Eff.throw (ErrorObj "eventId is required")
  else
    let updates := build_updates args in
    updatedEvent <- updateEvent S (to_str eventId) updates ;;
    Eff.ret ("Event updated successfully!" ++ nl ++ nl
             ++ "Event ID: " ++ to_str eventId ++ nl
             ++ "Title: " ++ to_str (GEvent.summary updatedEvent) ++ nl
             ++ "Link: " ++ to_str (GEvent.htmlLink updatedEvent)).
End CalendarHandlers.

(** The response of a tool call: the outer [try ... catch] of the request
    handler turns a thrown value into an error response. *)
Module ToolResult.
Record t : Type := { text : string; isError : bool }.
End ToolResult.

Definition respond {World : Type} (handler : Eff.M World string)
  : World -> ToolResult.t * World :=
  fun w =>
    match handler w with
    | (inr text, w') => ({| ToolResult.text := text; ToolResult.isError := false |}, w')
    | (inl error, w') =>
        ({| ToolResult.text :=
              "Error: " ++ match error with
                           | ErrorObj m => m
                           | ThrownValue s => s
                           end;
            ToolResult.isError := true |}, w')
    end.

(** ** A concrete runtime for America/New_York

    A model of the parts of ECMAScript [Date] and [Intl.DateTimeFormat] the
    bridge relies on, precise enough to run [convertToEST] on Canvas
    timestamps:
    - the proleptic Gregorian calendar, by the usual era-based day count;
    - [Date.parse] on the two ISO forms Canvas emits,
      [YYYY-MM-DDTHH:mm:ssZ] and [YYYY-MM-DDTHH:mm:ss.sssZ], the year being
      four digits or a sign and six digits (other forms are not recognised
      here);
    - the zone rule of America/New_York in force since 2007: daylight time
      from the second Sunday of March, 07:00 UTC, to the first Sunday of
      November, 06:00 UTC;
    - the two en-US formats [convertToEST] asks for (24-hour clock from
      00 to 23; a plain space before AM/PM);
    - the zone of the process taken to be UTC for [setDate]. *)
Module NewYork.

Definition days_from_civil (y m d : Z) : Z :=
  let y' := if m <=? 2 then y - 1 else y in
  let era := y' / 400 in
  let yoe := y' - era * 400 in
  let mp := if m >? 2 then m - 3 else m + 9 in
  let doy := (153 * mp + 2) / 5 + d - 1 in
  let doe := yoe * 365 + yoe / 4 - yoe / 100 + doy in
  era * 146097 + doe - 719468.

(** Year, month and day of a day count. *)
Definition civil_from_days (z : Z) : Z * Z * Z :=
  let z := z + 719468 in
  let era := z / 146097 in
  let doe := z - era * 146097 in
  let yoe := (doe - doe / 1460 + doe / 36524 - doe / 146096) / 365 in
  let doy := doe - (365 * yoe + yoe / 4 - yoe / 100) in
  let mp := (5 * doy + 2) / 153 in
  let d := doy - (153 * mp + 2) / 5 + 1 in
  let m := if mp <? 10 then mp + 3 else mp - 9 in
  let y := yoe + era * 400 in
  ((if m <=? 2 then y + 1 else y), m, d).

(** Day of the week of a day count, 0 for Sunday. *)
Definition weekday (days : Z) : Z := (days + 4) mod 7.

Definition is_leap (y : Z) : bool :=
  ((y mod 4 =? 0) && negb (y mod 100 =? 0)) || (y mod 400 =? 0).

Definition days_in_month (y m : Z) : Z :=
  if m =? 2 then (if is_leap y then 29 else 28)
  else if (m =? 4) || (m =? 6) || (m =? 9) || (m =? 11) then 30
  else 31.

Definition digit (c : ascii) : option Z :=
  let n := Z.of_nat (nat_of_ascii c) in
  if (48 <=? n) && (n <=? 57) then Some (n - 48) else None.

(** Reads exactly [k] digits. *)
Fixpoint digits (k : nat) (acc : Z) (s : string) : option (Z * string) :=
  match k with
  | O => Some (acc, s)
  | S k' =>
      match s with
      | String c s' =>
          match digit c with
          | Some d => digits k' (10 * acc + d) s'
          | None => None
          end
      | EmptyString => None
      end
  end.

(** Reads the character [c]. *)
Definition expect (c : string) (s : string) : option string :=
  match c, s with
  | String a EmptyString, String b s' => if Ascii.eqb a b then Some s' else None
  | _, _ => None
  end.

Definition opt_bind {A B} (o : option A) (k : A -> option B) : option B :=
  match o with Some a => k a | None => None end.

(** V8 takes a day from 1 to 31 whatever the month, a day past the end of
    the month rolling over into the next, and the hour 24 at 24:00:00.000. *)
Definition make_time (y mo d h mi s ms : Z) : option Z :=
  if (1 <=? mo) && (mo <=? 12) && (1 <=? d) && (d <=? 31)
     && (((h <=? 23) && (mi <=? 59) && (s <=? 59))
         || ((h =? 24) && (mi =? 0) && (s =? 0) && (ms =? 0)))
  then TimeClip (days_from_civil y mo d * 86400000
                 + h * 3600000 + mi * 60000 + s * 1000 + ms)
  else None.

(** The year: four digits, or a sign and six digits. *)
Definition year_of (str : string) : option (Z * string) :=
  match str with
  | String "+" r => digits 6 0 r
  | String "-" r => opt_bind (digits 6 0 r) (fun '(y, r) => Some (- y, r))
  | _ => digits 4 0 str
  end.

Definition Date_parse (str : string) : option Z :=
  opt_bind (year_of str) (fun '(y, r) =>
  opt_bind (expect "-" r) (fun r =>
  opt_bind (digits 2 0 r) (fun '(mo, r) =>
  opt_bind (expect "-" r) (fun r =>
  opt_bind (digits 2 0 r) (fun '(d, r) =>
  opt_bind (expect "T" r) (fun r =>
  opt_bind (digits 2 0 r) (fun '(h, r) =>
  opt_bind (expect ":" r) (fun r =>
  opt_bind (digits 2 0 r) (fun '(mi, r) =>
  opt_bind (expect ":" r) (fun r =>
  opt_bind (digits 2 0 r) (fun '(s, r) =>
    if String.eqb r "Z" then make_time y mo d h mi s 0
    else
      opt_bind (expect "." r) (fun r =>
      opt_bind (digits 3 0 r) (fun '(ms, r) =>
        if String.eqb r "Z" then make_time y mo d h mi s ms else None))))))))))))).

(** [n] in decimal, padded with zeros to [w] digits, for [0 <= n]. *)
Definition pad (w : nat) (n : Z) : string :=
  let s := Z_to_string n in
  String.concat EmptyString (repeat "0" (w - String.length s)) ++ s.

(** The wall clock fields of a time value: year, month, day, hour, minute,
    second, millisecond. *)
Definition fields (t : Z) : Z * Z * Z * Z * Z * Z * Z :=
  let days := t / 86400000 in
  let rest := t mod 86400000 in
  let '(y, mo, d) := civil_from_days days in
  (y, mo, d, rest / 3600000, (rest / 60000) mod 60, (rest / 1000) mod 60,
   rest mod 1000).

Definition toISOString (t : Z) : string :=
  let '(y, mo, d, h, mi, s, ms) := fields t in
  let year :=
    if (0 <=? y) && (y <=? 9999) then pad 4 y
    else if y <? 0 then "-" ++ pad 6 (- y)
    else "+" ++ pad 6 y in
  year ++ "-" ++ pad 2 mo ++ "-" ++ pad 2 d ++ "T" ++ pad 2 h ++ ":" ++ pad 2 mi
  ++ ":" ++ pad 2 s ++ "." ++ pad 3 ms ++ "Z".

(** The first Sunday on or after the day count [days]. *)
Definition sunday_on_or_after (days : Z) : Z := days + (7 - weekday days) mod 7.

(** The offset of America/New_York from UTC at the instant [t], in ms. *)
Definition utc_offset (t : Z) : Z :=
  let '(y, _, _) := civil_from_days (t / 86400000) in
  let dst_start :=
    (sunday_on_or_after (days_from_civil y 3 1) + 7) * 86400000 + 7 * 3600000 in
  let dst_end :=
    sunday_on_or_after (days_from_civil y 11 1) * 86400000 + 6 * 3600000 in
  if (dst_start <=? t) && (t <? dst_end) then - (4 * 3600000) else - (5 * 3600000).

Definition month_name (m : Z) : string :=
  nth (Z.to_nat (m - 1))
      ["January"; "February"; "March"; "April"; "May"; "June"; "July";
       "August"; "September"; "October"; "November"; "December"]
      EmptyString.

(** ["MM/DD/YYYY, HH:mm:ss"]. *)
Definition toLocaleString_numeric (t : Z) : option string :=
  let '(y, mo, d, h, mi, s, _) := fields (t + utc_offset t) in
  Some (pad 2 mo ++ "/" ++ pad 2 d ++ "/" ++ Z_to_string y ++ ", "
        ++ pad 2 h ++ ":" ++ pad 2 mi ++ ":" ++ pad 2 s).

(** ["November 7, 2025 at 11:59 PM"]. *)
Definition toLocaleString_long (t : Z) : option string :=
  let '(y, mo, d, h, mi, _, _) := fields (t + utc_offset t) in
  let h12 := if h mod 12 =? 0 then 12 else h mod 12 in
  Some (month_name mo ++ " " ++ Z_to_string d ++ ", " ++ Z_to_string y ++ " at "
        ++ Z_to_string h12 ++ ":" ++ pad 2 mi ++ " "
        ++ (if h <? 12 then "AM" else "PM")).

Definition setDate_plus (t n : Z) : option Z := TimeClip (t + n * 86400000).

Definition platform : Platform :=
  Build_Platform Date_parse toISOString toLocaleString_numeric
                 toLocaleString_long setDate_plus.
End NewYork.


(** ** A small concrete world

    Three courses with one assignment each, a clock that starts at
    2025-11-01T12:00:00Z and advances by a millisecond at every reading, a
    Canvas server whose second course can be switched to fail, and a calendar
    service that can be switched to reject the event of the quiz. *)
Module Demo.
Definition raw (id : Z) (name due : string) (quiz_id : jsval) : Assignment.t :=
  {| Assignment.id := JNum id;
     Assignment.name := JStr name;
     Assignment.description := JNull;
     Assignment.due_at := JStr due;
     Assignment.points_possible := JNum 10;
     Assignment.html_url := JStr "https://canvas.example.edu/a";
     Assignment.workflow_state := JStr "published";
     Assignment.published := JBool true;
     Assignment.is_quiz_assignment := JBool false;
     Assignment.quiz_id := quiz_id;
     Assignment.discussion_topic := JUndef;
     Assignment.submission_types := Some ["online_upload"];
     Assignment.course_name := JUndef;
     Assignment.course_id := JUndef |}.

Definition essay : Assignment.t := raw 11 "Essay 1" "2025-11-08T04:59:59Z" JUndef.
Definition quiz2 : Assignment.t := raw 22 "Quiz 2" "2025-11-09T04:59:59Z" (JNum 7).
Definition lab3 : Assignment.t := raw 33 "Lab 3" "2025-11-10T04:59:59Z" JUndef.

Definition course (id : Z) (name : string) : Course.t :=
  {| Course.id := JNum id; Course.name := JStr name |}.

Definition courses : list Course.t :=
  [course 1 "Writing"; course 2 "Logic"; course 3 "Physics"].

Definition created : GEvent.t :=
  {| GEvent.id := JStr "evt"; GEvent.summary := JStr "created";
     GEvent.htmlLink := JUndef; GEvent.start_dateTime := JUndef;
     GEvent.start_date := JUndef; GEvent.end_dateTime := JUndef;
     GEvent.end_date := JUndef |}.

Definition start : Z := 1761998400000.

Definition services (course2_down calendar_rejects_quiz : bool) : Services Z :=
  {| clock := fun w => (w, w + 1);
     fetch_courses := Eff.ret courses;
     fetch_assignments := fun id =>
       match id with
       | JNum 1 => Eff.ret [essay]
       | JNum 2 =>
           if course2_down
           then Eff.throw (ErrorObj "Canvas API error: 500 Internal Server Error")
           else Eff.ret [quiz2]
       | JNum 3 => Eff.ret [lab3]
       | _ => Eff.ret []
       end;
     createEvent := fun event =>
       if calendar_rejects_quiz
          && String.eqb (CalendarEvent.summary event) "📝 Quiz 2"
       then Eff.throw (ErrorObj "Google Calendar API error: 403")
       else Eff.ret created;
     listEvents := fun _ _ _ => Eff.ret (Some []);
     updateEvent := fun _ _ => Eff.ret created |}.

Definition item (a : Assignment.t) (c : Course.t) : Item.t :=
  transform (Assignment.stamp c a).

(** A quiz known only by its submission type. *)
Definition online_quiz : Assignment.t :=
  {| Assignment.id := JNum 44;
     Assignment.name := JStr "Midterm";
     Assignment.description := JNull;
     Assignment.due_at := JStr "2025-11-08T04:59:59Z";
     Assignment.points_possible := JNum 50;
     Assignment.html_url := JUndef;
     Assignment.workflow_state := JStr "published";
     Assignment.published := JBool true;
     Assignment.is_quiz_assignment := JUndef;
     Assignment.quiz_id := JUndef;
     Assignment.discussion_topic := JUndef;
     Assignment.submission_types := Some ["online_quiz"];
     Assignment.course_name := JUndef;
     Assignment.course_id := JUndef |}.

(** The same with a discussion marker next to the quiz marker. *)
Definition quiz_and_discussion : Assignment.t :=
  {| Assignment.id := JNum 45;
     Assignment.name := JStr "Graded debate";
     Assignment.description := JNull;
     Assignment.due_at := JStr "2025-11-08T04:59:59Z";
     Assignment.points_possible := JNum 5;
     Assignment.html_url := JUndef;
     Assignment.workflow_state := JStr "published";
     Assignment.published := JBool true;
     Assignment.is_quiz_assignment := JUndef;
     Assignment.quiz_id := JUndef;
     Assignment.discussion_topic := JUndef;
     Assignment.submission_types := Some ["online_quiz"; "discussion_topic"];
     Assignment.course_name := JUndef;
     Assignment.course_id := JUndef |}.

(** A published assignment with a due date and no name. *)
Definition nameless : Assignment.t :=
  {| Assignment.id := JNum 46;
     Assignment.name := JUndef;
     Assignment.description := JNull;
     Assignment.due_at := JStr "2025-11-08T04:59:59Z";
     Assignment.points_possible := JNum 5;
     Assignment.html_url := JUndef;
     Assignment.workflow_state := JStr "published";
     Assignment.published := JBool true;
     Assignment.is_quiz_assignment := JUndef;
     Assignment.quiz_id := JUndef;
     Assignment.discussion_topic := JUndef;
     Assignment.submission_types := None;
     Assignment.course_name := JUndef;
     Assignment.course_id := JUndef |}.

(** [item] seen as the wrapper [detectItemType] expects. *)
Definition as_event (item : Item.t) : CanvasEvent.t :=
  {| CanvasEvent.type := JStr (Item.type item);
     CanvasEvent.assignment := Some (Item.assignment item) |}.

(** An assignment due half an hour before the last instant a [Date] can
    hold. *)
Definition far_future : Assignment.t :=
  raw 55 "Far future" "+275760-09-12T23:30:00.000Z" JUndef.

Definition far_future_item : Item.t := item far_future (course 1 "Writing").

Definition essay_item : Item.t := item essay (course 1 "Writing").
Definition quiz2_item : Item.t := item quiz2 (course 2 "Logic").
Definition lab3_item : Item.t := item lab3 (course 3 "Physics").
End Demo.

(** ** The HTTP layer under the two clients *)

(** A [Response], through what the clients read of it: [ok], [status],
    [statusText], and the promises [text()] and [json()], either of which
    may reject.  [Data] is the type of a parsed body. *)
Module Response.
Record t (Data : Type) : Type := {
  ok : bool;
  status : Z;
  statusText : string;
  text : result string;
  json : result Data
}.
Arguments ok {Data}.
Arguments status {Data}.
Arguments statusText {Data}.
Arguments text {Data}.
Arguments json {Data}.
End Response.

(** How a call of the global [fetch] ends: with a response, with a
    rejection whose error is named [AbortError] (the abort signal fired), or
    with any other rejection. *)
Inductive FetchOutcome (Data : Type) : Type :=
| Responded (response : Response.t Data)
| RejectedAbort (message : string)
| Rejected (error : thrown).
Arguments Responded {Data}.
Arguments RejectedAbort {Data}.
Arguments Rejected {Data}.

(** ** canvas.ts: the HTTP wrapper and the plain getters *)

(** What [CanvasClient.fetch] hands to the global [fetch]. *)
Module CanvasRequest.
Record t : Type := {
  url : string;
  authorization : string;
  content_type : string
}.
End CanvasRequest.

Section CanvasHttp.
Context {World Data : Type}.
Variable net : CanvasRequest.t -> World -> FetchOutcome Data * World.
Variables apiToken domain : string.
Local Open Scope eff_scope.

(** [private async fetch(endpoint, timeoutMs = 30000)].  The timer that
    aborts the request is part of the network's behaviour: when it fires,
    the call of [fetch] ends in [RejectedAbort].  Whatever the [try] block
    throws, its own error for a response that is not ok included, passes
    through the [catch], which replaces an [AbortError] and throws anything
    else again. *)
Definition canvas_fetch (endpoint : string) (timeoutMs : Z) : Eff.M World Data :=
  fun w =>
    let url := domain ++ "/api/v1" ++ endpoint in
    let request :=
      {| CanvasRequest.url := url;
         CanvasRequest.authorization := "Bearer " ++ apiToken;
         CanvasRequest.content_type := "application/json" |} in
    match net request w with
    | (Responded response, w') =>
        if negb (Response.ok response)
        then
          let errorMsg :=
            "Canvas API error: " ++ Z_to_string (Response.status response) ++ " "
            ++ Response.statusText response in
          (inl (ErrorObj errorMsg), w')
        else (Response.json response, w')
    | (RejectedAbort _, w') =>
        let timeoutError :=
          "Canvas API timeout after " ++ Z_to_string timeoutMs ++ "ms for " ++ url in
        (inl (ErrorObj timeoutError), w')
    | (Rejected error, w') => (inl error, w')
    end.

Definition DEFAULT_TIMEOUT : Z := 30000.

(** [getCourses()]. *)
Definition getCourses : Eff.M World Data :=
  Eff.try_catch (canvas_fetch "/courses?enrollment_state=active" DEFAULT_TIMEOUT)
                (fun error => Eff.throw error).

(** [getAssignmentsByCourse(courseId)]. *)
Definition getAssignmentsByCourse (courseId : Z) : Eff.M World Data :=
  Eff.try_catch
    (canvas_fetch ("/courses/" ++ Z_to_string courseId ++ "/assignments")
                  DEFAULT_TIMEOUT)
    (fun error => Eff.throw error).

(** The endpoint built by [getCalendarEvents(startDate?, endDate?)]. *)
Definition calendar_events_endpoint (startDate endDate : jsval) : string :=
  let endpoint := "/calendar_events?context_codes[]=user_1" in
  let endpoint :=
    if truthy startDate then endpoint ++ "&start_date=" ++ to_str startDate
    else endpoint in
  if truthy endDate then endpoint ++ "&end_date=" ++ to_str endDate
  else endpoint.

(** [getCalendarEvents(startDate?, endDate?)]. *)
Definition getCalendarEvents (startDate endDate : jsval) : Eff.M World Data :=
  Eff.try_catch
    (canvas_fetch (calendar_events_endpoint startDate endDate) DEFAULT_TIMEOUT)
    (fun error => Eff.throw error).
End CanvasHttp.

(** ** google-calendar.ts *)

(** An event as the handlers build it: [reminders] is optional. *)
Module Payload.
Record t : Type := {
  summary : jsval;
  description : jsval;
  start : EventTime.t;
  end_ : EventTime.t;
  reminders : option (bool * list Reminder.t)
}.

(** The payload of [sync_to_calendar] seen at this type. *)
Definition of_sync (event : CalendarEvent.t) : t :=
  {| summary := JStr (CalendarEvent.summary event);
     description := JStr (CalendarEvent.description event);
     start := CalendarEvent.start event;
     end_ := CalendarEvent.end_ event;
     reminders := Some (CalendarEvent.useDefault event,
                        CalendarEvent.overrides event) |}.
End Payload.

(** The body of a request: none, a form ([URLSearchParams]), or the JSON of
    an event or of an [updates] object. *)
Inductive Body : Type :=
| NoBody
| Form (fields : list (string * string))
| JsonEvent (event : Payload.t)
| JsonUpdates (updates : Updates.t).

Module GRequest.
Record t : Type := {
  method : string;
  url : string;
  (** [url.searchParams], in the order appended. *)
  query : list (string * string);
  headers : list (string * string);
  body : Body
}.
End GRequest.

(** A parsed JSON object, through the fields the client and the handlers
    read of it. *)
Module GData.
Record t : Type := {
  access_token : jsval;
  refresh_token : jsval;
  event : GEvent.t;
  items : option (list GEvent.t)
}.
End GData.

Module Tokens.
Record t : Type := { access_token : jsval; refresh_token : jsval }.
End Tokens.

Module DeleteResult.
Record t : Type := { success : bool; message : string }.
End DeleteResult.

Module GoogleCalendarClient.

(** The fields of the object. *)
Record t : Type := {
  clientId : string;
  clientSecret : string;
  refreshToken : jsval;
  accessToken : jsval;
  redirectUri : string
}.

(** [new GoogleCalendarClient(clientId, clientSecret, refreshToken, redirectUri?)]. *)
Definition new (clientId clientSecret : string) (refreshToken redirectUri : jsval) : t :=
  {| clientId := clientId;
     clientSecret := clientSecret;
     refreshToken := refreshToken;
     accessToken := JNull;
     redirectUri :=
       to_str (js_or redirectUri (JStr "http://localhost:3000/oauth2callback")) |}.

Definition with_accessToken (c : t) (v : jsval) : t :=
  {| clientId := clientId c; clientSecret := clientSecret c;
     refreshToken := refreshToken c; accessToken := v;
     redirectUri := redirectUri c |}.

Definition with_refreshToken (c : t) (v : jsval) : t :=
  {| clientId := clientId c; clientSecret := clientSecret c;
     refreshToken := v; accessToken := accessToken c;
     redirectUri := redirectUri c |}.

Definition TOKEN_URL : string := "https://oauth2.googleapis.com/token".
Definition EVENTS_URL : string :=
  "https://www.googleapis.com/calendar/v3/calendars/primary/events".
Definition FORM_HEADERS : list (string * string) :=
  [("Content-Type", "application/x-www-form-urlencoded")].

Definition NO_REFRESH_TOKEN : string :=
  "No refresh token available. Please authenticate first using get_google_auth_url and set_google_auth_code tools.".

(** [setRefreshToken(token)]. *)
Definition setRefreshToken (token : jsval) (c : t) : t :=
  with_accessToken (with_refreshToken c token) JNull.

Section Methods.
Context {World : Type}.
Variable net : GRequest.t -> World -> FetchOutcome GData.t * World.
Local Open Scope eff_scope.

(** The methods run on the object and the world together. *)
Definition Method (A : Type) : Type := Eff.M (t * World) A.

(** [await fetch(...)]: a rejection is thrown, the object is untouched. *)
Definition fetch (request : GRequest.t) : Method (Response.t GData.t) :=
  fun '(c, w) =>
    match net request w with
    | (Responded response, w') => (inr response, (c, w'))
    | (RejectedAbort message, w') => (inl (ErrorObj message), (c, w'))
    | (Rejected error, w') => (inl error, (c, w'))
    end.

Definition this : Method t := fun '(c, w) => (inr c, (c, w)).

Definition set_this (f : t -> t) : Method unit := fun '(c, w) => (inr tt, (f c, w)).

(** [exchangeCodeForTokens(code)]. *)
Definition exchangeCodeForTokens (code : jsval) : Method Tokens.t :=
  c <- this ;;
  response <- fetch {| GRequest.method := "POST";
                       GRequest.url := TOKEN_URL;
                       GRequest.query := [];
                       GRequest.headers := FORM_HEADERS;
                       GRequest.body :=
                         Form [("client_id", clientId c);
                               ("client_secret", clientSecret c);
                               ("code", to_str code);
                               ("redirect_uri", redirectUri c);
                               ("grant_type", "authorization_code")] |} ;;
  if negb (Response.ok response)
  then
    error <- Eff.lift (Response.text response) ;;
    Eff.throw (ErrorObj ("Failed to exchange code for tokens: " ++ error))
  else
    data <- Eff.lift (Response.json response) ;;
    set_this (fun c => with_accessToken c (GData.access_token data)) ;;;
    (if truthy (GData.refresh_token data)
     then set_this (fun c => with_refreshToken c (GData.refresh_token data))
     else Eff.ret tt) ;;;
    Eff.ret {| Tokens.access_token := GData.access_token data;
               Tokens.refresh_token := GData.refresh_token data |}.

(** [private async getAccessToken()]. *)
Definition getAccessToken : Method jsval :=
  c <- this ;;
  if truthy (accessToken c) then Eff.ret (accessToken c)
  else if negb (truthy (refreshToken c)) then Eff.throw (ErrorObj NO_REFRESH_TOKEN)
  else
    response <- fetch {| GRequest.method := "POST";
                         GRequest.url := TOKEN_URL;
                         GRequest.query := [];
                         GRequest.headers := FORM_HEADERS;
                         GRequest.body :=
                           Form [("client_id", clientId c);
                                 ("client_secret", clientSecret c);
                                 ("refresh_token", to_str (refreshToken c));
                                 ("grant_type", "refresh_token")] |} ;;
    if negb (Response.ok response)
    then
      error <- Eff.lift (Response.text response) ;;
      Eff.throw (ErrorObj ("Failed to refresh access token: " ++ error))
    else
      data <- Eff.lift (Response.json response) ;;
      set_this (fun c => with_accessToken c (GData.access_token data)) ;;;
      if negb (truthy (GData.access_token data))
      then Eff.throw (ErrorObj "Failed to obtain access token from Google")
      else Eff.ret (GData.access_token data).

Definition bearer (token : jsval) : string * string :=
  ("Authorization", "Bearer " ++ to_str token).

Definition JSON_HEADER : string * string := ("Content-Type", "application/json").

(** The error of a response that is not ok, for every method but
    [createEvent]: [`Google Calendar API error: ${response.status} - ${errorText}`]. *)
Definition throw_api_error {A : Type} (response : Response.t GData.t) : Method A :=
  errorText <- Eff.lift (Response.text response) ;;
  Eff.throw (ErrorObj ("Google Calendar API error: "
                       ++ Z_to_string (Response.status response) ++ " - " ++ errorText)).

(** [createEvent(event)]. *)
Definition createEvent (event : Payload.t) : Method GData.t :=
  token <- getAccessToken ;;
  response <- fetch {| GRequest.method := "POST";
                       GRequest.url := EVENTS_URL;
                       GRequest.query := [];
                       GRequest.headers := [bearer token; JSON_HEADER];
                       GRequest.body := JsonEvent event |} ;;
  if negb (Response.ok response)
  then Eff.throw (ErrorObj ("Google Calendar API error: "
                            ++ Z_to_string (Response.status response)))
  else Eff.lift (Response.json response).

(** [listEvents(timeMin, timeMax, maxResults?)]; the [GET] method is the
    default of [fetch]. *)
Definition listEvents (timeMin timeMax : string) (maxResults : option Z)
  : Method GData.t :=
  token <- getAccessToken ;;
  let query :=
    [("timeMin", timeMin); ("timeMax", timeMax); ("singleEvents", "true");
     ("orderBy", "startTime")]%list in
  let query :=
    match maxResults with
    | Some n => if n =? 0 then query
                else (query ++ [("maxResults", Z_to_string n)])%list
    | None => query
    end in
  response <- fetch {| GRequest.method := "GET";
                       GRequest.url := EVENTS_URL;
                       GRequest.query := query;
                       GRequest.headers := [bearer token];
                       GRequest.body := NoBody |} ;;
  if negb (Response.ok response) then throw_api_error response
  else Eff.lift (Response.json response).

(** [updateEvent(eventId, updates)]. *)
Definition updateEvent (eventId : string) (updates : Updates.t) : Method GData.t :=
  token <- getAccessToken ;;
  response <- fetch {| GRequest.method := "PATCH";
                       GRequest.url := EVENTS_URL ++ "/" ++ eventId;
                       GRequest.query := [];
                       GRequest.headers := [bearer token; JSON_HEADER];
                       GRequest.body := JsonUpdates updates |} ;;
  if negb (Response.ok response) then throw_api_error response
  else Eff.lift (Response.json response).

(** [deleteEvent(eventId)]. *)
Definition deleteEvent (eventId : string) : Method DeleteResult.t :=
  token <- getAccessToken ;;
  response <- fetch {| GRequest.method := "DELETE";
                       GRequest.url := EVENTS_URL ++ "/" ++ eventId;
                       GRequest.query := [];
                       GRequest.headers := [bearer token];
                       GRequest.body := NoBody |} ;;
  if negb (Response.ok response) then throw_api_error response
  else Eff.ret {| DeleteResult.success := true;
                  DeleteResult.message := "Event deleted successfully" |}.

(** [getEvent(eventId)]. *)
Definition getEvent (eventId : string) : Method GData.t :=
  token <- getAccessToken ;;
  response <- fetch {| GRequest.method := "GET";
                       GRequest.url := EVENTS_URL ++ "/" ++ eventId;
                       GRequest.query := [];
                       GRequest.headers := [bearer token];
                       GRequest.body := NoBody |} ;;
  if negb (Response.ok response) then throw_api_error response
  else Eff.lift (Response.json response).
End Methods.
End GoogleCalendarClient.

(** ** index.ts: the other tool handlers *)

(** The operations of [googleClient] the remaining handlers call. *)
Record CalendarAdmin (World : Type) : Type := {
  (** [googleClient.getAuthUrl()]. *)
  getAuthUrl : string;
  (** [googleClient.exchangeCodeForTokens(code)]. *)
  exchangeCodeForTokens : string -> Eff.M World Tokens.t;
  (** [googleClient.createEvent(event)] on an event without reminders. *)
  createPlainEvent : Payload.t -> Eff.M World GEvent.t;
  (** [googleClient.deleteEvent(eventId)]. *)
  deleteEvent : string -> Eff.M World DeleteResult.t
}.
Arguments getAuthUrl {World}.
Arguments exchangeCodeForTokens {World}.
Arguments createPlainEvent {World}.
Arguments deleteEvent {World}.

(** The arguments of a tool call, through the keys the handlers read. *)
Module ToolArgs.
Record t : Type := {
  code : jsval;
  eventId : jsval;
  title : jsval;
  description : jsval;
  startTime : jsval;
  endTime : jsval;
  timezone : jsval;
  daysAhead : option Z;
  maxResults : option Z
}.

Definition to_update (args : t) : UpdateArgs.t :=
  {| UpdateArgs.eventId := eventId args;
     UpdateArgs.title := title args;
     UpdateArgs.description := description args;
     UpdateArgs.startTime := startTime args;
     UpdateArgs.endTime := endTime args;
     UpdateArgs.timezone := timezone args |}.
End ToolArgs.

(** An entry of the list [get_canvas_assignments] prints. *)
Module Formatted.
Record t : Type := {
  type : string;
  name : jsval;
  due_date_est : string;
  points : jsval;
  course : jsval;
  url : jsval;
  description : string
}.
End Formatted.

(** [typeDisplay[key]] on the table's own keys. *)
Definition typeDisplay (key : string) : option string :=
  if String.eqb key "assignment" then Some "📚 Assignment"
  else if String.eqb key "quiz" then Some "📝 Quiz"
  else if String.eqb key "discussion" then Some "💬 Discussion"
  else if String.eqb key "event" then Some "📅 Event"
  else None.

(** The event object of [create_calendar_event]. *)
Definition plain_event (args : ToolArgs.t) : Payload.t :=
  let title := ToolArgs.title args in
  let description := js_or (ToolArgs.description args) (JStr EmptyString) in
  let startTime := ToolArgs.startTime args in
  let endTime := ToolArgs.endTime args in
  let timezone := js_or (ToolArgs.timezone args) NEW_YORK in
  {| Payload.summary := title;
     Payload.description := description;
     Payload.start := {| EventTime.dateTime := startTime; EventTime.timeZone := timezone |};
     Payload.end_ := {| EventTime.dateTime := endTime; EventTime.timeZone := timezone |};
     Payload.reminders := None |}.

Section OtherHandlers.
Context (P : Platform) {World : Type} (S : Services World) (G : CalendarAdmin World).
(** [s.substring(0, 100)] and [JSON.stringify(formatted, null, 2)]. *)
Variable substring_0_100 : string -> string.
Variable JSON_stringify : list Formatted.t -> string.
Local Open Scope eff_scope.

(** [case 'get_google_auth_url']. *)
Definition get_google_auth_url : Eff.M World string :=
  let authUrl := getAuthUrl G in
  Eff.ret ("Please visit this URL to authorize Google Calendar access:" ++ nl ++ nl
           ++ authUrl ++ nl ++ nl
           ++ "After authorizing, you'll be redirected to a URL with a 'code' parameter. Copy that code and use the 'set_google_auth_code' tool to complete the authentication.").

(** [case 'set_google_auth_code']. *)
Definition set_google_auth_code (args : ToolArgs.t) : Eff.M World string :=
  let code := ToolArgs.code args in
  if negb (truthy code)
  then Eff.throw (ErrorObj "Authorization code is required")
  else
    tokens <- exchangeCodeForTokens G (to_str code) ;;
    Eff.ret ("Authentication successful!" ++ nl ++ nl
             ++ "IMPORTANT: Save this refresh token to your configuration:" ++ nl ++ nl
             ++ "Refresh Token: " ++ to_str (Tokens.refresh_token tokens) ++ nl ++ nl
             ++ "Add this to your Claude Desktop config (claude_desktop_config.json) under the canvas-calendar-bridge env section:"
             ++ nl ++ dquote ++ "GOOGLE_REFRESH_TOKEN" ++ dquote ++ ": " ++ dquote
             ++ to_str (Tokens.refresh_token tokens) ++ dquote ++ nl ++ nl
             ++ "Then restart Claude Desktop for the changes to take effect.").

(** [case 'create_calendar_event']. *)
Definition create_calendar_event (args : ToolArgs.t) : Eff.M World string :=
  let title := ToolArgs.title args in
  let startTime := ToolArgs.startTime args in
  let endTime := ToolArgs.endTime args in
  if negb (truthy title) || negb (truthy startTime) || negb (truthy endTime)
  then Eff.throw (ErrorObj "title, startTime, and endTime are required")
  else
    createdEvent <- createPlainEvent G (plain_event args) ;;
    Eff.ret ("Calendar event created successfully!" ++ nl ++ nl
             ++ "Title: " ++ to_str title ++ nl
             ++ "Start: " ++ to_str startTime ++ nl
             ++ "End: " ++ to_str endTime ++ nl
             ++ "Event ID: " ++ to_str (GEvent.id createdEvent) ++ nl
             ++ "Link: " ++ to_str (GEvent.htmlLink createdEvent)).

(** [case 'delete_calendar_event']. *)
Definition delete_calendar_event (args : ToolArgs.t) : Eff.M World string :=
  let eventId := ToolArgs.eventId args in
  if negb (truthy eventId)
  then Eff.throw (ErrorObj "eventId is required")
  else
    deleteEvent G (to_str eventId) ;;;
    Eff.ret ("Event deleted successfully!" ++ nl ++ nl
             ++ "Event ID: " ++ to_str eventId).

(** [item.description ? item.description.substring(0, 100) + '...' : 'No description']:
    a truthy description that is not a string has no [substring] method. *)
Definition description_cell (description : jsval) : result string :=
  if truthy description
  then match description with
       | JStr s => inr (substring_0_100 s ++ "...")
       | _ => inl (ErrorObj "item.description.substring is not a function")
       end
  else inr "No description".

(** The callback of [assignments.map] in [case 'get_canvas_assignments']:
    [None] is [null]. *)
Definition format_item (item : Item.t) : result (option Formatted.t) :=
  let dueAtField := dueAtField_of item in
  let nameField := nameField_of item in
  if negb (truthy dueAtField) then inr None
  else
    let itemType :=
      match typeDisplay (Item.type item) with
      | Some d => d
      | None => "📄 Unknown"
      end in
    match convertToEST P dueAtField with
    | None => inr None
    | Some estDate =>
        match description_cell (Item.description item) with
        | inl error => inl error
        | inr description =>
            inr (Some
              {| Formatted.type := itemType;
                 Formatted.name := nameField;
                 Formatted.due_date_est := EST.readable estDate;
                 Formatted.points :=
                   js_or (js_or (Item.points_possible item)
                                (Assignment.points_possible (Item.assignment item)))
                         (JStr "N/A");
                 Formatted.course := js_or (Item.context_name item) (JStr "N/A");
                 Formatted.url :=
                   js_or (Item.html_url item)
                         (Assignment.html_url (Item.assignment item));
                 Formatted.description := description |})
        end
    end.

(** [assignments.map(...)]: the items in order, up to the first throw. *)
Fixpoint format_all (assignments : list Item.t) : result (list (option Formatted.t)) :=
  match assignments with
  | [] => inr []
  | item :: rest =>
      match format_item item with
      | inl error => inl error
      | inr f =>
          match format_all rest with
          | inl error => inl error
          | inr fs => inr (f :: fs)
          end
      end
  end.

(** [.filter((item) => item !== null)]. *)
Fixpoint drop_nulls (l : list (option Formatted.t)) : list Formatted.t :=
  match l with
  | [] => []
  | Some f :: rest => f :: drop_nulls rest
  | None :: rest => drop_nulls rest
  end.

(** [case 'get_canvas_assignments']. *)
Definition get_canvas_assignments : Eff.M World string :=
  assignments <- getUpcomingAssignments S ;;
  match assignments with
  | [] => Eff.ret "No upcoming assignments or quizzes found in Canvas."
  | _ =>
      mapped <- Eff.lift (format_all assignments) ;;
      let formatted := drop_nulls mapped in
      match formatted with
      | [] => Eff.ret "Found assignments/quizzes but none have valid due dates."
      | _ =>
          Eff.ret ("Found " ++ nat_to_string (List.length formatted)
                   ++ " upcoming item(s) with due dates (times shown in EST):"
                   ++ nl ++ nl ++ JSON_stringify formatted)
      end
  end.

(** The [switch (name)] of the request handler. *)
Definition handle_tool (name : string) (args : ToolArgs.t) : Eff.M World string :=
  if String.eqb name "get_google_auth_url" then get_google_auth_url
  else if String.eqb name "set_google_auth_code" then set_google_auth_code args
  else if String.eqb name "create_calendar_event" then create_calendar_event args
  else if String.eqb name "list_calendar_events"
  then list_calendar_events P S (ToolArgs.daysAhead args) (ToolArgs.maxResults args)
  else if String.eqb name "update_calendar_event"
  then update_calendar_event S (ToolArgs.to_update args)
  else if String.eqb name "delete_calendar_event" then delete_calendar_event args
  else if String.eqb name "get_canvas_assignments" then get_canvas_assignments
  else if String.eqb name "sync_to_calendar"
  then sync_to_calendar P S (ToolArgs.daysAhead args)
  else Eff.throw (ErrorObj ("Unknown tool: " ++ name)).

(** The handler of [CallToolRequestSchema]: the [switch] inside the outer
    [try ... catch]. *)
Definition call_tool (name : string) (args : ToolArgs.t)
  : World -> ToolResult.t * World :=
  respond (handle_tool name args).
End OtherHandlers.

(** ** Counting the events created

    The services with a log kept beside the world: a call of [createEvent]
    that returns appends its payload, nothing else touches the log. *)
Definition logged {World : Type} (S : Services World)
  : Services (list CalendarEvent.t * World) :=
  {| clock := fun '(log, w) => let (t, w') := clock S w in (t, (log, w'));
     fetch_courses := fun '(log, w) =>
       let (r, w') := fetch_courses S w in (r, (log, w'));
     fetch_assignments := fun id '(log, w) =>
       let (r, w') := fetch_assignments S id w in (r, (log, w'));
     createEvent := fun event '(log, w) =>
       match createEvent S event w with
       | (inr created, w') => (inr created, ((log ++ [event])%list, w'))
       | (inl error, w') => (inl error, (log, w'))
       end;
     listEvents := fun timeMin timeMax maxResults '(log, w) =>
       let (r, w') := listEvents S timeMin timeMax maxResults w in (r, (log, w'));
     updateEvent := fun eventId updates '(log, w) =>
       let (r, w') := updateEvent S eventId updates w in (r, (log, w')) |}.

(** ** Vocabulary for the properties *)

(** The assignments of each course with the course stamped on them, courses
    and assignments in the order given. *)
Fixpoint stamped (courses : list Course.t) (fetched : list (list Assignment.t))
  : list Assignment.t :=
  match courses, fetched with
  | course :: courses', assignments :: fetched' =>
      (map (Assignment.stamp course) assignments ++ stamped courses' fetched')%list
  | _, _ => []
  end.

(** [fetched_in_turn S courses w lists w']: asked for the assignments of each
    course in turn from the world [w], the server answered with [lists] and
    left the world [w']. *)
Inductive fetched_in_turn {World : Type} (S : Services World)
  : list Course.t -> World -> list (list Assignment.t) -> World -> Prop :=
| fetched_none w : fetched_in_turn S [] w [] w
| fetched_next course courses w assignments w1 lists w2 :
    fetch_assignments S (Course.id course) w = (inr assignments, w1) ->
    fetched_in_turn S courses w1 lists w2 ->
    fetched_in_turn S (course :: courses) w (assignments :: lists) w2.

(** The character [c] does not occur in [s]. *)
Fixpoint lacks (c : ascii) (s : string) : bool :=
  match s with
  | EmptyString => true
  | String x s' => negb (Ascii.eqb c x) && lacks c s'
  end.

(** The payloads of the sync: two popup reminders, both ends in New York. *)
Definition sync_payload (event : CalendarEvent.t) : Prop :=
  CalendarEvent.useDefault event = false
  /\ CalendarEvent.overrides event
     = [ {| Reminder.method := "popup"; Reminder.minutes := 1440 |};
         {| Reminder.method := "popup"; Reminder.minutes := 60 |} ]
  /\ EventTime.timeZone (CalendarEvent.start event) = NEW_YORK
  /\ EventTime.timeZone (CalendarEvent.end_ event) = NEW_YORK.

(** The response of the outer [catch] for an error with this message. *)
Definition error_response (message : string) : ToolResult.t :=
  {| ToolResult.text := "Error: " ++ message; ToolResult.isError := true |}.

(** An item [get_canvas_assignments] lists: it has a due date and the
    conversion of that date succeeds. *)
Definition listed (P : Platform) (item : Item.t) : bool :=
  truthy (dueAtField_of item)
  && match convertToEST P (dueAtField_of item) with
     | Some _ => true
     | None => false
     end.

(** A description that is truthy and not a string. *)
Definition odd_description (description : jsval) : bool :=
  truthy description
  && match description with JStr _ => false | _ => true end.

(** ** More of the concrete world *)
Module Demo2.
(** An assignment whose due date is not a date. *)
Definition garbled : Assignment.t := Demo.raw 66 "Garbled" "next Friday" JUndef.

Definition garbled_item : Item.t := Demo.item garbled (Demo.course 1 "Writing").

(** An assignment whose description is a number. *)
Definition numbered : Assignment.t :=
  {| Assignment.id := JNum 77;
     Assignment.name := JStr "Numbered";
     Assignment.description := JNum 5;
     Assignment.due_at := JStr "2025-11-08T04:59:59Z";
     Assignment.points_possible := JNum 10;
     Assignment.html_url := JUndef;
     Assignment.workflow_state := JStr "published";
     Assignment.published := JBool true;
     Assignment.is_quiz_assignment := JBool false;
     Assignment.quiz_id := JUndef;
     Assignment.discussion_topic := JUndef;
     Assignment.submission_types := Some ["online_upload"];
     Assignment.course_name := JUndef;
     Assignment.course_id := JUndef |}.

Definition numbered_item : Item.t := Demo.item numbered (Demo.course 1 "Writing").

(** [s.substring(0, 100)] on a string of one-byte characters. *)
Definition substring_0_100 (s : string) : string := String.substring 0 100 s.

(** A stand-in for [JSON.stringify]: the names, one per line. *)
Definition show (formatted : list Formatted.t) : string :=
  join nl (map (fun f => to_str (Formatted.name f)) formatted).

Definition admin : CalendarAdmin Z :=
  {| getAuthUrl := "https://accounts.google.com/o/oauth2/v2/auth?client_id=demo";
     exchangeCodeForTokens := fun code =>
       Eff.ret {| Tokens.access_token := JStr "access";
                  Tokens.refresh_token := JStr "refresh" |};
     createPlainEvent := fun _ => Eff.ret Demo.created;
     deleteEvent := fun _ =>
       Eff.ret {| DeleteResult.success := true;
                  DeleteResult.message := "Event deleted successfully" |} |}.
End Demo2.

(** The [TypeError] of calling [substring] on a value that has none. *)
Definition TYPE_ERROR : thrown :=
  ErrorObj "item.description.substring is not a function".

(** The requests of the calendar client, as its methods build them. *)
Module Requests.
Import GoogleCalendarClient.

Definition refresh_request (c : GoogleCalendarClient.t) : GRequest.t :=
  {| GRequest.method := "POST";
     GRequest.url := TOKEN_URL;
     GRequest.query := [];
     GRequest.headers := FORM_HEADERS;
     GRequest.body :=
       Form [("client_id", clientId c);
             ("client_secret", clientSecret c);
             ("refresh_token", to_str (refreshToken c));
             ("grant_type", "refresh_token")] |}.

Definition exchange_request (c : GoogleCalendarClient.t) (code : jsval) : GRequest.t :=
  {| GRequest.method := "POST";
     GRequest.url := TOKEN_URL;
     GRequest.query := [];
     GRequest.headers := FORM_HEADERS;
     GRequest.body :=
       Form [("client_id", clientId c);
             ("client_secret", clientSecret c);
             ("code", to_str code);
             ("redirect_uri", redirectUri c);
             ("grant_type", "authorization_code")] |}.

Definition create_request (token : jsval) (event : Payload.t) : GRequest.t :=
  {| GRequest.method := "POST";
     GRequest.url := EVENTS_URL;
     GRequest.query := [];
     GRequest.headers := [bearer token; JSON_HEADER];
     GRequest.body := JsonEvent event |}.

Definition delete_request (token : jsval) (eventId : string) : GRequest.t :=
  {| GRequest.method := "DELETE";
     GRequest.url := EVENTS_URL ++ "/" ++ eventId;
     GRequest.query := [];
     GRequest.headers := [bearer token];
     GRequest.body := NoBody |}.

Definition list_request (token : jsval) (query : list (string * string)) : GRequest.t :=
  {| GRequest.method := "GET";
     GRequest.url := EVENTS_URL;
     GRequest.query := query;
     GRequest.headers := [bearer token];
     GRequest.body := NoBody |}.

Definition update_request (token : jsval) (eventId : string) (updates : Updates.t)
  : GRequest.t :=
  {| GRequest.method := "PATCH";
     GRequest.url := EVENTS_URL ++ "/" ++ eventId;
     GRequest.query := [];
     GRequest.headers := [bearer token; JSON_HEADER];
     GRequest.body := JsonUpdates updates |}.

Definition get_request (token : jsval) (eventId : string) : GRequest.t :=
  {| GRequest.method := "GET";
     GRequest.url := EVENTS_URL ++ "/" ++ eventId;
     GRequest.query := [];
     GRequest.headers := [bearer token];
     GRequest.body := NoBody |}.

(** The four parameters [listEvents] always sends. *)
Definition list_query (timeMin timeMax : string) : list (string * string)%type :=
  [("timeMin", timeMin); ("timeMax", timeMax); ("singleEvents", "true");
   ("orderBy", "startTime")].
End Requests.

(** A Google server for the examples: the token endpoint answers a refresh
    with the access token [ya29] and no new refresh token; the calendar
    accepts what comes with that token and answers 401 otherwise; a deletion
    is answered with an empty body.  The world counts the requests. *)
Module DemoGoogle.
Definition no_event : GEvent.t :=
  {| GEvent.id := JUndef; GEvent.summary := JUndef; GEvent.htmlLink := JUndef;
     GEvent.start_dateTime := JUndef; GEvent.start_date := JUndef;
     GEvent.end_dateTime := JUndef; GEvent.end_date := JUndef |}.

Definition token_data : GData.t :=
  {| GData.access_token := JStr "ya29"; GData.refresh_token := JUndef;
     GData.event := no_event; GData.items := None |}.

Definition event_data : GData.t :=
  {| GData.access_token := JUndef; GData.refresh_token := JUndef;
     GData.event := Demo.created; GData.items := Some [Demo.created] |}.

Definition answer (status : Z) (data : result GData.t) (text : string)
  : Response.t GData.t :=
  {| Response.ok := (200 <=? status) && (status <? 300);
     Response.status := status;
     Response.statusText := EmptyString;
     Response.text := inr text;
     Response.json := data |}.

Definition authorized (request : GRequest.t) : bool :=
  existsb (fun h => String.eqb (fst h) "Authorization"
                    && String.eqb (snd h) "Bearer ya29")
          (GRequest.headers request).

Definition net (request : GRequest.t) (w : nat) : FetchOutcome GData.t * nat :=
  if String.eqb (GRequest.url request) GoogleCalendarClient.TOKEN_URL
  then (Responded (answer 200 (inr token_data) EmptyString), S w)
  else if negb (authorized request)
  then (Responded (answer 401 (inr token_data) "Invalid Credentials"), S w)
  else if String.eqb (GRequest.method request) "DELETE"
  then (Responded (answer 204 (inl (ErrorObj "Unexpected end of JSON input"))
                          EmptyString), S w)
  else (Responded (answer 200 (inr event_data) EmptyString), S w).

(** The same server with the token endpoint refusing the refresh token. *)
Definition net_refusing (request : GRequest.t) (w : nat)
  : FetchOutcome GData.t * nat :=
  if String.eqb (GRequest.url request) GoogleCalendarClient.TOKEN_URL
  then (Responded (answer 400 (inr token_data) "invalid_grant"), S w)
  else net request w.

(** The client as [index.ts] builds it, with a refresh token. *)
Definition client : GoogleCalendarClient.t :=
  GoogleCalendarClient.new "id" "secret" (JStr "1//refresh") JUndef.

(** The client after a token was obtained. *)
Definition signed_in : GoogleCalendarClient.t :=
  GoogleCalendarClient.with_accessToken client (JStr "ya29").

(** The client without any token. *)
Definition signed_out : GoogleCalendarClient.t :=
  GoogleCalendarClient.new "id" "secret" (JStr EmptyString) JUndef.

Definition meeting : Payload.t :=
  {| Payload.summary := JStr "Team Meeting";
     Payload.description := JStr EmptyString;
     Payload.start := {| EventTime.dateTime := JStr "2025-01-15T14:00:00";
                         EventTime.timeZone := NEW_YORK |};
     Payload.end_ := {| EventTime.dateTime := JStr "2025-01-15T15:00:00";
                        EventTime.timeZone := NEW_YORK |};
     Payload.reminders := None |}.
End DemoGoogle.

(** ** index.ts: the sync loop with its two arrays as state

    The same loop once more, this time as it is written: [synced] and
    [skipped] are arrays that live across the iterations, every
    [synced.push] and [skipped.push] of the source is a push on them, and a
    [catch] sees the arrays as the [try] block left them. *)
Module Arrays.
Record t : Type := { synced : list string; skipped : list string }.

(** [const synced = []; const skipped = [];]. *)
Definition empty : t := {| synced := []; skipped := [] |}.

Definition push_synced (syncMessage : string) (a : t) : t :=
  {| synced := (synced a ++ [syncMessage])%list; skipped := skipped a |}.

Definition push_skipped (skipReason : string) (a : t) : t :=
  {| synced := synced a; skipped := (skipped a ++ [skipReason])%list |}.
End Arrays.

Section SyncArrays.
Context (P : Platform) {World : Type} (S : Services World).
Local Open Scope eff_scope.

(** The statements of the loop run on the arrays and the world together. *)
Definition Loop (A : Type) : Type := Eff.M (Arrays.t * World) A.

(** [synced.push(syncMessage)]. *)
Definition synced_push (syncMessage : string) : Loop unit :=
  fun '(a, w) => (inr tt, (Arrays.push_synced syncMessage a, w)).

(** [skipped.push(skipReason)]. *)
Definition skipped_push (skipReason : string) : Loop unit :=
  fun '(a, w) => (inr tt, (Arrays.push_skipped skipReason a, w)).

(** A call that concerns the world only. *)
Definition in_world {A : Type} (m : Eff.M World A) : Loop A :=
  fun '(a, w) => let (r, w') := m w in (r, (a, w')).

(** The [try] block of one iteration, lines 585 to 703; a [continue] ends
    the block. *)
Definition sync_try_block (daysAhead : Z) (assignment : Item.t) : Loop unit :=
  let dueAtField := dueAtField_of assignment in
  let nameField := nameField_of assignment in
  if negb (truthy dueAtField)
  then skipped_push (reason_no_due_date nameField)
  else
    let dueDateUTC := Date_new P dueAtField in
    Eff.lift (Date_toISOString P dueDateUTC) ;;;
    match dueDateUTC with
    | None => skipped_push (reason_invalid_due_date nameField dueAtField)
    | Some due =>
        now <- in_world (Eff.total (clock S)) ;;
        let daysDiff := daysDiff_of due now in
        if in_window daysAhead daysDiff
        then
          match convertToEST P dueAtField with
          | None => skipped_push (reason_date_conversion nameField)
          | Some dueEST =>
              let endDate := TimeClip (due + 60 * 60 * 1000) in
              endISO <- Eff.lift (Date_toISOString P endDate) ;;
              match convertToEST P (JStr endISO) with
              | None => skipped_push (reason_end_date_conversion nameField)
              | Some endEST =>
                  let event := sync_event assignment dueEST endEST in
                  in_world (createEvent S event) ;;;
                  synced_push (sync_message assignment dueEST)
              end
          end
        else skipped_push (reason_outside nameField daysAhead daysDiff)
    end.

(** One iteration: the [try] block and the [catch] of lines 704 to 710. *)
Definition sync_iteration (daysAhead : Z) (assignment : Item.t) : Loop unit :=
  Eff.try_catch (sync_try_block daysAhead assignment)
                (fun error => skipped_push (reason_error assignment error)).

(** [for (const assignment of assignments) { ... }]. *)
Fixpoint sync_for (daysAhead : Z) (assignments : list Item.t) : Loop unit :=
  match assignments with
  | [] => Eff.ret tt
  | assignment :: rest =>
      sync_iteration daysAhead assignment ;;;
      sync_for daysAhead rest
  end.

(** [case 'sync_to_calendar'], lines 563 to 735: the window, the
    assignments, the two empty arrays, the loop, the text. *)
Definition sync_to_calendar_arrays (args_daysAhead : option Z) : Eff.M World string :=
  fun w =>
    let daysAhead := num_or args_daysAhead 14 in
    match getUpcomingAssignments S w with
    | (inl error, w1) => (inl error, w1)
    | (inr assignments, w1) =>
        match sync_for daysAhead assignments (Arrays.empty, w1) with
        | (inl error, (_, w')) => (inl error, w')
        | (inr _, (a, w')) =>
            (inr (sync_result_text (Arrays.synced a) (Arrays.skipped a)), w')
        end
    end.
End SyncArrays.

(** An entry pushed on the array its outcome names. *)
Definition push_outcome (o : outcome) (a : Arrays.t) : Arrays.t :=
  match o with
  | Synced syncMessage => Arrays.push_synced syncMessage a
  | Skipped skipReason => Arrays.push_skipped skipReason a
  end.

(** An assignment due in the hour that is repeated when daylight time ends
    in New York, 2025-11-02 between 1 and 2 in the morning. *)
Module DemoEdges.
Definition fall_back : Assignment.t :=
  Demo.raw 88 "Fall back" "2025-11-02T05:30:00Z" JUndef.

Definition fall_back_item : Item.t := Demo.item fall_back (Demo.course 1 "Writing").
End DemoEdges.

(** * Properties *)

(** ** Strings *)

Lemma append_assoc_s (a b c : string) : (a ++ b) ++ c = a ++ (b ++ c).
Proof.
  induction a as [|x a IH]; simpl; [reflexivity | now rewrite IH].
Qed.

Lemma append_nil_r (a : string) : a ++ EmptyString = a.
Proof.
  induction a as [|x a IH]; simpl; [reflexivity | now rewrite IH].
Qed.

Lemma includes_refl (s : string) : includes s s.
Proof.
  exists EmptyString, EmptyString. simpl. now rewrite append_nil_r.
Qed.

Lemma includes_app_r (p t s : string) : includes t s -> includes (p ++ t) s.
Proof.
  intros (pre & post & ->). exists (p ++ pre), post.
  now rewrite append_assoc_s.
Qed.

Lemma includes_app_l (t q s : string) : includes t s -> includes (t ++ q) s.
Proof.
  intros (pre & post & ->). exists pre, (post ++ q).
  now rewrite !append_assoc_s.
Qed.

Lemma includes_head (s q : string) : includes (s ++ q) s.
Proof. apply includes_app_l, includes_refl. Qed.

Lemma prefix_append (s post : string) : String.prefix s (s ++ post) = true.
Proof.
  induction s as [|c s IH]; simpl; [now destruct post |].
  destruct (ascii_dec c c); [exact IH | congruence].
Qed.

Lemma includesb_unfold (t s : string) :
  includesb t s
  = String.prefix s t
    || match t with
       | String _ t' => includesb t' s
       | EmptyString => false
       end.
Proof. destruct t; reflexivity. Qed.

(** [includesb] finds every occurrence. *)
Lemma includes_includesb (t s : string) : includes t s -> includesb t s = true.
Proof.
  intros (pre & post & ->).
  induction pre as [|c pre IH].
  - change (EmptyString ++ s ++ post) with (s ++ post).
    rewrite includesb_unfold, prefix_append. reflexivity.
  - rewrite includesb_unfold. simpl. rewrite IH. apply orb_true_r.
Qed.

(** ** Arithmetic of the window *)

Lemma ceil_div_spec (a b : Z) :
  0 < b -> b * (ceil_div a b - 1) < a <= b * ceil_div a b.
Proof.
  intros Hb. unfold ceil_div.
  pose proof (Z.div_mod (- a) b ltac:(lia)) as Hdm.
  pose proof (Z.mod_pos_bound (- a) b Hb) as Hr.
  lia.
Qed.

Lemma ceil_div_unique (a b q : Z) :
  0 < b -> b * (q - 1) < a <= b * q -> ceil_div a b = q.
Proof.
  intros Hb Hq. pose proof (ceil_div_spec a b Hb) as Hc. nia.
Qed.

Lemma in_window_iff (daysAhead daysDiff : Z) :
  in_window daysAhead daysDiff = true <-> 0 < daysDiff <= daysAhead.
Proof.
  unfold in_window. rewrite andb_true_iff, Z.leb_le, Z.gtb_lt. lia.
Qed.

Lemma in_window_false (daysAhead daysDiff : Z) :
  in_window daysAhead daysDiff = false <-> ~ (0 < daysDiff <= daysAhead).
Proof.
  rewrite <- in_window_iff. destruct (in_window daysAhead daysDiff); intuition congruence.
Qed.

(** ** The sync loop, one item at a time *)

Section SyncItem.
Context (P : Platform) {World : Type} (S : Services World).

(** An item whose due date is present and valid reaches the window test. *)
Lemma sync_try_parseable daysAhead assignment due now w w1 :
  truthy (dueAtField_of assignment) = true ->
  Date_new P (dueAtField_of assignment) = Some due ->
  clock S w = (now, w1) ->
  sync_try P S daysAhead assignment w =
    (if in_window daysAhead (daysDiff_of due now)
     then create_in_window P S assignment (dueAtField_of assignment) due w1
     else (inr (Skipped (reason_outside (nameField_of assignment) daysAhead
                                        (daysDiff_of due now))), w1)).
Proof.
  intros Ht Hd Hc. unfold sync_try. rewrite Ht, Hd. simpl.
  eff_unfold. simpl. rewrite Hc.
  destruct (in_window daysAhead (daysDiff_of due now)); reflexivity.
Qed.

(** C1: for an item whose due date parses to [due], with the clock
    reading [now], [daysDiff] is the ceiling of [(due - now) / 1 day], and
    the iteration enters the event-creation branch exactly when
    [0 < daysDiff <= daysAhead]; otherwise the item is skipped as outside
    the window.  So [daysDiff = 0] is skipped, [daysDiff = 1] under
    [daysAhead = 1] is admitted, [daysDiff = 15] under [daysAhead = 14] is
    skipped. *)
Theorem sync_window_admission daysAhead assignment due now w w1 :
  truthy (dueAtField_of assignment) = true ->
  Date_new P (dueAtField_of assignment) = Some due ->
  clock S w = (now, w1) ->
  let daysDiff := daysDiff_of due now in
  let enter :=
    Eff.try_catch
      (create_in_window P S assignment (dueAtField_of assignment) due)
      (fun error => Eff.ret (Skipped (reason_error assignment error))) w1 in
  let skip :=
    (inr (Skipped (reason_outside (nameField_of assignment) daysAhead daysDiff)),
     w1) in
  MS_PER_DAY * (daysDiff - 1) < due - now <= MS_PER_DAY * daysDiff
  /\ (0 < daysDiff <= daysAhead -> sync_item P S daysAhead assignment w = enter)
  /\ (~ (0 < daysDiff <= daysAhead) -> sync_item P S daysAhead assignment w = skip)
  /\ (daysDiff = 0 -> sync_item P S daysAhead assignment w = skip)
  /\ (daysDiff = 1 -> daysAhead = 1 -> sync_item P S daysAhead assignment w = enter)
  /\ (daysDiff = 15 -> daysAhead = 14 -> sync_item P S daysAhead assignment w = skip).
Proof.
  intros Ht Hd Hc daysDiff enter skip.
  assert (Hin : 0 < daysDiff <= daysAhead ->
                sync_item P S daysAhead assignment w = enter).
  { intros Hw. unfold sync_item, Eff.try_catch at 1.
    rewrite (sync_try_parseable daysAhead assignment due now w w1 Ht Hd Hc).
    fold daysDiff. apply in_window_iff in Hw. rewrite Hw. reflexivity. }
  assert (Hout : ~ (0 < daysDiff <= daysAhead) ->
                 sync_item P S daysAhead assignment w = skip).
  { intros Hw. unfold sync_item, Eff.try_catch.
    rewrite (sync_try_parseable daysAhead assignment due now w w1 Ht Hd Hc).
    fold daysDiff. apply in_window_false in Hw. rewrite Hw. reflexivity. }
  split; [apply ceil_div_spec; reflexivity |].
  repeat split.
  - exact Hin.
  - exact Hout.
  - intros H0. apply Hout. lia.
  - intros H1 Ha. apply Hin. lia.
  - intros H15 Ha. apply Hout. lia.
Qed.
End SyncItem.

(** ** Classification *)

(** [detectItemType] resolves the kind by first match: quiz, then
    discussion, then assignment, then event. *)
Lemma detectItemType_priority (event : CanvasEvent.t) :
  let a := CanvasEvent.assignment event in
  let quiz_marker :=
    truthy (nested Assignment.quiz_id a) || nested_includes a "online_quiz" in
  let discussion_marker :=
    truthy (nested Assignment.discussion_topic a)
    || nested_includes a "discussion_topic" in
  let assignment_marker :=
    (match a with Some _ => true | None => false end)
    || (match CanvasEvent.type event with
        | JStr s => String.eqb s "assignment"
        | _ => false
        end) in
  (quiz_marker = true -> detectItemType event = "quiz")
  /\ (quiz_marker = false -> discussion_marker = true ->
      detectItemType event = "discussion")
  /\ (quiz_marker = false -> discussion_marker = false ->
      assignment_marker = true -> detectItemType event = "assignment")
  /\ (quiz_marker = false -> discussion_marker = false ->
      assignment_marker = false -> detectItemType event = "event").
Proof.
  cbv zeta. unfold detectItemType.
  repeat split; intros; repeat
    match goal with H : _ = _ |- _ => rewrite H; clear H end; reflexivity.
Qed.

(** The detection inlined in the transformation knows two quiz markers,
    [is_quiz_assignment] and [quiz_id], one discussion marker, the submission
    type, and has no fallback other than assignment. *)
Lemma itemType_priority (assignment : Assignment.t) :
  let quiz_marker :=
    truthy (Assignment.is_quiz_assignment assignment)
    || truthy (Assignment.quiz_id assignment) in
  let discussion_marker :=
    arr_includes (Assignment.submission_types assignment) "discussion_topic" in
  (quiz_marker = true -> itemType assignment = "quiz")
  /\ (quiz_marker = false -> discussion_marker = true ->
      itemType assignment = "discussion")
  /\ (quiz_marker = false -> discussion_marker = false ->
      itemType assignment = "assignment").
Proof.
  cbv zeta. unfold itemType, js_or.
  destruct (truthy (Assignment.is_quiz_assignment assignment)) eqn:Eq;
    simpl; rewrite ?Eq;
    destruct (truthy (Assignment.quiz_id assignment));
    destruct (arr_includes (Assignment.submission_types assignment) "discussion_topic");
    repeat split; intros; congruence.
Qed.

(** C2: the transformation run by [getUpcomingAssignments] does not look at
    the submission type [online_quiz]: an assignment marked as a quiz only
    that way is returned with type [assignment], and with type [discussion]
    when a discussion marker is present too, while [detectItemType] on the
    same data answers [quiz] both times. *)
Theorem transform_misses_online_quiz :
  arr_includes (Assignment.submission_types Demo.online_quiz) "online_quiz" = true
  /\ normalize_all [Demo.online_quiz] = [transform Demo.online_quiz]
  /\ Item.type (transform Demo.online_quiz) = "assignment"
  /\ detectItemType (Demo.as_event (transform Demo.online_quiz)) = "quiz"
  /\ Item.type (transform Demo.quiz_and_discussion) = "discussion"
  /\ detectItemType (Demo.as_event (transform Demo.quiz_and_discussion)) = "quiz".
Proof.
  repeat split; reflexivity.
Qed.

(** ** Normalization: filter, then transform *)

Lemma in_normalize_all (raws : list Assignment.t) (it : Item.t) :
  In it (normalize_all raws) <->
  exists raw, In raw raws /\ published_with_due_date raw = true /\ it = transform raw.
Proof.
  unfold normalize_all. rewrite in_map_iff. split.
  - intros (raw & <- & Hin). apply filter_In in Hin. destruct Hin. eauto.
  - intros (raw & Hin & Hp & ->). exists raw. split; [reflexivity |].
    apply filter_In. auto.
Qed.

(** A published assignment with a due date and without a name is turned into
    an item: its title, its name and the nested [assignment.name] are all
    [undefined]. *)
Lemma nameless_item_is_kept :
  truthy (Assignment.name Demo.nameless) = false
  /\ exists it,
       normalize_all [Demo.nameless] = [it]
       /\ Item.title it = JUndef
       /\ Item.name it = JUndef
       /\ Assignment.name (Item.assignment it) = JUndef
       /\ truthy (nameField_of it) = false.
Proof.
  split; [reflexivity |].
  exists (transform Demo.nameless). repeat split; reflexivity.
Qed.

(** C3, amended: the items [getUpcomingAssignments] builds are exactly the
    transforms of the raw assignments that are published and have a due
    date, in order.  So every item carries a due date, at the top level and
    in the nested assignment, both the raw one; an assignment without a due
    date or not published yields no item; the title is the raw name,
    whatever it is, and a name is never a reason to drop an item. *)
Theorem normalized_items_have_due_date (raws : list Assignment.t) :
  (forall it, In it (normalize_all raws) ->
     truthy (Item.due_at it) = true
     /\ truthy (dueAtField_of it) = true
     /\ Item.due_at it = Assignment.due_at (Item.assignment it)
     /\ Item.title it = Assignment.name (Item.assignment it)
     /\ is_true (Assignment.published (Item.assignment it)) = true
     /\ In (Item.assignment it) raws)
  /\ (forall raw, In raw raws ->
        truthy (Assignment.due_at raw) = false
        \/ is_true (Assignment.published raw) = false ->
        forall it, In it (normalize_all raws) -> Item.assignment it <> raw)
  /\ (forall raw, In raw raws ->
        is_true (Assignment.published raw) = true ->
        truthy (Assignment.due_at raw) = true ->
        In (transform raw) (normalize_all raws))
  /\ List.length (normalize_all raws)
     = List.length (filter published_with_due_date raws).
Proof.
  split; [| split; [| split]].
  - intros it Hit. apply in_normalize_all in Hit.
    destruct Hit as (raw & Hin & Hp & ->).
    apply andb_true_iff in Hp. destruct Hp as [Hpub Hdue].
    unfold dueAtField_of, js_or. simpl. rewrite Hdue. repeat split; auto.
  - intros raw Hin Hbad it Hit Heq.
    apply in_normalize_all in Hit. destruct Hit as (raw' & _ & Hp & ->).
    simpl in Heq. subst raw'. apply andb_true_iff in Hp.
    destruct Hp as [Hpub Hdue]. destruct Hbad; congruence.
  - intros raw Hin Hpub Hdue. apply in_normalize_all. exists raw.
    unfold published_with_due_date. rewrite Hpub, Hdue. auto.
  - unfold normalize_all. apply length_map.
Qed.

(** ** Fetching the courses *)

Section FetchAll.
Context {World : Type} (S : Services World).

Lemma fetch_course_ok course acc assignments w w' :
  fetch_assignments S (Course.id course) w = (inr assignments, w') ->
  fetch_course S course acc w
  = (inr (acc ++ map (Assignment.stamp course) assignments)%list, w').
Proof.
  intros H. unfold fetch_course. eff_unfold. now rewrite H.
Qed.

Lemma fetch_course_fails course acc error w w' :
  fetch_assignments S (Course.id course) w = (inl error, w') ->
  fetch_course S course acc w = (inl (wrapped_fetch_error course error), w').
Proof.
  intros H. unfold fetch_course. eff_unfold. now rewrite H.
Qed.

(** The loop over a list of courses continues after a prefix that was
    fetched without a fault. *)
Lemma fetch_all_app pre post :
  forall acc w acc1 w1,
    fetch_all S pre acc w = (inr acc1, w1) ->
    fetch_all S (pre ++ post)%list acc w = fetch_all S post acc1 w1.
Proof.
  induction pre as [|c pre IH]; intros acc w acc1 w1 H; simpl in *.
  - unfold Eff.ret in H. now inversion H.
  - unfold Eff.bind in *.
    destruct (fetch_course S c acc w) as [[e | all] w2]; [discriminate |].
    now apply IH.
Qed.

(** The first fault ends the loop, whatever was collected and whatever
    courses remain. *)
Lemma fetch_all_fails course post acc error w w' :
  fetch_assignments S (Course.id course) w = (inl error, w') ->
  fetch_all S (course :: post) acc w
  = (inl (wrapped_fetch_error course error), w').
Proof.
  intros H. simpl. unfold Eff.bind.
  now rewrite (fetch_course_fails course acc error w w' H).
Qed.

(** C4: when the courses are [pre ++ course :: post], the assignments of
    the courses in [pre] have been fetched and the fetch for [course]
    raises, [getUpcomingAssignments] raises: its result is the wrapped
    fault, never a list, so nothing collected from [pre] is returned and
    the courses in [post] are not asked.  With [pre] and [post] of one
    course each this is the case of three courses whose second fails. *)
Theorem getUpcomingAssignments_fail_fast
        pre course post t w w0 w1 collected w2 error w3 :
  clock S w = (t, w0) ->
  fetch_courses S w0 = (inr (pre ++ course :: post)%list, w1) ->
  fetch_all S pre [] w1 = (inr collected, w2) ->
  fetch_assignments S (Course.id course) w2 = (inl error, w3) ->
  getUpcomingAssignments S w = (inl (wrapped_fetch_error course error), w3)
  /\ (forall items w', getUpcomingAssignments S w <> (inr items, w')).
Proof.
  intros Hc Hcs Hpre Hf.
  assert (E : getUpcomingAssignments S w
              = (inl (wrapped_fetch_error course error), w3)).
  { unfold getUpcomingAssignments. eff_unfold. rewrite Hc, Hcs.
    rewrite (fetch_all_app pre (course :: post) [] w1 collected w2 Hpre).
    now rewrite (fetch_all_fails course post collected error w2 w3 Hf). }
  split; [exact E |]. intros items w'. rewrite E. discriminate.
Qed.
End FetchAll.

(** ** The sync loop as a whole *)

Section SyncLoop.
Context (P : Platform) {World : Type} (S : Services World).

(** One iteration never throws: it ends with exactly one entry to push. *)
Lemma sync_item_total daysAhead assignment w :
  exists o w', sync_item P S daysAhead assignment w = (inr o, w').
Proof.
  unfold sync_item, Eff.try_catch.
  destruct (sync_try P S daysAhead assignment w) as [[e | o] w'];
    unfold Eff.ret; eauto.
Qed.

Lemma sync_loop_step daysAhead assignment rest synced skipped w o w' :
  sync_item P S daysAhead assignment w = (inr o, w') ->
  sync_loop P S daysAhead (assignment :: rest) synced skipped w
  = match o with
    | Synced m => sync_loop P S daysAhead rest (synced ++ [m])%list skipped w'
    | Skipped r => sync_loop P S daysAhead rest synced (skipped ++ [r])%list w'
    end.
Proof.
  intros H. simpl. unfold Eff.bind. rewrite H. now destruct o.
Qed.

(** The loop ends without a fault, and the two arrays grow by one entry
    per item in total. *)
Lemma sync_loop_counts daysAhead assignments :
  forall synced skipped w,
  exists synced' skipped' w',
    sync_loop P S daysAhead assignments synced skipped w
    = (inr (synced', skipped'), w')
    /\ (List.length synced' + List.length skipped'
        = List.length synced + List.length skipped + List.length assignments)%nat.
Proof.
  induction assignments as [|a rest IH]; intros synced skipped w.
  - exists synced, skipped, w. split; [reflexivity | simpl; lia].
  - destruct (sync_item_total daysAhead a w) as (o & w1 & Ho).
    rewrite (sync_loop_step daysAhead a rest synced skipped w o w1 Ho).
    destruct o as [m | r].
    + destruct (IH (synced ++ [m])%list skipped w1) as (s' & k' & w' & E & L).
      exists s', k', w'. split; [exact E |].
      rewrite length_app in L. simpl in *. lia.
    + destruct (IH synced (skipped ++ [r])%list w1) as (s' & k' & w' & E & L).
      exists s', k', w'. split; [exact E |].
      rewrite length_app in L. simpl in *. lia.
Qed.

(** The loop in its outcome form: when [getUpcomingAssignments] returns
    [items], the run ends with two arrays whose lengths add up to the number
    of items.  (That every push site of the source pushes once is shown
    further down, on the loop with its arrays as state.) *)
Theorem sync_accounts_for_every_item args_daysAhead items w w1 :
  getUpcomingAssignments S w = (inr items, w1) ->
  (exists synced skipped w',
      sync_run P S args_daysAhead w = (inr (synced, skipped), w')
      /\ (List.length synced + List.length skipped = List.length items)%nat)
  /\ (forall assignment rest synced skipped w2,
        (exists m w3,
            sync_item P S (num_or args_daysAhead 14) assignment w2
            = (inr (Synced m), w3)
            /\ sync_loop P S (num_or args_daysAhead 14) (assignment :: rest)
                         synced skipped w2
               = sync_loop P S (num_or args_daysAhead 14) rest
                           (synced ++ [m])%list skipped w3)
        \/ (exists r w3,
            sync_item P S (num_or args_daysAhead 14) assignment w2
            = (inr (Skipped r), w3)
            /\ sync_loop P S (num_or args_daysAhead 14) (assignment :: rest)
                         synced skipped w2
               = sync_loop P S (num_or args_daysAhead 14) rest
                           synced (skipped ++ [r])%list w3)).
Proof.
  intros Hg. split.
  - unfold sync_run, Eff.bind. rewrite Hg.
    destruct (sync_loop_counts (num_or args_daysAhead 14) items [] [] w1)
      as (s' & k' & w' & E & L).
    exists s', k', w'. split; [exact E | simpl in L; lia].
  - intros a rest synced skipped w2.
    destruct (sync_item_total (num_or args_daysAhead 14) a w2) as (o & w3 & Ho).
    pose proof (sync_loop_step _ a rest synced skipped w2 o w3 Ho) as St.
    destruct o as [m | r]; [left | right]; eauto.
Qed.
End SyncLoop.

(** ** Inside the window: conversions, payload, creation *)

Lemma points_text_cases (assignment : Item.t) :
  let points := js_or (Item.points_possible assignment)
                      (Assignment.points_possible (Item.assignment assignment)) in
  (truthy points = true /\ points_text assignment = to_str points)
  \/ (truthy points = false /\ points_text assignment = "N/A").
Proof.
  cbv zeta. unfold points_text.
  generalize (js_or (Item.points_possible assignment)
                    (Assignment.points_possible (Item.assignment assignment))).
  intros points. unfold js_or.
  destruct (truthy points); [left | right]; split; reflexivity.
Qed.

Lemma course_text_cases (assignment : Item.t) :
  (truthy (Item.context_name assignment) = true
   /\ course_text assignment = to_str (Item.context_name assignment))
  \/ (truthy (Item.context_name assignment) = false
      /\ course_text assignment = "N/A").
Proof.
  unfold course_text, js_or.
  destruct (truthy (Item.context_name assignment)); [left | right];
    split; reflexivity.
Qed.

Lemma sync_event_description assignment dueEST endEST :
  includes (CalendarEvent.description (sync_event assignment dueEST endEST))
           ("Points: " ++ points_text assignment)
  /\ includes (CalendarEvent.description (sync_event assignment dueEST endEST))
              ("Course: " ++ course_text assignment)
  /\ includes (CalendarEvent.description (sync_event assignment dueEST endEST))
              ("Due: " ++ EST.readable dueEST ++ " EST").
Proof.
  unfold sync_event; cbn [CalendarEvent.description].
  set (label := TypeInfo.label _).
  repeat split.
  - exists (label ++ nl ++ nl ++ "Due: " ++ EST.readable dueEST ++ " EST" ++ nl),
      (nl ++ "Course: " ++ course_text assignment ++ nl ++ nl
       ++ "Link: " ++ link_text assignment).
    rewrite !append_assoc_s. reflexivity.
  - exists (label ++ nl ++ nl ++ "Due: " ++ EST.readable dueEST ++ " EST" ++ nl
            ++ "Points: " ++ points_text assignment ++ nl),
      (nl ++ nl ++ "Link: " ++ link_text assignment).
    rewrite !append_assoc_s. reflexivity.
  - exists (label ++ nl ++ nl),
      (nl ++ "Points: " ++ points_text assignment ++ nl
       ++ "Course: " ++ course_text assignment ++ nl ++ nl
       ++ "Link: " ++ link_text assignment).
    rewrite !append_assoc_s. reflexivity.
Qed.

Lemma reason_error_includes assignment error :
  includes (reason_error assignment error) (message_or_unknown error).
Proof.
  unfold reason_error.
  exists (to_str (js_or (js_or (Item.title assignment) (Item.name assignment))
                        (JStr "Unknown")) ++ " (error: "), ")".
  rewrite !append_assoc_s. reflexivity.
Qed.

Section InWindow.
Context (P : Platform) {World : Type} (S : Services World).

(** What an iteration does once the window test has passed. *)
Lemma sync_item_in_window daysAhead assignment due now w w1 :
  truthy (dueAtField_of assignment) = true ->
  Date_new P (dueAtField_of assignment) = Some due ->
  clock S w = (now, w1) ->
  0 < daysDiff_of due now <= daysAhead ->
  sync_item P S daysAhead assignment w
  = match convertToEST P (dueAtField_of assignment) with
    | None =>
        (inr (Skipped (reason_date_conversion (nameField_of assignment))), w1)
    | Some dueEST =>
        match TimeClip (due + 60 * 60 * 1000) with
        | None =>
            (inr (Skipped (reason_error assignment (ErrorObj "Invalid time value"))),
             w1)
        | Some endTime =>
            match convertToEST P (JStr (toISOString P endTime)) with
            | None =>
                (inr (Skipped (reason_end_date_conversion (nameField_of assignment))),
                 w1)
            | Some endEST =>
                match createEvent S (sync_event assignment dueEST endEST) w1 with
                | (inr _, w2) =>
                    (inr (Synced (sync_message assignment dueEST)), w2)
                | (inl error, w2) =>
                    (inr (Skipped (reason_error assignment error)), w2)
                end
            end
        end
    end.
Proof.
  intros Ht Hd Hc Hw.
  unfold sync_item, Eff.try_catch at 1.
  rewrite (sync_try_parseable P S daysAhead assignment due now w w1 Ht Hd Hc).
  apply in_window_iff in Hw. rewrite Hw.
  unfold create_in_window.
  destruct (convertToEST P (dueAtField_of assignment)) as [dueEST |];
    [| reflexivity].
  eff_unfold.
  destruct (TimeClip (due + 60 * 60 * 1000)) as [endTime |]; simpl;
    [| reflexivity].
  destruct (convertToEST P (JStr (toISOString P endTime))) as [endEST |];
    [| reflexivity].
  destruct (createEvent S (sync_event assignment dueEST endEST) w1)
    as [[e | g] w2]; reflexivity.
Qed.

(** What an iteration does with an item inside the window: when the
    conversion of the due date fails, it is skipped with a reason containing "date conversion
    failed"; otherwise the end of the event is the due instant plus
    3600000 ms, converted too, the item being skipped with a reason
    containing "end date conversion failed" when that conversion fails;
    and the payload handed to [createEvent] ends at that converted time,
    has the two popup reminders of 1440 and 60 minutes, and a description
    with the points or "N/A" and the course or "N/A".  (When the due
    instant plus one hour is past the last valid time value, no end time
    exists: [toISOString] throws and the item is skipped with that error.) *)
Theorem sync_item_inside_window daysAhead assignment due now w w1 :
  truthy (dueAtField_of assignment) = true ->
  Date_new P (dueAtField_of assignment) = Some due ->
  clock S w = (now, w1) ->
  0 < daysDiff_of due now <= daysAhead ->
  let nameField := nameField_of assignment in
  let endTime := due + 3600000 in
  (convertToEST P (dueAtField_of assignment) = None ->
     sync_item P S daysAhead assignment w
     = (inr (Skipped (reason_date_conversion nameField)), w1)
     /\ includes (reason_date_conversion nameField) "date conversion failed")
  /\ (forall dueEST,
        convertToEST P (dueAtField_of assignment) = Some dueEST ->
        (TimeClip endTime = None ->
           sync_item P S daysAhead assignment w
           = (inr (Skipped (reason_error assignment (ErrorObj "Invalid time value"))),
              w1))
        /\ (TimeClip endTime = Some endTime ->
            (convertToEST P (JStr (toISOString P endTime)) = None ->
               sync_item P S daysAhead assignment w
               = (inr (Skipped (reason_end_date_conversion nameField)), w1)
               /\ includes (reason_end_date_conversion nameField)
                           "end date conversion failed")
            /\ (forall endEST,
                  convertToEST P (JStr (toISOString P endTime)) = Some endEST ->
                  let event := sync_event assignment dueEST endEST in
                  sync_item P S daysAhead assignment w
                  = match createEvent S event w1 with
                    | (inr _, w2) =>
                        (inr (Synced (sync_message assignment dueEST)), w2)
                    | (inl error, w2) =>
                        (inr (Skipped (reason_error assignment error)), w2)
                    end
                  /\ CalendarEvent.start event
                     = {| EventTime.dateTime := JStr (EST.datetime dueEST);
                          EventTime.timeZone := NEW_YORK |}
                  /\ CalendarEvent.end_ event
                     = {| EventTime.dateTime := JStr (EST.datetime endEST);
                          EventTime.timeZone := NEW_YORK |}
                  /\ CalendarEvent.useDefault event = false
                  /\ CalendarEvent.overrides event
                     = [ {| Reminder.method := "popup"; Reminder.minutes := 1440 |};
                         {| Reminder.method := "popup"; Reminder.minutes := 60 |} ]
                  /\ includes (CalendarEvent.description event)
                              ("Points: " ++ points_text assignment)
                  /\ includes (CalendarEvent.description event)
                              ("Course: " ++ course_text assignment))))
  /\ (let points :=
        js_or (Item.points_possible assignment)
              (Assignment.points_possible (Item.assignment assignment)) in
      (truthy points = true /\ points_text assignment = to_str points)
      \/ (truthy points = false /\ points_text assignment = "N/A"))
  /\ ((truthy (Item.context_name assignment) = true
       /\ course_text assignment = to_str (Item.context_name assignment))
      \/ (truthy (Item.context_name assignment) = false
          /\ course_text assignment = "N/A")).
Proof.
  intros Ht Hd Hc Hw nameField endTime.
  pose proof (sync_item_in_window daysAhead assignment due now w w1 Ht Hd Hc Hw)
    as E.
  change (60 * 60 * 1000) with 3600000 in E. fold endTime in E.
  split; [| split; [| split;
    [apply points_text_cases | apply course_text_cases]]].
  - intros Hn. rewrite Hn in E. split; [exact E |].
    unfold reason_date_conversion. exists (to_str nameField ++ " ("), ")".
    rewrite !append_assoc_s. reflexivity.
  - intros dueEST Hs. rewrite Hs in E. split.
    + intros Hclip. rewrite Hclip in E. exact E.
    + intros Hclip. rewrite Hclip in E. split.
      * intros Hn. rewrite Hn in E. split; [exact E |].
        unfold reason_end_date_conversion.
        exists (to_str nameField ++ " ("), ")".
        rewrite !append_assoc_s. reflexivity.
      * intros endEST He event. rewrite He in E.
        destruct (sync_event_description assignment dueEST endEST)
          as (Hp & Hco & _).
        repeat split; try assumption.
Qed.

(** C5: when the creation of the event of an admitted item raises
    [error], the iteration catches it and ends with one skip reason that
    contains the message of the error, and the loop goes on with the rest
    of the items on the world the failed call left.  With one item synced
    before and one after, the run over the three items ends with two
    synced entries and one skipped entry, the third item among the
    synced. *)
Theorem sync_isolates_creation_failure
        daysAhead assignment due now dueEST endEST error w w1 w2 :
  truthy (dueAtField_of assignment) = true ->
  Date_new P (dueAtField_of assignment) = Some due ->
  clock S w = (now, w1) ->
  0 < daysDiff_of due now <= daysAhead ->
  convertToEST P (dueAtField_of assignment) = Some dueEST ->
  TimeClip (due + 3600000) = Some (due + 3600000) ->
  convertToEST P (JStr (toISOString P (due + 3600000))) = Some endEST ->
  createEvent S (sync_event assignment dueEST endEST) w1 = (inl error, w2) ->
  sync_item P S daysAhead assignment w
  = (inr (Skipped (reason_error assignment error)), w2)
  /\ includes (reason_error assignment error) (message_or_unknown error)
  /\ (forall message, error = ErrorObj message ->
        includes (reason_error assignment error) message)
  /\ (forall rest synced skipped,
        sync_loop P S daysAhead (assignment :: rest) synced skipped w
        = sync_loop P S daysAhead rest synced
                    (skipped ++ [reason_error assignment error])%list w2)
  /\ (forall first third m1 m3 w0 w3,
        sync_item P S daysAhead first w0 = (inr (Synced m1), w) ->
        sync_item P S daysAhead third w2 = (inr (Synced m3), w3) ->
        sync_loop P S daysAhead [first; assignment; third] [] [] w0
        = (inr ([m1; m3], [reason_error assignment error]), w3)
        /\ List.length [m1; m3] = 2%nat
        /\ List.length [reason_error assignment error] = 1%nat).
Proof.
  intros Ht Hd Hc Hw Hs Hclip He Hcreate.
  assert (E : sync_item P S daysAhead assignment w
              = (inr (Skipped (reason_error assignment error)), w2)).
  { rewrite (sync_item_in_window daysAhead assignment due now w w1 Ht Hd Hc Hw).
    change (60 * 60 * 1000) with 3600000.
    now rewrite Hs, Hclip, He, Hcreate. }
  assert (Hstep : forall rest synced skipped,
             sync_loop P S daysAhead (assignment :: rest) synced skipped w
             = sync_loop P S daysAhead rest synced
                         (skipped ++ [reason_error assignment error])%list w2).
  { intros. now rewrite (sync_loop_step P S daysAhead assignment rest synced
                                        skipped w _ w2 E). }
  split; [exact E |].
  split; [apply reason_error_includes |].
  split; [intros message ->; apply (reason_error_includes assignment (ErrorObj message)) |].
  split; [exact Hstep |].
  intros first third m1 m3 w0 w3 H1 H3.
  split; [| split; reflexivity].
  rewrite (sync_loop_step P S daysAhead first _ [] [] w0 _ w H1).
  rewrite Hstep.
  rewrite (sync_loop_step P S daysAhead third [] _ _ w2 _ w3 H3).
  reflexivity.
Qed.
End InWindow.

(** C7: the guard that reports a failed end date conversion is passed
    by.  With a window of 100000000 days, the assignment due on
    +275760-09-12T23:30:00.000Z is admitted and its due date is converted;
    the due instant plus one hour is not a valid time value, so
    [endDate.toISOString()] throws before [convertToEST] is called and
    before the test [if (!endEST)]; the item is skipped by the [catch] with
    the message of that error, which does not mention an end date
    conversion. *)
Lemma far_future_end_time_throws :
  Date_new NewYork.platform (dueAtField_of Demo.far_future_item)
  = Some 8639999998200000
  /\ in_window 100000000 (daysDiff_of 8639999998200000 Demo.start) = true
  /\ convertToEST NewYork.platform (dueAtField_of Demo.far_future_item)
     = Some {| EST.datetime := "275760-09-12T19:30:00";
               EST.readable := "September 12, 275760 at 7:30 PM" |}
  /\ TimeClip (8639999998200000 + 3600000) = None
  /\ sync_item NewYork.platform (Demo.services false false) 100000000
               Demo.far_future_item Demo.start
     = (inr (Skipped "Far future (error: Invalid time value)"), Demo.start + 1)
  /\ ~ includes "Far future (error: Invalid time value)" "end date conversion failed".
Proof.
  split; [vm_compute; reflexivity |].
  split; [vm_compute; reflexivity |].
  split; [vm_compute; reflexivity |].
  split; [vm_compute; reflexivity |].
  split; [vm_compute; reflexivity |].
  intros H. apply includes_includesb in H. vm_compute in H. discriminate.
Qed.

(** ** The time-zone helper on the motivating instant *)

(** C6: 2025-11-08T04:59:59Z, the 8th of November in UTC, is converted
    to the local date and time 2025-11-07T23:59:59 of America/New_York, the
    day before, and the readable form names November 7, 2025. *)
Theorem convertToEST_crosses_midnight :
  Date_new NewYork.platform (JStr "2025-11-08T04:59:59Z") = Some 1762577999000
  /\ NewYork.fields 1762577999000 = (2025, 11, 8, 4, 59, 59, 0)
  /\ NewYork.fields (1762577999000 + NewYork.utc_offset 1762577999000)
     = (2025, 11, 7, 23, 59, 59, 0)
  /\ exists readable,
       convertToEST NewYork.platform (JStr "2025-11-08T04:59:59Z")
       = Some {| EST.datetime := "2025-11-07T23:59:59"; EST.readable := readable |}
       /\ includes readable "November 7, 2025".
Proof.
  split; [vm_compute; reflexivity |].
  split; [vm_compute; reflexivity |].
  split; [vm_compute; reflexivity |].
  exists "November 7, 2025 at 11:59 PM".
  split; [vm_compute; reflexivity |].
  exists EmptyString, " at 11:59 PM". reflexivity.
Qed.

(** ** Defaults of the numeric arguments *)

Lemma num_or_zero (d : Z) : num_or (Some 0) d = num_or None d.
Proof. reflexivity. Qed.

Lemma num_or_default (d : Z) : d <> 0 -> num_or (Some d) d = num_or None d.
Proof.
  intros Hd. unfold num_or. destruct (d =? 0) eqn:E; [| reflexivity].
  apply Z.eqb_eq in E. contradiction.
Qed.

(** C9: an argument equal to 0 is replaced by the default like an absent
    one: [sync_to_calendar] with [daysAhead = 0] is [sync_to_calendar] with
    no argument and with 14, [list_calendar_events] with [daysAhead = 0] or
    [maxResults = 0] is the call without that argument and with 7 or 10.
    The window obtained from 0 is the one of 14 days, which takes items in,
    where a window of 0 days would take none. *)
Theorem zero_arguments_take_defaults
        (P : Platform) (World : Type) (S : Services World) (w : World) :
  sync_to_calendar P S (Some 0) w = sync_to_calendar P S None w
  /\ sync_to_calendar P S (Some 0) w = sync_to_calendar P S (Some 14) w
  /\ (forall maxResults,
        list_calendar_events P S (Some 0) maxResults w
        = list_calendar_events P S None maxResults w
        /\ list_calendar_events P S (Some 0) maxResults w
           = list_calendar_events P S (Some 7) maxResults w)
  /\ (forall daysAhead,
        list_calendar_events P S daysAhead (Some 0) w
        = list_calendar_events P S daysAhead None w
        /\ list_calendar_events P S daysAhead (Some 0) w
           = list_calendar_events P S daysAhead (Some 10) w)
  /\ list_calendar_events P S (Some 0) (Some 0) w
     = list_calendar_events P S (Some 7) (Some 10) w
  /\ (forall daysDiff,
        in_window (num_or (Some 0) 14) daysDiff = in_window 14 daysDiff)
  /\ in_window (num_or (Some 0) 14) 1 = true
  /\ (forall daysDiff, in_window 0 daysDiff = false).
Proof.
  repeat split; try reflexivity.
  intros daysDiff. apply in_window_false. lia.
Qed.

(** ** The updates of an event *)

(** C10: [description] enters [updates] whenever it is not [undefined],
    with the value given, so the empty string is sent and replaces the stored
    description; [title], [startTime] and [endTime] enter only when truthy,
    so an empty string leaves the key out and the stored field as it was.
    The handler passes exactly this object to [updateEvent]. *)
Theorem update_handles_empty_strings_asymmetrically (args : UpdateArgs.t) :
  let updates := build_updates args in
  let timezone := js_or (UpdateArgs.timezone args) NEW_YORK in
  Updates.description updates
  = (if is_defined (UpdateArgs.description args)
     then Some (UpdateArgs.description args) else None)
  /\ Updates.summary updates
     = (if truthy (UpdateArgs.title args) then Some (UpdateArgs.title args) else None)
  /\ Updates.start updates
     = (if truthy (UpdateArgs.startTime args)
        then Some {| EventTime.dateTime := UpdateArgs.startTime args;
                     EventTime.timeZone := timezone |}
        else None)
  /\ Updates.end_ updates
     = (if truthy (UpdateArgs.endTime args)
        then Some {| EventTime.dateTime := UpdateArgs.endTime args;
                     EventTime.timeZone := timezone |}
        else None)
  /\ (UpdateArgs.description args = JStr EmptyString ->
      Updates.description updates = Some (JStr EmptyString)
      /\ forall stored,
           Stored.description (Stored.patch stored updates) = JStr EmptyString)
  /\ (UpdateArgs.description args = JUndef ->
      Updates.description updates = None
      /\ forall stored,
           Stored.description (Stored.patch stored updates)
           = Stored.description stored)
  /\ (UpdateArgs.title args = JStr EmptyString ->
      Updates.summary updates = None
      /\ forall stored,
           Stored.summary (Stored.patch stored updates) = Stored.summary stored)
  /\ (UpdateArgs.startTime args = JStr EmptyString ->
      Updates.start updates = None
      /\ forall stored,
           Stored.start (Stored.patch stored updates) = Stored.start stored)
  /\ (UpdateArgs.endTime args = JStr EmptyString ->
      Updates.end_ updates = None
      /\ forall stored,
           Stored.end_ (Stored.patch stored updates) = Stored.end_ stored)
  /\ (forall (World : Type) (S : Services World) (w : World),
        truthy (UpdateArgs.eventId args) = true ->
        update_calendar_event S args w
        = Eff.bind (updateEvent S (to_str (UpdateArgs.eventId args)) updates)
            (fun updatedEvent =>
               Eff.ret ("Event updated successfully!" ++ nl ++ nl
                        ++ "Event ID: " ++ to_str (UpdateArgs.eventId args) ++ nl
                        ++ "Title: " ++ to_str (GEvent.summary updatedEvent) ++ nl
                        ++ "Link: " ++ to_str (GEvent.htmlLink updatedEvent))) w).
Proof.
  cbv zeta.
  assert (Hd : Updates.description (build_updates args)
               = (if is_defined (UpdateArgs.description args)
                  then Some (UpdateArgs.description args) else None)).
  { unfold build_updates.
    destruct (truthy (UpdateArgs.title args)),
             (is_defined (UpdateArgs.description args)),
             (truthy (UpdateArgs.startTime args)),
             (truthy (UpdateArgs.endTime args)); reflexivity. }
  assert (Hs : Updates.summary (build_updates args)
               = (if truthy (UpdateArgs.title args)
                  then Some (UpdateArgs.title args) else None)).
  { unfold build_updates.
    destruct (truthy (UpdateArgs.title args)),
             (is_defined (UpdateArgs.description args)),
             (truthy (UpdateArgs.startTime args)),
             (truthy (UpdateArgs.endTime args)); reflexivity. }
  assert (Hst : Updates.start (build_updates args)
                = (if truthy (UpdateArgs.startTime args)
                   then Some {| EventTime.dateTime := UpdateArgs.startTime args;
                                EventTime.timeZone :=
                                  js_or (UpdateArgs.timezone args) NEW_YORK |}
                   else None)).
  { unfold build_updates.
    destruct (truthy (UpdateArgs.title args)),
             (is_defined (UpdateArgs.description args)),
             (truthy (UpdateArgs.startTime args)),
             (truthy (UpdateArgs.endTime args)); reflexivity. }
  assert (He : Updates.end_ (build_updates args)
               = (if truthy (UpdateArgs.endTime args)
                  then Some {| EventTime.dateTime := UpdateArgs.endTime args;
                               EventTime.timeZone :=
                                 js_or (UpdateArgs.timezone args) NEW_YORK |}
                  else None)).
  { unfold build_updates.
    destruct (truthy (UpdateArgs.title args)),
             (is_defined (UpdateArgs.description args)),
             (truthy (UpdateArgs.startTime args)),
             (truthy (UpdateArgs.endTime args)); reflexivity. }
  repeat apply conj; try assumption.
  - intros E. rewrite E in Hd. simpl in Hd. split; [exact Hd |].
    intros stored. unfold Stored.patch; cbn [Stored.description]. now rewrite Hd.
  - intros E. rewrite E in Hd. simpl in Hd. split; [exact Hd |].
    intros stored. unfold Stored.patch; cbn [Stored.description]. now rewrite Hd.
  - intros E. rewrite E in Hs. simpl in Hs. split; [exact Hs |].
    intros stored. unfold Stored.patch; cbn [Stored.summary]. now rewrite Hs.
  - intros E. rewrite E in Hst. simpl in Hst. split; [exact Hst |].
    intros stored. unfold Stored.patch; cbn [Stored.start]. now rewrite Hst.
  - intros E. rewrite E in He. simpl in He. split; [exact He |].
    intros stored. unfold Stored.patch; cbn [Stored.end_]. now rewrite He.
  - intros World S w Hid. unfold update_calendar_event. now rewrite Hid.
Qed.

(** ** The properties at work in the concrete world *)

(** The essay, due 2025-11-08T04:59:59Z and seen on 2025-11-01T12:00:00Z, is
    7 days away: admitted and synced under a window of 14 days, skipped
    under a window of 3 days. *)
Lemma sync_window_admission_witness :
  truthy (dueAtField_of Demo.essay_item) = true
  /\ Date_new NewYork.platform (dueAtField_of Demo.essay_item) = Some 1762577999000
  /\ clock (Demo.services false false) Demo.start = (Demo.start, Demo.start + 1)
  /\ daysDiff_of 1762577999000 Demo.start = 7
  /\ sync_item NewYork.platform (Demo.services false false) 14
               Demo.essay_item Demo.start
     = (inr (Synced "Essay 1 (Canvas Assignment) - Due: November 7, 2025 at 11:59 PM"),
        Demo.start + 1)
  /\ sync_item NewYork.platform (Demo.services false false) 3
               Demo.essay_item Demo.start
     = (inr (Skipped "Essay 1 (outside 3 day window - 7 days away)"), Demo.start + 1).
Proof.
  assert (Ht : truthy (dueAtField_of Demo.essay_item) = true) by reflexivity.
  assert (Hd : Date_new NewYork.platform (dueAtField_of Demo.essay_item)
               = Some 1762577999000) by (vm_compute; reflexivity).
  assert (Hc : clock (Demo.services false false) Demo.start
               = (Demo.start, Demo.start + 1)) by reflexivity.
  assert (H7 : daysDiff_of 1762577999000 Demo.start = 7) by (vm_compute; reflexivity).
  destruct (sync_window_admission NewYork.platform (Demo.services false false) 14
              Demo.essay_item 1762577999000 Demo.start Demo.start (Demo.start + 1)
              Ht Hd Hc) as (_ & Hin & _).
  destruct (sync_window_admission NewYork.platform (Demo.services false false) 3
              Demo.essay_item 1762577999000 Demo.start Demo.start (Demo.start + 1)
              Ht Hd Hc) as (_ & _ & Hout & _).
  split; [exact Ht |]. split; [exact Hd |]. split; [exact Hc |].
  split; [exact H7 |]. split.
  - rewrite Hin by (rewrite H7; lia). vm_compute. reflexivity.
  - rewrite Hout by (rewrite H7; lia). vm_compute. reflexivity.
Defined.

(** The counterexample to the name rule again, through the theorem: the
    nameless assignment is published and has a due date, so its transform is
    among the items. *)
Lemma normalized_items_have_due_date_witness :
  In Demo.nameless [Demo.essay; Demo.nameless]
  /\ is_true (Assignment.published Demo.nameless) = true
  /\ truthy (Assignment.due_at Demo.nameless) = true
  /\ In (transform Demo.nameless) (normalize_all [Demo.essay; Demo.nameless])
  /\ truthy (Item.due_at (transform Demo.nameless)) = true.
Proof.
  assert (Hin : In Demo.nameless [Demo.essay; Demo.nameless])
    by (right; left; reflexivity).
  assert (Hp : is_true (Assignment.published Demo.nameless) = true) by reflexivity.
  assert (Hd : truthy (Assignment.due_at Demo.nameless) = true) by reflexivity.
  destruct (normalized_items_have_due_date [Demo.essay; Demo.nameless])
    as (Hall & _ & Hkeep & _).
  pose proof (Hkeep Demo.nameless Hin Hp Hd) as Hk.
  split; [exact Hin |]. split; [exact Hp |]. split; [exact Hd |].
  split; [exact Hk |].
  exact (proj1 (Hall _ Hk)).
Defined.

(** Three courses, the second one down: the call raises, with the fault of
    the second course in its message, after the first course was fetched. *)
Lemma getUpcomingAssignments_fail_fast_witness :
  Demo.courses
  = ([Demo.course 1 "Writing"] ++ Demo.course 2 "Logic" :: [Demo.course 3 "Physics"])%list
  /\ fetch_all (Demo.services true false) [Demo.course 1 "Writing"] [] (Demo.start + 1)
     = (inr [Assignment.stamp (Demo.course 1 "Writing") Demo.essay], Demo.start + 1)
  /\ getUpcomingAssignments (Demo.services true false) Demo.start
     = (inl (ErrorObj ("Failed to fetch assignments for course " ++ dquote ++ "Logic"
                       ++ dquote ++ ": Canvas API error: 500 Internal Server Error")),
        Demo.start + 1).
Proof.
  assert (Hpre : fetch_all (Demo.services true false) [Demo.course 1 "Writing"] []
                           (Demo.start + 1)
                 = (inr [Assignment.stamp (Demo.course 1 "Writing") Demo.essay],
                    Demo.start + 1)) by reflexivity.
  split; [reflexivity |]. split; [exact Hpre |].
  apply (getUpcomingAssignments_fail_fast (Demo.services true false)
           [Demo.course 1 "Writing"] (Demo.course 2 "Logic")
           [Demo.course 3 "Physics"] Demo.start Demo.start (Demo.start + 1)
           (Demo.start + 1) _ (Demo.start + 1)
           (ErrorObj "Canvas API error: 500 Internal Server Error")
           (Demo.start + 1) eq_refl eq_refl Hpre eq_refl).
Defined.

(** Three admissible items, the calendar rejecting the second: two synced,
    one skipped with the message of the calendar, the third synced. *)
Lemma sync_isolates_creation_failure_witness :
  sync_loop NewYork.platform (Demo.services false true) 14
            [Demo.essay_item; Demo.quiz2_item; Demo.lab3_item] [] [] Demo.start
  = (inr (["Essay 1 (Canvas Assignment) - Due: November 7, 2025 at 11:59 PM";
           "Lab 3 (Canvas Assignment) - Due: November 9, 2025 at 11:59 PM"],
          ["Quiz 2 (error: Google Calendar API error: 403)"]),
     Demo.start + 3).
Proof.
  pose (P := NewYork.platform). pose (S := Demo.services false true).
  pose (dueEST := {| EST.datetime := "2025-11-08T23:59:59";
                     EST.readable := "November 8, 2025 at 11:59 PM" |}).
  pose (endEST := {| EST.datetime := "2025-11-09T00:59:59";
                     EST.readable := "November 9, 2025 at 12:59 AM" |}).
  assert (Ht : truthy (dueAtField_of Demo.quiz2_item) = true) by reflexivity.
  assert (Hd : Date_new P (dueAtField_of Demo.quiz2_item) = Some 1762664399000)
    by (vm_compute; reflexivity).
  assert (Hc : clock S (Demo.start + 1) = (Demo.start + 1, Demo.start + 2))
    by reflexivity.
  assert (Hw : 0 < daysDiff_of 1762664399000 (Demo.start + 1) <= 14)
    by (replace (daysDiff_of 1762664399000 (Demo.start + 1)) with 8
         by (vm_compute; reflexivity); lia).
  assert (Hs : convertToEST P (dueAtField_of Demo.quiz2_item) = Some dueEST)
    by (vm_compute; reflexivity).
  assert (Hclip : TimeClip (1762664399000 + 3600000) = Some (1762664399000 + 3600000))
    by (vm_compute; reflexivity).
  assert (He : convertToEST P (JStr (toISOString P (1762664399000 + 3600000)))
               = Some endEST) by (vm_compute; reflexivity).
  assert (Hcreate : createEvent S (sync_event Demo.quiz2_item dueEST endEST)
                                (Demo.start + 2)
                    = (inl (ErrorObj "Google Calendar API error: 403"), Demo.start + 2))
    by (vm_compute; reflexivity).
  destruct (sync_isolates_creation_failure P S 14 Demo.quiz2_item 1762664399000
              (Demo.start + 1) dueEST endEST
              (ErrorObj "Google Calendar API error: 403")
              (Demo.start + 1) (Demo.start + 2) (Demo.start + 2)
              Ht Hd Hc Hw Hs Hclip He Hcreate) as (_ & _ & _ & _ & H3).
  destruct (H3 Demo.essay_item Demo.lab3_item
              "Essay 1 (Canvas Assignment) - Due: November 7, 2025 at 11:59 PM"
              "Lab 3 (Canvas Assignment) - Due: November 9, 2025 at 11:59 PM"
              Demo.start (Demo.start + 3)
              ltac:(vm_compute; reflexivity) ltac:(vm_compute; reflexivity))
    as (E & _).
  exact E.
Defined.

(** The quiz, admitted under 14 days: its event starts at the due time of
    2025-11-08 23:59:59 in New York and ends one hour later, on the next
    day; the description shows its 10 points and its course. *)
Lemma sync_item_inside_window_witness :
  0 < daysDiff_of 1762664399000 Demo.start <= 14
  /\ sync_item NewYork.platform (Demo.services false false) 14
               Demo.quiz2_item Demo.start
     = (inr (Synced "Quiz 2 (Canvas Quiz) - Due: November 8, 2025 at 11:59 PM"),
        Demo.start + 1)
  /\ exists event,
       CalendarEvent.start event
       = {| EventTime.dateTime := JStr "2025-11-08T23:59:59";
            EventTime.timeZone := NEW_YORK |}
       /\ CalendarEvent.end_ event
          = {| EventTime.dateTime := JStr "2025-11-09T00:59:59";
               EventTime.timeZone := NEW_YORK |}
       /\ includes (CalendarEvent.description event) "Points: 10"
       /\ includes (CalendarEvent.description event) "Course: Logic".
Proof.
  pose (P := NewYork.platform). pose (S := Demo.services false false).
  pose (dueEST := {| EST.datetime := "2025-11-08T23:59:59";
                     EST.readable := "November 8, 2025 at 11:59 PM" |}).
  pose (endEST := {| EST.datetime := "2025-11-09T00:59:59";
                     EST.readable := "November 9, 2025 at 12:59 AM" |}).
  assert (Ht : truthy (dueAtField_of Demo.quiz2_item) = true) by reflexivity.
  assert (Hd : Date_new P (dueAtField_of Demo.quiz2_item) = Some 1762664399000)
    by (vm_compute; reflexivity).
  assert (Hc : clock S Demo.start = (Demo.start, Demo.start + 1)) by reflexivity.
  assert (Hw : 0 < daysDiff_of 1762664399000 Demo.start <= 14)
    by (replace (daysDiff_of 1762664399000 Demo.start) with 8
         by (vm_compute; reflexivity); lia).
  assert (Hs : convertToEST P (dueAtField_of Demo.quiz2_item) = Some dueEST)
    by (vm_compute; reflexivity).
  assert (Hclip : TimeClip (1762664399000 + 3600000) = Some (1762664399000 + 3600000))
    by (vm_compute; reflexivity).
  assert (He : convertToEST P (JStr (toISOString P (1762664399000 + 3600000)))
               = Some endEST) by (vm_compute; reflexivity).
  destruct (sync_item_inside_window P S 14 Demo.quiz2_item 1762664399000 Demo.start
              Demo.start (Demo.start + 1) Ht Hd Hc Hw) as (_ & Hsome & _).
  destruct (Hsome dueEST Hs) as (_ & Hend).
  destruct (Hend Hclip) as (_ & Hev).
  destruct (Hev endEST He) as (E & Hstart & Hstop & _ & _ & Hpoints & Hcourse).
  split; [exact Hw |]. split; [exact E |].
  exists (sync_event Demo.quiz2_item dueEST endEST).
  split; [exact Hstart |]. split; [exact Hstop |].
  split; [exact Hpoints | exact Hcourse].
Defined.

(** With every course up, three items are fetched and the run accounts for
    the three of them. *)
Lemma sync_accounts_for_every_item_witness :
  getUpcomingAssignments (Demo.services false true) Demo.start
  = (inr [Demo.essay_item; Demo.quiz2_item; Demo.lab3_item], Demo.start + 1)
  /\ exists synced skipped w',
       sync_run NewYork.platform (Demo.services false true) (Some 14) Demo.start
       = (inr (synced, skipped), w')
       /\ (List.length synced + List.length skipped = 3)%nat.
Proof.
  assert (Hg : getUpcomingAssignments (Demo.services false true) Demo.start
               = (inr [Demo.essay_item; Demo.quiz2_item; Demo.lab3_item],
                  Demo.start + 1)) by reflexivity.
  split; [exact Hg |].
  exact (proj1 (sync_accounts_for_every_item NewYork.platform
                  (Demo.services false true) (Some 14) _ Demo.start
                  (Demo.start + 1) Hg)).
Defined.

(** Empty strings for the title and the description: only the description
    is sent, and only the stored description changes. *)
Lemma update_handles_empty_strings_asymmetrically_witness :
  let args := {| UpdateArgs.eventId := JStr "evt";
                 UpdateArgs.title := JStr EmptyString;
                 UpdateArgs.description := JStr EmptyString;
                 UpdateArgs.startTime := JUndef;
                 UpdateArgs.endTime := JUndef;
                 UpdateArgs.timezone := JUndef |} in
  Updates.description (build_updates args) = Some (JStr EmptyString)
  /\ Updates.summary (build_updates args) = None
  /\ forall stored,
       Stored.summary (Stored.patch stored (build_updates args))
       = Stored.summary stored
       /\ Stored.description (Stored.patch stored (build_updates args))
          = JStr EmptyString.
Proof.
  intros args.
  destruct (update_handles_empty_strings_asymmetrically args)
    as (_ & _ & _ & _ & Hdesc & _ & Htitle & _).
  destruct (Hdesc eq_refl) as (Hd & Hd').
  destruct (Htitle eq_refl) as (Ht & Ht').
  split; [exact Hd |]. split; [exact Ht |].
  intros stored. split; [apply Ht' | apply Hd'].
Defined.

(** * Further properties of the code *)

(** ** canvas.ts: the HTTP wrapper *)

Lemma try_catch_rethrow {World A : Type} (m : Eff.M World A) (w : World) :
  Eff.try_catch m (fun error => Eff.throw error) w = m w.
Proof.
  unfold Eff.try_catch, Eff.throw. destruct (m w) as [[e | a] w']; reflexivity.
Qed.

(** X1: [CanvasClient.fetch] returns data only from a response that is ok
    and whose body parses; a response that is not ok becomes an error with
    the status and the status text, an aborted request an error naming the
    timeout and the URL, and any other rejection is thrown unchanged. *)
Theorem canvas_fetch_outcomes
        {World Data : Type} (net : CanvasRequest.t -> World -> FetchOutcome Data * World)
        (apiToken domain endpoint : string) (timeoutMs : Z) (w : World) :
  let url := domain ++ "/api/v1" ++ endpoint in
  let request :=
    {| CanvasRequest.url := url;
       CanvasRequest.authorization := "Bearer " ++ apiToken;
       CanvasRequest.content_type := "application/json" |} in
  let run := canvas_fetch net apiToken domain endpoint timeoutMs w in
  (forall data w',
      run = (inr data, w') <->
      exists response,
        net request w = (Responded response, w')
        /\ Response.ok response = true
        /\ Response.json response = inr data)
  /\ (forall response w',
        net request w = (Responded response, w') ->
        Response.ok response = false ->
        run = (inl (ErrorObj ("Canvas API error: "
                              ++ Z_to_string (Response.status response) ++ " "
                              ++ Response.statusText response)), w'))
  /\ (forall message w',
        net request w = (RejectedAbort message, w') ->
        run = (inl (ErrorObj ("Canvas API timeout after " ++ Z_to_string timeoutMs
                              ++ "ms for " ++ url)), w'))
  /\ (forall error w',
        net request w = (Rejected error, w') -> run = (inl error, w')).
Proof.
  cbv zeta. unfold canvas_fetch.
  set (request := {| CanvasRequest.url := domain ++ "/api/v1" ++ endpoint;
                     CanvasRequest.authorization := "Bearer " ++ apiToken;
                     CanvasRequest.content_type := "application/json" |}).
  split; [| split; [| split]].
  - intros data w'. split.
    + destruct (net request w) as [[response | message | error] w1];
        try discriminate.
      destruct (Response.ok response) eqn:Hok; simpl; [| discriminate].
      intros H. inversion H; subst. exists response. auto.
    + intros (response & Hn & Hok & Hj). rewrite Hn, Hok. simpl. now rewrite Hj.
  - intros response w' Hn Hok. rewrite Hn, Hok. reflexivity.
  - intros message w' Hn. rewrite Hn. reflexivity.
  - intros error w' Hn. rewrite Hn. reflexivity.
Qed.

(** X2: the getters add nothing to [fetch]: their [catch] throws the same
    error again.  [getCalendarEvents] asks for the events of [user_1] and
    appends [start_date] and [end_date], in that order and as given, for
    the arguments that are truthy only. *)
Theorem canvas_getters_are_transparent
        {World Data : Type} (net : CanvasRequest.t -> World -> FetchOutcome Data * World)
        (apiToken domain : string) (w : World) :
  getCourses net apiToken domain w
  = canvas_fetch net apiToken domain "/courses?enrollment_state=active" 30000 w
  /\ (forall courseId,
        getAssignmentsByCourse net apiToken domain courseId w
        = canvas_fetch net apiToken domain
            ("/courses/" ++ Z_to_string courseId ++ "/assignments") 30000 w)
  /\ (forall startDate endDate,
        getCalendarEvents net apiToken domain startDate endDate w
        = canvas_fetch net apiToken domain
            (calendar_events_endpoint startDate endDate) 30000 w)
  /\ (forall startDate endDate,
        let base := "/calendar_events?context_codes[]=user_1" in
        calendar_events_endpoint startDate endDate
        = base
          ++ (if truthy startDate then "&start_date=" ++ to_str startDate
              else EmptyString)
          ++ (if truthy endDate then "&end_date=" ++ to_str endDate
              else EmptyString))
  /\ calendar_events_endpoint (JStr EmptyString) JUndef
     = "/calendar_events?context_codes[]=user_1".
Proof.
  split; [apply try_catch_rethrow |].
  split; [intros; apply try_catch_rethrow |].
  split; [intros; apply try_catch_rethrow |].
  split; [| reflexivity].
  intros startDate endDate. cbv zeta. unfold calendar_events_endpoint.
  destruct (truthy startDate), (truthy endDate);
    rewrite ?append_assoc_s, ?append_nil_r; reflexivity.
Qed.

(** ** canvas.ts: what [getUpcomingAssignments] returns *)

Section UpcomingAssignments.
Context {World : Type} (S : Services World).

Lemma fetch_course_cases course acc w :
  (exists assignments w',
      fetch_assignments S (Course.id course) w = (inr assignments, w')
      /\ fetch_course S course acc w
         = (inr (acc ++ map (Assignment.stamp course) assignments)%list, w'))
  \/ (exists error w',
         fetch_assignments S (Course.id course) w = (inl error, w')
         /\ fetch_course S course acc w = (inl (wrapped_fetch_error course error), w')).
Proof.
  destruct (fetch_assignments S (Course.id course) w) as [[e | l] w'] eqn:E.
  - right. exists e, w'. split; [reflexivity |].
    now apply fetch_course_fails.
  - left. exists l, w'. split; [reflexivity |].
    now apply fetch_course_ok.
Qed.

(** The loop succeeds exactly when every course answers in turn, and then
    it has appended the stamped assignments of the courses, in order. *)
Lemma fetch_all_succeeds_iff courses :
  forall acc w all w',
    fetch_all S courses acc w = (inr all, w') <->
    exists lists,
      fetched_in_turn S courses w lists w'
      /\ all = (acc ++ stamped courses lists)%list.
Proof.
  induction courses as [|c cs IH]; intros acc w all w'.
  - simpl. unfold Eff.ret. split.
    + intros H. inversion H; subst. exists []. split; [constructor |].
      now rewrite app_nil_r.
    + intros (lists & Hf & ->). inversion Hf; subst. now rewrite app_nil_r.
  - simpl. unfold Eff.bind. split.
    + destruct (fetch_course_cases c acc w)
        as [(l & w1 & Hl & Hc) | (e & w1 & He & Hc)]; rewrite Hc;
        [| discriminate].
      intros H. apply IH in H. destruct H as (lists & Hf & ->).
      exists (l :: lists). split; [econstructor; eauto |].
      simpl. now rewrite app_assoc.
    + intros (lists & Hf & ->).
      inversion Hf as [| c' cs' w0 l w1 ls w2 Hfetch Hrest]; subst.
      rewrite (fetch_course_ok S c acc l w w1 Hfetch).
      apply IH. exists ls. split; [exact Hrest |].
      simpl. now rewrite app_assoc.
Qed.

(** The loop fails exactly at the first course whose fetch raises, with the
    error of that fetch wrapped. *)
Lemma fetch_all_fails_iff courses :
  forall acc w raised w',
    fetch_all S courses acc w = (inl raised, w') <->
    exists pre course post collected w1 error,
      courses = (pre ++ course :: post)%list
      /\ fetch_all S pre acc w = (inr collected, w1)
      /\ fetch_assignments S (Course.id course) w1 = (inl error, w')
      /\ raised = wrapped_fetch_error course error.
Proof.
  induction courses as [|c cs IH]; intros acc w raised w'.
  - simpl. unfold Eff.ret. split; [discriminate |].
    intros (pre & course & post & _ & _ & _ & Hcs & _).
    now destruct pre.
  - split.
    + simpl. unfold Eff.bind.
      destruct (fetch_course_cases c acc w)
        as [(l & w1 & Hl & Hc) | (e & w1 & He & Hc)]; rewrite Hc.
      * intros H. apply IH in H.
        destruct H as (pre & course & post & collected & w2 & error
                       & -> & Hpre & Hf & ->).
        exists (c :: pre), course, post, collected, w2, error.
        repeat split; try assumption.
        simpl. unfold Eff.bind. now rewrite Hc.
      * intros H. inversion H; subst.
        exists [], c, cs, acc, w, e. repeat split; assumption.
    + intros (pre & course & post & collected & w1 & error
              & Hcs & Hpre & Hf & ->).
      rewrite Hcs.
      rewrite (fetch_all_app S pre (course :: post) acc w collected w1 Hpre).
      now apply fetch_all_fails.
Qed.

(** X3: [getUpcomingAssignments] returns a list exactly when the list of
    courses and then the assignments of every course, asked in the order of
    the courses, were all fetched; the list is then the filtered and
    transformed assignments, courses in the order received and assignments
    in the order of their course, each stamped with its course. *)
Theorem getUpcomingAssignments_returns_iff (w : World) (items : list Item.t) (w' : World) :
  getUpcomingAssignments S w = (inr items, w') <->
  exists courses lists w1,
    fetch_courses S (snd (clock S w)) = (inr courses, w1)
    /\ fetched_in_turn S courses w1 lists w'
    /\ items = normalize_all (stamped courses lists).
Proof.
  unfold getUpcomingAssignments. rewrite try_catch_rethrow.
  eff_unfold. destruct (clock S w) as [t w0]. simpl.
  destruct (fetch_courses S w0) as [[e | courses] w1] eqn:Ec.
  - split; [discriminate |]. intros (cs & ls & w2 & H & _). discriminate.
  - destruct (fetch_all S courses [] w1) as [[e | all] w2] eqn:Ea.
    + split; [discriminate |].
      intros (cs & ls & w3 & H & Hf & _). inversion H; subst.
      assert (Hs : fetch_all S cs [] w3 = (inr (stamped cs ls), w'))
        by (apply fetch_all_succeeds_iff; eauto).
      congruence.
    + apply fetch_all_succeeds_iff in Ea. destruct Ea as (lists & Hf & ->).
      simpl. split.
      * intros H. inversion H; subst. exists courses, lists, w1. auto.
      * intros (cs & ls & w3 & H & Hf' & ->). inversion H; subst.
        assert (H1 : fetch_all S cs [] w3 = (inr (stamped cs lists), w2))
          by (apply fetch_all_succeeds_iff; eauto).
        assert (H2 : fetch_all S cs [] w3 = (inr (stamped cs ls), w'))
          by (apply fetch_all_succeeds_iff; eauto).
        congruence.
Qed.

(** X4: [getUpcomingAssignments] raises exactly in two ways: the fetch of
    the courses raised, and that error is thrown as it is; or the fetch of
    the assignments of one course raised after the courses before it were
    fetched, and the error thrown is an [Error] whose message names that
    course and carries the message of the fault. *)
Theorem getUpcomingAssignments_raises_iff (w : World) (raised : thrown) (w' : World) :
  getUpcomingAssignments S w = (inl raised, w') <->
  fetch_courses S (snd (clock S w)) = (inl raised, w')
  \/ exists pre course post w1 collected w2 error,
       fetch_courses S (snd (clock S w)) = (inr (pre ++ course :: post)%list, w1)
       /\ fetch_all S pre [] w1 = (inr collected, w2)
       /\ fetch_assignments S (Course.id course) w2 = (inl error, w')
       /\ raised = wrapped_fetch_error course error
       /\ includes (message_or_String raised) (to_str (Course.name course))
       /\ includes (message_or_String raised) (message_or_String error).
Proof.
  unfold getUpcomingAssignments. rewrite try_catch_rethrow.
  eff_unfold. destruct (clock S w) as [t w0]. simpl.
  destruct (fetch_courses S w0) as [[e | courses] w1] eqn:Ec.
  - split.
    + intros H. left. inversion H; reflexivity.
    + intros [H | (pre & c & post & w2 & col & w3 & err & H & _)];
        [inversion H; reflexivity | discriminate].
  - destruct (fetch_all S courses [] w1) as [[e | all] w2] eqn:Ea.
    + split.
      * intros H. inversion H; subst. right.
        apply fetch_all_fails_iff in Ea.
        destruct Ea as (pre & c & post & col & w3 & err & -> & Hpre & Hf & ->).
        exists pre, c, post, w1, col, w3, err.
        repeat split; try assumption; simpl.
        -- exists ("Failed to fetch assignments for course " ++ dquote),
             (dquote ++ ": " ++ message_or_String err).
           rewrite !append_assoc_s. reflexivity.
        -- exists ("Failed to fetch assignments for course " ++ dquote
                   ++ to_str (Course.name c) ++ dquote ++ ": "), EmptyString.
           rewrite !append_assoc_s, append_nil_r. reflexivity.
      * intros [H | (pre & c & post & w3 & col & w4 & err & H & Hpre & Hf & -> & _)];
          [discriminate |].
        inversion H; subst.
        assert (E : fetch_all S (pre ++ c :: post) [] w3
                    = (inl (wrapped_fetch_error c err), w'))
          by (apply fetch_all_fails_iff; exists pre, c, post, col, w4, err; auto).
        congruence.
    + simpl. split; [discriminate |].
      intros [H | (pre & c & post & w3 & col & w4 & err & H & Hpre & Hf & -> & _)];
        [discriminate |].
      inversion H; subst.
      assert (E : fetch_all S (pre ++ c :: post) [] w3
                  = (inl (wrapped_fetch_error c err), w'))
        by (apply fetch_all_fails_iff; exists pre, c, post, col, w4, err; auto).
      congruence.
Qed.
End UpcomingAssignments.

Lemma itemType_kinds (assignment : Assignment.t) :
  itemType assignment = "quiz" \/ itemType assignment = "discussion"
  \/ itemType assignment = "assignment".
Proof.
  unfold itemType.
  destruct (truthy _); [auto |].
  destruct (arr_includes _ _); auto.
Qed.

Lemma in_stamped courses :
  forall lists stamp,
    In stamp (stamped courses lists) ->
    exists course raw,
      In course courses /\ stamp = Assignment.stamp course raw.
Proof.
  induction courses as [|c cs IH]; intros lists stamp H; [contradiction |].
  destruct lists as [|l ls]; [contradiction |].
  simpl in H. apply in_app_or in H. destruct H as [H | H].
  - apply in_map_iff in H. destruct H as (raw & <- & _).
    exists c, raw. split; [left; reflexivity | reflexivity].
  - destruct (IH ls stamp H) as (course & raw & Hin & ->).
    exists course, raw. split; [right; exact Hin | reflexivity].
Qed.

(** X5: every item [getUpcomingAssignments] builds is a quiz, a discussion
    or an assignment, never an event, so neither handler falls back on its
    default label for it; its start and end are its due date, it is not an
    all-day item, its description is never [undefined] or [null]; and it
    carries the name and the id of the course it was fetched for, whatever
    the raw record said about its course. *)
Theorem upcoming_items_shape
        (courses : list Course.t) (lists : list (list Assignment.t)) (item : Item.t) :
  In item (normalize_all (stamped courses lists)) ->
  (Item.type item = "quiz" \/ Item.type item = "discussion"
   \/ Item.type item = "assignment")
  /\ Item.type item <> "event"
  /\ typeInfo (Item.type item) <> None
  /\ typeDisplay (Item.type item) <> None
  /\ Item.start_at item = Item.due_at item
  /\ Item.end_at item = Item.due_at item
  /\ Item.all_day item = false
  /\ Item.name item = Item.title item
  /\ Item.description item <> JUndef
  /\ Item.description item <> JNull
  /\ exists course,
       In course courses
       /\ Item.context_name item = Course.name course
       /\ Item.context_code item = "course_" ++ to_str (Course.id course).
Proof.
  intros Hin. apply in_normalize_all in Hin.
  destruct Hin as (stamp & Hs & _ & ->).
  destruct (in_stamped courses lists stamp Hs) as (course & raw & Hc & ->).
  pose proof (itemType_kinds (Assignment.stamp course raw)) as Hk.
  cbn [transform Item.type Item.start_at Item.end_at Item.due_at Item.all_day
       Item.name Item.title Item.description Item.context_name Item.context_code].
  split; [exact Hk |].
  split; [destruct Hk as [-> | [-> | ->]]; discriminate |].
  split; [destruct Hk as [-> | [-> | ->]]; discriminate |].
  split; [destruct Hk as [-> | [-> | ->]]; discriminate |].
  do 4 (split; [reflexivity |]).
  split; [| split].
  - unfold js_or. destruct (truthy _) eqn:E; [| discriminate].
    intros H. rewrite H in E. discriminate.
  - unfold js_or. destruct (truthy _) eqn:E; [| discriminate].
    intros H. rewrite H in E. discriminate.
  - exists course. split; [exact Hc |]. split; reflexivity.
Qed.

(** Two courses, one assignment each: the item of the second course is a
    quiz stamped with a course of the list. *)
Lemma upcoming_items_shape_witness :
  In Demo.quiz2_item
     (normalize_all (stamped [Demo.course 1 "Writing"; Demo.course 2 "Logic"]
                             [[Demo.essay]; [Demo.quiz2]]))
  /\ Item.type Demo.quiz2_item <> "event"
  /\ Item.start_at Demo.quiz2_item = Item.due_at Demo.quiz2_item
  /\ exists course,
       In course [Demo.course 1 "Writing"; Demo.course 2 "Logic"]
       /\ Item.context_name Demo.quiz2_item = Course.name course
       /\ Item.context_code Demo.quiz2_item = "course_" ++ to_str (Course.id course).
Proof.
  assert (Hin : In Demo.quiz2_item
                   (normalize_all (stamped [Demo.course 1 "Writing";
                                            Demo.course 2 "Logic"]
                                           [[Demo.essay]; [Demo.quiz2]])))
    by (right; left; reflexivity).
  destruct (upcoming_items_shape _ _ _ Hin)
    as (_ & Hne & _ & _ & Hst & _ & _ & _ & _ & _ & Hco).
  split; [exact Hin |]. split; [exact Hne |]. split; [exact Hst | exact Hco].
Defined.

(** ** index.ts: more on the sync loop *)

Section SyncMore.
Context (P : Platform) {World : Type} (S : Services World).

(** X6: an item whose due date is present and does not parse is skipped by
    the [catch] of the iteration, with the message of the [RangeError] that
    [toISOString] throws on the invalid date; the branch that would report an
    invalid due date is not reached, the clock is not read and nothing is
    created. *)
Theorem sync_unparseable_due_date daysAhead assignment w :
  truthy (dueAtField_of assignment) = true ->
  Date_new P (dueAtField_of assignment) = None ->
  sync_try P S daysAhead assignment w = (inl (ErrorObj "Invalid time value"), w)
  /\ sync_item P S daysAhead assignment w
     = (inr (Skipped (reason_error assignment (ErrorObj "Invalid time value"))), w)
  /\ includes (reason_error assignment (ErrorObj "Invalid time value"))
              "(error: Invalid time value)".
Proof.
  intros Ht Hd.
  assert (E : sync_try P S daysAhead assignment w
              = (inl (ErrorObj "Invalid time value"), w)).
  { unfold sync_try. rewrite Ht, Hd. reflexivity. }
  split; [exact E |]. split.
  - unfold sync_item, Eff.try_catch. rewrite E. reflexivity.
  - unfold reason_error, message_or_unknown.
    exists (to_str (js_or (js_or (Item.title assignment) (Item.name assignment))
                          (JStr "Unknown")) ++ " "), EmptyString.
    rewrite !append_assoc_s. reflexivity.
Qed.

(** For an item built by the transformation, the fallbacks of the sync loop
    on the nested assignment add nothing. *)
Lemma transform_fields (raw : Assignment.t) :
  dueAtField_of (transform raw) = Assignment.due_at raw
  /\ nameField_of (transform raw) = Assignment.name raw.
Proof.
  unfold dueAtField_of, nameField_of, js_or. simpl.
  destruct (truthy (Assignment.due_at raw));
    destruct (truthy (Assignment.name raw)) eqn:E; simpl; rewrite ?E; auto.
Qed.

(** X7: on an item returned by [getUpcomingAssignments] the skip for a
    missing due date cannot happen: the iteration either ends in the [catch]
    because the due date does not parse, or reads the clock and decides by the
    window, the due date and the name being those of the raw assignment. *)
Theorem sync_item_on_upcoming daysAhead (raws : list Assignment.t) (item : Item.t) w :
  In item (normalize_all raws) ->
  dueAtField_of item = Item.due_at item
  /\ nameField_of item = Item.title item
  /\ truthy (Item.due_at item) = true
  /\ sync_item P S daysAhead item w
     = match Date_new P (Item.due_at item) with
       | None =>
           (inr (Skipped (reason_error item (ErrorObj "Invalid time value"))), w)
       | Some due =>
           let (now, w1) := clock S w in
           if in_window daysAhead (daysDiff_of due now)
           then Eff.try_catch
                  (create_in_window P S item (Item.due_at item) due)
                  (fun error => Eff.ret (Skipped (reason_error item error))) w1
           else (inr (Skipped (reason_outside (Item.title item) daysAhead
                                              (daysDiff_of due now))), w1)
       end.
Proof.
  intros Hin. apply in_normalize_all in Hin.
  destruct Hin as (raw & _ & Hp & ->).
  apply andb_true_iff in Hp. destruct Hp as [_ Hdue].
  destruct (transform_fields raw) as [Hd Hn].
  split; [exact Hd |]. split; [exact Hn |]. split; [exact Hdue |].
  assert (Ht : truthy (dueAtField_of (transform raw)) = true)
    by (rewrite Hd; exact Hdue).
  cbn [Item.due_at Item.title transform].
  destruct (Date_new P (Assignment.due_at raw)) as [due |] eqn:Ed.
  - destruct (clock S w) as [now w1] eqn:Ec.
    rewrite <- Hd in Ed.
    unfold sync_item, Eff.try_catch at 1.
    rewrite (sync_try_parseable P S daysAhead (transform raw) due now w w1 Ht Ed Ec).
    rewrite Hd, Hn.
    destruct (in_window daysAhead (daysDiff_of due now)); reflexivity.
  - rewrite <- Hd in Ed.
    apply (sync_unparseable_due_date daysAhead (transform raw) w Ht Ed).
Qed.

(** The loop in its outcome form only appends.  (The loop with its
    arrays as state, where this is a fact about the push sites, comes
    further down.) *)
Theorem sync_loop_appends daysAhead assignments :
  forall synced skipped w,
  exists new_synced new_skipped w',
    sync_loop P S daysAhead assignments synced skipped w
    = (inr ((synced ++ new_synced)%list, (skipped ++ new_skipped)%list), w')
    /\ (List.length new_synced + List.length new_skipped
        = List.length assignments)%nat.
Proof.
  induction assignments as [|a rest IH]; intros synced skipped w.
  - exists [], [], w. rewrite !app_nil_r. split; reflexivity.
  - destruct (sync_item_total P S daysAhead a w) as (o & w1 & Ho).
    rewrite (sync_loop_step P S daysAhead a rest synced skipped w o w1 Ho).
    destruct o as [m | r].
    + destruct (IH (synced ++ [m])%list skipped w1) as (s' & k' & w' & E & L).
      exists (m :: s'), k', w'. rewrite E, <- app_assoc.
      split; [reflexivity | simpl; lia].
    + destruct (IH synced (skipped ++ [r])%list w1) as (s' & k' & w' & E & L).
      exists s', (r :: k'), w'. rewrite E, <- app_assoc.
      split; [reflexivity | simpl; lia].
Qed.
End SyncMore.

(** The garbled item, and an upcoming item seen through the theorem. *)
Lemma sync_unparseable_due_date_witness :
  truthy (dueAtField_of Demo2.garbled_item) = true
  /\ Date_new NewYork.platform (dueAtField_of Demo2.garbled_item) = None
  /\ sync_item NewYork.platform (Demo.services false false) 14
               Demo2.garbled_item Demo.start
     = (inr (Skipped "Garbled (error: Invalid time value)"), Demo.start).
Proof.
  assert (Ht : truthy (dueAtField_of Demo2.garbled_item) = true) by reflexivity.
  assert (Hd : Date_new NewYork.platform (dueAtField_of Demo2.garbled_item) = None)
    by reflexivity.
  split; [exact Ht |]. split; [exact Hd |].
  exact (proj1 (proj2 (sync_unparseable_due_date NewYork.platform
                         (Demo.services false false) 14 Demo2.garbled_item
                         Demo.start Ht Hd))).
Defined.

Lemma sync_item_on_upcoming_witness :
  In Demo2.garbled_item
     (normalize_all [Assignment.stamp (Demo.course 1 "Writing") Demo2.garbled])
  /\ dueAtField_of Demo2.garbled_item = JStr "next Friday"
  /\ nameField_of Demo2.garbled_item = JStr "Garbled".
Proof.
  assert (Hin : In Demo2.garbled_item
                   (normalize_all [Assignment.stamp (Demo.course 1 "Writing")
                                                    Demo2.garbled]))
    by (left; reflexivity).
  destruct (sync_item_on_upcoming NewYork.platform (Demo.services false false) 14
              _ _ Demo.start Hin) as (Hd & Hn & _).
  split; [exact Hin |]. split; [exact Hd | exact Hn].
Defined.

(** ** Counting the events created *)

Section Logged.
Context (P : Platform) {World : Type} (S : Services World).

(** One iteration with the log: the same outcome on the same world as
    without it, and the log longer by one payload exactly when the item was
    synced. *)
Lemma sync_item_logged daysAhead assignment log w :
  exists o w' created,
    sync_item P S daysAhead assignment w = (inr o, w')
    /\ sync_item P (logged S) daysAhead assignment (log, w)
       = (inr o, ((log ++ created)%list, w'))
    /\ ((exists m event, o = Synced m /\ created = [event] /\ sync_payload event)
        \/ (exists r, o = Skipped r /\ created = [])).
Proof.
  assert (Hskip : forall r (w' : World),
             exists o w'' created,
               (@inr thrown outcome (Skipped r), w') = (inr o, w'')
               /\ (@inr thrown outcome (Skipped r), (log, w'))
                  = (inr o, ((log ++ created)%list, w''))
               /\ ((exists m event,
                       o = Synced m /\ created = [event] /\ sync_payload event)
                   \/ (exists r', o = Skipped r' /\ created = []))).
  { intros r w'. exists (Skipped r), w', []. rewrite app_nil_r.
    split; [reflexivity |]. split; [reflexivity |]. right. eauto. }
  unfold sync_item, sync_try, create_in_window. eff_unfold.
  cbn [logged clock createEvent].
  destruct (truthy (dueAtField_of assignment)); cbn [negb]; [| apply Hskip].
  destruct (Date_new P (dueAtField_of assignment)) as [due |];
    cbn [Date_toISOString]; [| apply Hskip].
  destruct (clock S w) as [now w1].
  destruct (in_window daysAhead (daysDiff_of due now)); [| apply Hskip].
  destruct (convertToEST P (dueAtField_of assignment)) as [dueEST |];
    [| apply Hskip].
  destruct (TimeClip (due + 60 * 60 * 1000)) as [endTime |];
    cbn [Date_toISOString]; [| apply Hskip].
  destruct (convertToEST P (JStr (toISOString P endTime))) as [endEST |];
    [| apply Hskip].
  destruct (createEvent S (sync_event assignment dueEST endEST) w1)
    as [[e | g] w2]; [apply Hskip |].
  exists (Synced (sync_message assignment dueEST)), w2,
    [sync_event assignment dueEST endEST].
  split; [reflexivity |]. split; [reflexivity |].
  left. do 2 eexists. split; [reflexivity |]. split; [reflexivity |].
  repeat split.
Qed.

(** X9: a run of the loop creates one calendar event for each entry it
    adds to [synced] and none for an entry it adds to [skipped]: with a log
    of the calls of [createEvent] that returned, the run gives the same
    arrays, and the log grows by as many payloads as [synced] grows by
    entries, each with the two popup reminders and both ends in
    America/New_York. *)
Theorem sync_creates_one_event_per_synced_entry daysAhead assignments :
  forall synced skipped log w,
  exists synced' skipped' created w',
    sync_loop P S daysAhead assignments synced skipped w
    = (inr (synced', skipped'), w')
    /\ sync_loop P (logged S) daysAhead assignments synced skipped (log, w)
       = (inr (synced', skipped'), ((log ++ created)%list, w'))
    /\ List.length synced' = (List.length synced + List.length created)%nat
    /\ Forall sync_payload created.
Proof.
  induction assignments as [|a rest IH]; intros synced skipped log w.
  - exists synced, skipped, [], w. rewrite app_nil_r.
    repeat split; auto.
  - destruct (sync_item_logged daysAhead a log w)
      as (o & w1 & created & Ho & Hl & Hcase).
    rewrite (sync_loop_step P S daysAhead a rest synced skipped w o w1 Ho).
    rewrite (sync_loop_step P (logged S) daysAhead a rest synced skipped
                            (log, w) o _ Hl).
    destruct Hcase as [(m & ev & -> & -> & Hev) | (r & -> & ->)].
    + destruct (IH (synced ++ [m])%list skipped (log ++ [ev])%list w1)
        as (s' & k' & c' & w' & E & El & Hlen & Hall).
      exists s', k', (ev :: c'), w'.
      split; [exact E |]. split; [rewrite El, <- app_assoc; reflexivity |].
      split; [rewrite Hlen, length_app; simpl; lia |].
      constructor; assumption.
    + destruct (IH synced (skipped ++ [r])%list (log ++ [])%list w1)
        as (s' & k' & c' & w' & E & El & Hlen & Hall).
      exists s', k', c', w'.
      split; [exact E |]. split; [rewrite El, app_nil_r; reflexivity |].
      split; assumption.
Qed.

(** Fetching leaves the log as it is. *)
Lemma fetch_all_logged courses :
  forall acc log w,
    fetch_all (logged S) courses acc (log, w)
    = (let (r, w') := fetch_all S courses acc w in (r, (log, w'))).
Proof.
  induction courses as [|c cs IH]; intros acc log w; [reflexivity |].
  simpl. unfold Eff.bind, fetch_course. eff_unfold. cbn [logged fetch_assignments].
  destruct (fetch_assignments S (Course.id c) w) as [[e | l] w1]; [reflexivity |].
  apply IH.
Qed.

Lemma getUpcomingAssignments_logged log w :
  getUpcomingAssignments (logged S) (log, w)
  = (let (r, w') := getUpcomingAssignments S w in (r, (log, w'))).
Proof.
  unfold getUpcomingAssignments. rewrite !try_catch_rethrow.
  eff_unfold. cbn [logged clock fetch_courses].
  destruct (clock S w) as [t w0].
  destruct (fetch_courses S w0) as [[e | courses] w1]; [reflexivity |].
  rewrite fetch_all_logged.
  destruct (fetch_all S courses [] w1) as [[e | all] w2]; reflexivity.
Qed.
End Logged.

(** ** index.ts: the request handler *)

Section ToolCalls.
Context (P : Platform) {World : Type} (S : Services World) (G : CalendarAdmin World).
Variable substring_0_100 : string -> string.
Variable JSON_stringify : list Formatted.t -> string.

Lemma respond_throw (message : string) (w : World) :
  respond (Eff.throw (ErrorObj message)) w = (error_response message, w).
Proof. reflexivity. Qed.

(** X10: when [getUpcomingAssignments] raises, [sync_to_calendar] and
    [get_canvas_assignments] answer with an error response carrying the
    message of the fault, and the sync has created no event: the log of
    created events is as it was. *)
Theorem tools_report_fetch_fault (args : ToolArgs.t) (error : thrown) (w w' : World) :
  getUpcomingAssignments S w = (inl error, w') ->
  call_tool P S G substring_0_100 JSON_stringify "sync_to_calendar" args w
  = (error_response (message_or_String error), w')
  /\ call_tool P S G substring_0_100 JSON_stringify "get_canvas_assignments" args w
     = (error_response (message_or_String error), w')
  /\ forall log,
       respond (sync_to_calendar P (logged S) (ToolArgs.daysAhead args)) (log, w)
       = (error_response (message_or_String error), (log, w')).
Proof.
  intros H. split; [| split].
  - unfold call_tool, handle_tool. cbn [String.eqb Ascii.eqb Bool.eqb].
    unfold respond, sync_to_calendar, sync_run, Eff.bind. rewrite H.
    destruct error; reflexivity.
  - unfold call_tool, handle_tool. cbn [String.eqb Ascii.eqb Bool.eqb].
    unfold respond, get_canvas_assignments, Eff.bind. rewrite H.
    destruct error; reflexivity.
  - intros log.
    unfold respond, sync_to_calendar, sync_run, Eff.bind.
    rewrite getUpcomingAssignments_logged, H.
    destruct error; reflexivity.
Qed.

(** X11: a call that lacks a required argument, or names no tool, is
    answered with an error response before anything is asked of Canvas or of
    the calendar: the world is untouched.  An empty string counts as
    missing. *)
Theorem tools_validate_before_any_request (args : ToolArgs.t) (w : World) :
  let call := call_tool P S G substring_0_100 JSON_stringify in
  (truthy (ToolArgs.code args) = false ->
   call "set_google_auth_code" args w
   = (error_response "Authorization code is required", w))
  /\ (truthy (ToolArgs.title args) = false
      \/ truthy (ToolArgs.startTime args) = false
      \/ truthy (ToolArgs.endTime args) = false ->
      call "create_calendar_event" args w
      = (error_response "title, startTime, and endTime are required", w))
  /\ (truthy (ToolArgs.eventId args) = false ->
      call "update_calendar_event" args w
      = (error_response "eventId is required", w)
      /\ call "delete_calendar_event" args w
         = (error_response "eventId is required", w))
  /\ (forall name,
        ~ In name ["get_google_auth_url"; "set_google_auth_code";
                   "create_calendar_event"; "list_calendar_events";
                   "update_calendar_event"; "delete_calendar_event";
                   "get_canvas_assignments"; "sync_to_calendar"] ->
        call name args w = (error_response ("Unknown tool: " ++ name), w)).
Proof.
  cbv zeta. unfold call_tool.
  split; [| split; [| split]].
  - intros H. unfold handle_tool. cbn [String.eqb Ascii.eqb Bool.eqb].
    unfold set_google_auth_code. rewrite H. reflexivity.
  - intros H. unfold handle_tool. cbn [String.eqb Ascii.eqb Bool.eqb].
    unfold create_calendar_event.
    assert (E : negb (truthy (ToolArgs.title args))
                || negb (truthy (ToolArgs.startTime args))
                || negb (truthy (ToolArgs.endTime args)) = true).
    { destruct H as [-> | [-> | ->]]; simpl; rewrite ?orb_true_r; reflexivity. }
    rewrite E. reflexivity.
  - intros H. split.
    + unfold handle_tool. cbn [String.eqb Ascii.eqb Bool.eqb].
      unfold update_calendar_event. cbn [ToolArgs.to_update UpdateArgs.eventId].
      rewrite H. reflexivity.
    + unfold handle_tool. cbn [String.eqb Ascii.eqb Bool.eqb].
      unfold delete_calendar_event. rewrite H. reflexivity.
  - intros name Hn. unfold handle_tool.
    repeat match goal with
           | |- context [String.eqb name ?s] =>
               destruct (String.eqb_spec name s) as [-> | _];
               [exfalso; apply Hn; simpl; tauto |]
           end.
    reflexivity.
Qed.

End ToolCalls.

(** ** index.ts: [convertToEST] *)

(** X13: [convertToEST] answers [null] for every falsy argument ([null],
    [undefined], the empty string, 0) and for every argument that is not a
    valid date; when it answers, the date was valid, both calls of
    [toLocaleString] returned, and [readable] is the string of the second. *)
Theorem convertToEST_null_cases (P : Platform) (utcDateString : jsval) :
  (truthy utcDateString = false -> convertToEST P utcDateString = None)
  /\ (Date_new P utcDateString = None -> convertToEST P utcDateString = None)
  /\ (forall est,
        convertToEST P utcDateString = Some est ->
        truthy utcDateString = true
        /\ exists date estDateStr,
             Date_new P utcDateString = Some date
             /\ toLocaleString_numeric P date = Some estDateStr
             /\ toLocaleString_long P date = Some (EST.readable est)).
Proof.
  unfold convertToEST. split; [| split].
  - intros ->. reflexivity.
  - intros ->. destruct (truthy utcDateString); reflexivity.
  - intros est.
    destruct (truthy utcDateString); simpl; [| discriminate].
    destruct (Date_new P utcDateString) as [date |]; [| discriminate].
    destruct (toLocaleString_numeric P date) as [s |] eqn:En; [| discriminate].
    destruct (toLocaleString_long P date) as [r |] eqn:El; [| discriminate].
    intros H. inversion H; subst. split; [reflexivity |].
    exists date, s. simpl. repeat split; assumption || reflexivity.
Qed.

Lemma split_go_skip (sep x rest cur : string) :
  rest <> EmptyString ->
  split_go sep (x ++ rest) (String.length x) cur = split_go sep rest 0 cur.
Proof.
  intros Hr. induction x as [|c x IH]; simpl; [| exact IH].
  destruct rest; [congruence | reflexivity].
Qed.

Lemma lacks_prefix (c : ascii) (sep' s : string) :
  lacks c s = true -> s <> EmptyString -> String.prefix (String c sep') s = false.
Proof.
  destruct s as [|x s]; [congruence |]. simpl. intros H _.
  apply andb_true_iff in H. destruct H as [H _].
  destruct (ascii_dec c x) as [-> | _]; [| reflexivity].
  rewrite Ascii.eqb_refl in H. discriminate.
Qed.

(** A piece without the first character of the separator is not cut. *)
Lemma split_go_lacks (c : ascii) (sep' s cur : string) :
  lacks c s = true ->
  split_go (String c sep') s 0 cur = [cur ++ s].
Proof.
  revert cur. induction s as [|x s IH]; intros cur H.
  - simpl. now rewrite append_nil_r.
  - cbn [split_go].
    rewrite (lacks_prefix c sep' (String x s) H ltac:(discriminate)).
    simpl in H. apply andb_true_iff in H. destruct H as [_ H].
    rewrite (IH _ H). rewrite append_assoc_s. reflexivity.
Qed.

(** A piece without the first character of the separator, followed by the
    separator and something more, is cut off at the separator. *)
Lemma split_go_cut (c : ascii) (sep' a rest cur : string) :
  lacks c a = true ->
  rest <> EmptyString ->
  split_go (String c sep') (a ++ String c sep' ++ rest) 0 cur
  = (cur ++ a) :: split_go (String c sep') rest 0 EmptyString.
Proof.
  revert cur. induction a as [|x a IH]; intros cur H Hr.
  - rewrite append_nil_r.
    change (EmptyString ++ String c sep' ++ rest) with (String c (sep' ++ rest)).
    cbn [split_go].
    change (String c (sep' ++ rest)) with (String c sep' ++ rest).
    rewrite prefix_append. f_equal.
    cbn [String.length Nat.pred]. apply split_go_skip. exact Hr.
  - change (String x a ++ String c sep' ++ rest)
      with (String x (a ++ String c sep' ++ rest)).
    cbn [split_go].
    assert (Hx : String.prefix (String c sep') (String x (a ++ String c sep' ++ rest))
                 = false).
    { simpl in H. apply andb_true_iff in H. destruct H as [H _].
      simpl. destruct (ascii_dec c x) as [-> | _]; [| reflexivity].
      rewrite Ascii.eqb_refl in H. discriminate. }
    rewrite Hx.
    simpl in H. apply andb_true_iff in H. destruct H as [_ H].
    rewrite (IH _ H Hr). rewrite append_assoc_s. reflexivity.
Qed.

(** The same for a separator of one character, whatever follows. *)
Lemma split_go_cut1 (c : ascii) (a rest cur : string) :
  lacks c a = true ->
  split_go (String c EmptyString) (a ++ String c EmptyString ++ rest) 0 cur
  = (cur ++ a) :: split_go (String c EmptyString) rest 0 EmptyString.
Proof.
  revert cur. induction a as [|x a IH]; intros cur H.
  - rewrite append_nil_r.
    change (EmptyString ++ String c EmptyString ++ rest) with (String c rest).
    cbn [split_go].
    assert (Hp : String.prefix (String c EmptyString) (String c rest) = true).
    { simpl. destruct (ascii_dec c c); [now destruct rest | congruence]. }
    rewrite Hp. reflexivity.
  - change (String x a ++ String c EmptyString ++ rest)
      with (String x (a ++ String c EmptyString ++ rest)).
    cbn [split_go].
    assert (Hx : String.prefix (String c EmptyString)
                               (String x (a ++ String c EmptyString ++ rest)) = false).
    { simpl in H. apply andb_true_iff in H. destruct H as [H _].
      simpl. destruct (ascii_dec c x) as [-> | _]; [| reflexivity].
      rewrite Ascii.eqb_refl in H. discriminate. }
    rewrite Hx.
    simpl in H. apply andb_true_iff in H. destruct H as [_ H].
    rewrite (IH _ H). rewrite append_assoc_s. reflexivity.
Qed.

(** X14: when [toLocaleString] renders the date as [MM/DD/YYYY, HH:mm:ss]
    (month, day and year without a slash or a comma, the time not empty and
    without a comma), the [datetime] of [convertToEST] is
    [YYYY-MM-DDTHH:mm:ss] with the same four pieces. *)
Theorem convertToEST_reorders_the_date
        (P : Platform) (utcDateString : jsval) (date : Z)
        (month day year time readable : string) :
  truthy utcDateString = true ->
  Date_new P utcDateString = Some date ->
  toLocaleString_numeric P date
  = Some (month ++ "/" ++ day ++ "/" ++ year ++ ", " ++ time) ->
  toLocaleString_long P date = Some readable ->
  lacks "/" month = true -> lacks "," month = true ->
  lacks "/" day = true -> lacks "," day = true ->
  lacks "/" year = true -> lacks "," year = true ->
  lacks "," time = true -> time <> EmptyString ->
  convertToEST P utcDateString
  = Some {| EST.datetime := year ++ "-" ++ month ++ "-" ++ day ++ "T" ++ time;
            EST.readable := readable |}.
Proof.
  intros Ht Hd Hn Hl Hm1 Hm2 Hd1 Hd2 Hy1 Hy2 Ht2 Hne.
  unfold convertToEST. rewrite Ht, Hd, Hn, Hl. cbn [negb].
  assert (Hdate : lacks "," (month ++ "/" ++ day ++ "/" ++ year) = true).
  { assert (Happ : forall a b, lacks "," a = true -> lacks "," b = true ->
                               lacks "," (a ++ b) = true).
    { intros a b Ha Hb. induction a as [|x a IH]; [exact Hb |].
      simpl in *. apply andb_true_iff in Ha. destruct Ha as [-> Ha].
      now apply IH. }
    repeat apply Happ; auto. }
  assert (Hparts : split ", " (month ++ "/" ++ day ++ "/" ++ year ++ ", " ++ time)
                   = [month ++ "/" ++ day ++ "/" ++ year; time]).
  { unfold split.
    replace (month ++ "/" ++ day ++ "/" ++ year ++ ", " ++ time)
      with ((month ++ "/" ++ day ++ "/" ++ year) ++ ", " ++ time)
      by (rewrite !append_assoc_s; reflexivity).
    rewrite (split_go_cut "," " " _ time EmptyString Hdate Hne).
    rewrite (split_go_lacks "," " " time EmptyString Ht2). reflexivity. }
  assert (Hpieces : split "/" (month ++ "/" ++ day ++ "/" ++ year)
                    = [month; day; year]).
  { unfold split.
    rewrite (split_go_cut1 "/" month (day ++ "/" ++ year) EmptyString Hm1).
    rewrite (split_go_cut1 "/" day year EmptyString Hd1).
    rewrite (split_go_lacks "/" EmptyString year EmptyString Hy1).
    reflexivity. }
  rewrite Hparts. cbn [nth at_index nth_error]. rewrite Hpieces.
  reflexivity.
Qed.

(** ** index.ts: updating, listing, showing *)

(** X15: the [updates] object is empty exactly when the title, the start
    and the end are falsy and the description is [undefined]; a time zone
    given alone is dropped, since it is only read next to a start or an end
    time.  The handler still sends the empty object, which leaves a stored
    event as it is. *)
Theorem build_updates_empty_iff (args : UpdateArgs.t) :
  (build_updates args = Updates.empty <->
   truthy (UpdateArgs.title args) = false
   /\ UpdateArgs.description args = JUndef
   /\ truthy (UpdateArgs.startTime args) = false
   /\ truthy (UpdateArgs.endTime args) = false)
  /\ (forall args',
        UpdateArgs.title args' = UpdateArgs.title args ->
        UpdateArgs.description args' = UpdateArgs.description args ->
        UpdateArgs.startTime args' = UpdateArgs.startTime args ->
        UpdateArgs.endTime args' = UpdateArgs.endTime args ->
        truthy (UpdateArgs.startTime args) = false ->
        truthy (UpdateArgs.endTime args) = false ->
        build_updates args' = build_updates args)
  /\ (forall stored, Stored.patch stored Updates.empty = stored)
  /\ (forall (World : Type) (S : Services World) (w : World),
        truthy (UpdateArgs.eventId args) = true ->
        build_updates args = Updates.empty ->
        update_calendar_event S args w
        = Eff.bind (updateEvent S (to_str (UpdateArgs.eventId args)) Updates.empty)
            (fun updatedEvent =>
               Eff.ret ("Event updated successfully!" ++ nl ++ nl
                        ++ "Event ID: " ++ to_str (UpdateArgs.eventId args) ++ nl
                        ++ "Title: " ++ to_str (GEvent.summary updatedEvent) ++ nl
                        ++ "Link: " ++ to_str (GEvent.htmlLink updatedEvent))) w).
Proof.
  split; [| split; [| split]].
  - unfold build_updates, Updates.empty. split.
    + destruct (truthy (UpdateArgs.title args)),
        (UpdateArgs.description args),
        (truthy (UpdateArgs.startTime args)),
        (truthy (UpdateArgs.endTime args)); simpl; intros H;
        try discriminate; auto.
    + intros (-> & -> & -> & ->). reflexivity.
  - intros args' Ht Hd Hs He Hs0 He0. unfold build_updates.
    rewrite Ht, Hd, Hs, He, Hs0, He0. reflexivity.
  - intros stored. destruct stored. reflexivity.
  - intros World S w Hid He. unfold update_calendar_event.
    rewrite Hid, He. reflexivity.
Qed.

Section Listing.
Context (P : Platform) {World : Type} (S : Services World).

End Listing.

Section Showing.
Context (P : Platform).
Variable substring_0_100 : string -> string.

Lemma format_item_cases (item : Item.t) :
  (listed P item = false /\ format_item P substring_0_100 item = inr None)
  \/ (listed P item = true /\ odd_description (Item.description item) = true
      /\ format_item P substring_0_100 item = inl TYPE_ERROR)
  \/ (listed P item = true /\ odd_description (Item.description item) = false
      /\ exists f,
           format_item P substring_0_100 item = inr (Some f)
           /\ Formatted.name f = nameField_of item
           /\ (exists est, convertToEST P (dueAtField_of item) = Some est
                           /\ Formatted.due_date_est f = EST.readable est)
           /\ (Formatted.description f = "No description"
               \/ exists s, Item.description item = JStr s
                            /\ Formatted.description f
                               = substring_0_100 s ++ "...")).
Proof.
  unfold listed, format_item.
  destruct (truthy (dueAtField_of item)); simpl; [| left; auto].
  destruct (convertToEST P (dueAtField_of item)) as [est |]; [| left; auto].
  right. unfold odd_description, description_cell.
  destruct (Item.description item) as [| | b | n | s |] eqn:Ed; simpl.
  - right. split; [reflexivity |]. split; [reflexivity |].
    eexists. split; [reflexivity |]. simpl. eauto 6.
  - right. split; [reflexivity |]. split; [reflexivity |].
    eexists. split; [reflexivity |]. simpl. eauto 6.
  - destruct b; simpl.
    + left. auto.
    + right. split; [reflexivity |]. split; [reflexivity |].
      eexists. split; [reflexivity |]. simpl. eauto 6.
  - destruct (n =? 0); simpl.
    + right. split; [reflexivity |]. split; [reflexivity |].
      eexists. split; [reflexivity |]. simpl. eauto 6.
    + left. auto.
  - destruct (String.eqb s EmptyString); simpl.
    + right. split; [reflexivity |]. split; [reflexivity |].
      eexists. split; [reflexivity |]. simpl. eauto 6.
    + right. split; [reflexivity |]. split; [reflexivity |].
      eexists. split; [reflexivity |]. simpl.
      split; [reflexivity |]. split; [eauto |]. right. eauto.
  - left. auto.
Qed.

(** X17: when the list of [get_canvas_assignments] is built, it shows
    exactly the items that have a due date whose conversion succeeds, in
    their order, under their names; the others are left out without a
    word.  A description, when there is one, always ends in three dots,
    cut or not. *)
Theorem get_canvas_assignments_lists (assignments : list Item.t) :
  forall mapped,
    format_all P substring_0_100 assignments = inr mapped ->
    map Formatted.name (drop_nulls mapped)
    = map nameField_of (filter (listed P) assignments)
    /\ List.length (drop_nulls mapped) = List.length (filter (listed P) assignments)
    /\ Forall (fun f =>
                 Formatted.description f = "No description"
                 \/ exists s, Formatted.description f = substring_0_100 s ++ "...")
              (drop_nulls mapped).
Proof.
  induction assignments as [|item rest IH]; intros mapped H.
  - simpl in H. inversion H; subst. simpl. auto.
  - simpl in H.
    destruct (format_item_cases item)
      as [(Hl & Hf) | [(Hl & _ & Hf) | (Hl & _ & f & Hf & Hn & _ & Hd)]];
      rewrite Hf in H; [| discriminate |].
    + destruct (format_all P substring_0_100 rest) as [e | fs]; [discriminate |].
      inversion H; subst. cbn [drop_nulls filter]. rewrite Hl.
      apply IH. reflexivity.
    + destruct (format_all P substring_0_100 rest) as [e | fs]; [discriminate |].
      inversion H; subst. cbn [drop_nulls filter]. rewrite Hl.
      destruct (IH fs eq_refl) as (Hm & Hlen & Hall).
      simpl. rewrite Hm, Hlen, Hn. repeat split.
      constructor; [| exact Hall].
      destruct Hd as [Hd | (s & _ & Hd)]; [left; exact Hd | right; eauto].
Qed.

(** X18: a listed item whose description is truthy and not a string makes
    the whole list fail with a [TypeError]: no item is shown. *)
Theorem get_canvas_assignments_odd_description (assignments : list Item.t) (item : Item.t) :
  In item assignments ->
  listed P item = true ->
  odd_description (Item.description item) = true ->
  format_all P substring_0_100 assignments = inl TYPE_ERROR.
Proof.
  induction assignments as [|first rest IH]; intros Hin Hl Ho; [contradiction |].
  simpl.
  destruct (format_item_cases first)
    as [(Hl1 & Hf) | [(Hl1 & Ho1 & Hf) | (Hl1 & Ho1 & f & Hf & _)]];
    rewrite Hf; [| reflexivity |].
  - destruct Hin as [-> | Hin]; [congruence |].
    now rewrite (IH Hin Hl Ho).
  - destruct Hin as [-> | Hin]; [congruence |].
    now rewrite (IH Hin Hl Ho).
Qed.
End Showing.

(** ** google-calendar.ts *)

Ltac client_unfold :=
  unfold GoogleCalendarClient.getAccessToken, GoogleCalendarClient.this,
    GoogleCalendarClient.fetch, GoogleCalendarClient.set_this,
    GoogleCalendarClient.throw_api_error;
  eff_unfold.

Section Client.
Import GoogleCalendarClient.
Context {World : Type}.
Variable net : GRequest.t -> World -> FetchOutcome GData.t * World.

Lemma getAccessToken_cached (c : GoogleCalendarClient.t) (w : World) :
  truthy (accessToken c) = true ->
  getAccessToken net (c, w) = (inr (accessToken c), (c, w)).
Proof.
  intros H. client_unfold. now rewrite H.
Qed.

Lemma getAccessToken_none (c : GoogleCalendarClient.t) (w : World) :
  truthy (accessToken c) = false ->
  truthy (refreshToken c) = false ->
  getAccessToken net (c, w) = (inl (ErrorObj NO_REFRESH_TOKEN), (c, w)).
Proof.
  intros Ha Hr. client_unfold. now rewrite Ha, Hr.
Qed.

(** X19: without an access token and without a refresh token, every
    method of the client fails with the request to authenticate first, and
    sends nothing: the world and the client are as they were. *)
Theorem client_without_tokens_sends_nothing (c : GoogleCalendarClient.t) (w : World) :
  truthy (accessToken c) = false ->
  truthy (refreshToken c) = false ->
  let refused {A : Type} : result A * (GoogleCalendarClient.t * World) :=
    (inl (ErrorObj NO_REFRESH_TOKEN), (c, w)) in
  (forall event, createEvent net event (c, w) = refused)
  /\ (forall timeMin timeMax maxResults,
        listEvents net timeMin timeMax maxResults (c, w) = refused)
  /\ (forall eventId updates, updateEvent net eventId updates (c, w) = refused)
  /\ (forall eventId, deleteEvent net eventId (c, w) = refused)
  /\ (forall eventId, getEvent net eventId (c, w) = refused).
Proof.
  intros Ha Hr refused.
  pose proof (getAccessToken_none c w Ha Hr) as E.
  repeat split; intros;
    unfold createEvent, listEvents, updateEvent, deleteEvent, getEvent, Eff.bind;
    rewrite E; reflexivity.
Qed.

(** X20: a first call obtains the access token with one request that
    carries the refresh token, and keeps it: the client afterwards differs
    only by the token, and asking again for the token sends nothing. *)
Theorem access_token_is_fetched_once
        (c : GoogleCalendarClient.t) (w w1 : World)
        (response : Response.t GData.t) (data : GData.t) :
  truthy (accessToken c) = false ->
  truthy (refreshToken c) = true ->
  net (Requests.refresh_request c) w = (Responded response, w1) ->
  Response.ok response = true ->
  Response.json response = inr data ->
  truthy (GData.access_token data) = true ->
  let c' := with_accessToken c (GData.access_token data) in
  getAccessToken net (c, w) = (inr (GData.access_token data), (c', w1))
  /\ refreshToken c' = refreshToken c
  /\ (forall w2, getAccessToken net (c', w2) = (inr (GData.access_token data), (c', w2))).
Proof.
  intros Ha Hr Hn Hok Hj Ht c'.
  split; [| split; [reflexivity |]].
  - client_unfold. rewrite Ha, Hr. cbn [negb].
    change {| GRequest.method := "POST"; GRequest.url := TOKEN_URL;
              GRequest.query := []; GRequest.headers := FORM_HEADERS;
              GRequest.body :=
                Form [("client_id", clientId c); ("client_secret", clientSecret c);
                      ("refresh_token", to_str (refreshToken c));
                      ("grant_type", "refresh_token")] |}
      with (Requests.refresh_request c).
    rewrite Hn, Hok. cbn [negb]. rewrite Hj, Ht. reflexivity.
  - intros w2. apply getAccessToken_cached. exact Ht.
Qed.

(** X21: a refresh that is refused is reported with the body of the
    answer, and nothing is kept: the client is unchanged, so the next call
    asks for a token again. *)
Theorem refused_refresh_is_not_cached
        (c : GoogleCalendarClient.t) (w w1 : World)
        (response : Response.t GData.t) (body : string) :
  truthy (accessToken c) = false ->
  truthy (refreshToken c) = true ->
  net (Requests.refresh_request c) w = (Responded response, w1) ->
  Response.ok response = false ->
  Response.text response = inr body ->
  getAccessToken net (c, w)
  = (inl (ErrorObj ("Failed to refresh access token: " ++ body)), (c, w1))
  /\ (forall event,
        createEvent net event (c, w)
        = (inl (ErrorObj ("Failed to refresh access token: " ++ body)), (c, w1))).
Proof.
  intros Ha Hr Hn Hok Ht.
  assert (E : getAccessToken net (c, w)
              = (inl (ErrorObj ("Failed to refresh access token: " ++ body)), (c, w1))).
  { client_unfold. rewrite Ha, Hr. cbn [negb].
    change {| GRequest.method := "POST"; GRequest.url := TOKEN_URL;
              GRequest.query := []; GRequest.headers := FORM_HEADERS;
              GRequest.body :=
                Form [("client_id", clientId c); ("client_secret", clientSecret c);
                      ("refresh_token", to_str (refreshToken c));
                      ("grant_type", "refresh_token")] |}
      with (Requests.refresh_request c).
    rewrite Hn, Hok. cbn [negb]. rewrite Ht. reflexivity. }
  split; [exact E |].
  intros event. unfold createEvent, Eff.bind. rewrite E. reflexivity.
Qed.

(** X22: with a token at hand, [createEvent] sends one request, the event
    as its body and the token as bearer; it returns the parsed answer when
    the response is ok and otherwise throws an error with the status alone.
    In no case does it touch the client: a refused token stays cached and
    nothing is tried again. *)
Theorem createEvent_with_token
        (c : GoogleCalendarClient.t) (w : World) (event : Payload.t) :
  truthy (accessToken c) = true ->
  createEvent net event (c, w)
  = match net (Requests.create_request (accessToken c) event) w with
    | (Responded response, w') =>
        if Response.ok response then (Response.json response, (c, w'))
        else (inl (ErrorObj ("Google Calendar API error: "
                             ++ Z_to_string (Response.status response))),
              (c, w'))
    | (RejectedAbort message, w') => (inl (ErrorObj message), (c, w'))
    | (Rejected error, w') => (inl error, (c, w'))
    end.
Proof.
  intros H. unfold createEvent, Eff.bind.
  rewrite (getAccessToken_cached c w H).
  unfold GoogleCalendarClient.fetch, Eff.throw, Eff.lift.
  change {| GRequest.method := "POST"; GRequest.url := EVENTS_URL;
            GRequest.query := [];
            GRequest.headers := [bearer (accessToken c); JSON_HEADER];
            GRequest.body := JsonEvent event |}
    with (Requests.create_request (accessToken c) event).
  destruct (net (Requests.create_request (accessToken c) event) w)
    as [[response | message | error] w']; try reflexivity.
  destruct (Response.ok response); reflexivity.
Qed.

(** X23: with a token at hand, [deleteEvent] sends one DELETE request for
    the event; when the response is ok it returns the success marker
    without reading the body, and otherwise throws an error with the status
    and the text of the answer. *)
Theorem deleteEvent_with_token
        (c : GoogleCalendarClient.t) (w : World) (eventId : string) :
  truthy (accessToken c) = true ->
  deleteEvent net eventId (c, w)
  = match net (Requests.delete_request (accessToken c) eventId) w with
    | (Responded response, w') =>
        if Response.ok response
        then (inr {| DeleteResult.success := true;
                     DeleteResult.message := "Event deleted successfully" |},
              (c, w'))
        else
          match Response.text response with
          | inr errorText =>
              (inl (ErrorObj ("Google Calendar API error: "
                              ++ Z_to_string (Response.status response) ++ " - "
                              ++ errorText)), (c, w'))
          | inl error => (inl error, (c, w'))
          end
    | (RejectedAbort message, w') => (inl (ErrorObj message), (c, w'))
    | (Rejected error, w') => (inl error, (c, w'))
    end.
Proof.
  intros H. unfold deleteEvent, Eff.bind.
  rewrite (getAccessToken_cached c w H).
  client_unfold.
  change {| GRequest.method := "DELETE";
            GRequest.url := EVENTS_URL ++ "/" ++ eventId;
            GRequest.query := [];
            GRequest.headers := [bearer (accessToken c)];
            GRequest.body := NoBody |}
    with (Requests.delete_request (accessToken c) eventId).
  destruct (net (Requests.delete_request (accessToken c) eventId) w)
    as [[response | message | error] w']; try reflexivity.
  destruct (Response.ok response); [reflexivity |]. cbn [negb].
  destruct (Response.text response); reflexivity.
Qed.

(** X24: [listEvents] sends [timeMin], [timeMax], [singleEvents=true] and
    [orderBy=startTime], in this order, and [maxResults] after them exactly
    when it is given and not 0; with the value [list_calendar_events]
    passes, the default 10 included, it is always sent. *)
Theorem listEvents_query
        (c : GoogleCalendarClient.t) (w : World)
        (timeMin timeMax : string) (maxResults : option Z) :
  truthy (accessToken c) = true ->
  let query :=
    (Requests.list_query timeMin timeMax
     ++ match maxResults with
        | Some n => if n =? 0 then [] else [("maxResults", Z_to_string n)]
        | None => []
        end)%list in
  listEvents net timeMin timeMax maxResults (c, w)
  = match net (Requests.list_request (accessToken c) query) w with
    | (Responded response, w') =>
        if Response.ok response then (Response.json response, (c, w'))
        else
          match Response.text response with
          | inr errorText =>
              (inl (ErrorObj ("Google Calendar API error: "
                              ++ Z_to_string (Response.status response) ++ " - "
                              ++ errorText)), (c, w'))
          | inl error => (inl error, (c, w'))
          end
    | (RejectedAbort message, w') => (inl (ErrorObj message), (c, w'))
    | (Rejected error, w') => (inl error, (c, w'))
    end
  /\ (forall args_maxResults,
        maxResults = Some (num_or args_maxResults 10) ->
        query = (Requests.list_query timeMin timeMax
                 ++ [("maxResults", Z_to_string (num_or args_maxResults 10))])%list).
Proof.
  intros H query. split.
  - unfold listEvents, Eff.bind.
    rewrite (getAccessToken_cached c w H).
    client_unfold.
    assert (Eq : match maxResults with
                 | Some n =>
                     if n =? 0
                     then [("timeMin", timeMin); ("timeMax", timeMax);
                           ("singleEvents", "true"); ("orderBy", "startTime")]
                     else ([("timeMin", timeMin); ("timeMax", timeMax);
                            ("singleEvents", "true"); ("orderBy", "startTime")]
                           ++ [("maxResults", Z_to_string n)])%list
                 | None => [("timeMin", timeMin); ("timeMax", timeMax);
                            ("singleEvents", "true"); ("orderBy", "startTime")]
                 end = query).
    { unfold query, Requests.list_query.
      destruct maxResults as [n |]; [destruct (n =? 0) |]; reflexivity. }
    rewrite Eq.
    change {| GRequest.method := "GET"; GRequest.url := EVENTS_URL;
              GRequest.query := query;
              GRequest.headers := [bearer (accessToken c)];
              GRequest.body := NoBody |}
      with (Requests.list_request (accessToken c) query).
    destruct (net (Requests.list_request (accessToken c) query) w)
      as [[response | message | error] w']; try reflexivity.
    destruct (Response.ok response); [reflexivity |]. cbn [negb].
    destruct (Response.text response); reflexivity.
  - intros a ->. unfold query, num_or.
    destruct a as [n |]; [| reflexivity].
    destruct (n =? 0) eqn:E; [reflexivity |]. now rewrite E.
Qed.

(** X25: [setRefreshToken] forgets the access token: the next call obtains
    a new one with a request that carries the new refresh token, also when
    a token was cached. *)
Theorem setRefreshToken_forces_a_refresh
        (c : GoogleCalendarClient.t) (token : jsval) (w w1 : World)
        (response : Response.t GData.t) (data : GData.t) :
  truthy token = true ->
  let c0 := setRefreshToken token c in
  net (Requests.refresh_request c0) w = (Responded response, w1) ->
  Response.ok response = true ->
  Response.json response = inr data ->
  truthy (GData.access_token data) = true ->
  accessToken c0 = JNull
  /\ refreshToken c0 = token
  /\ In ("refresh_token", to_str token)
        (match GRequest.body (Requests.refresh_request c0) with
         | Form fields => fields
         | _ => []
         end)
  /\ getAccessToken net (c0, w)
     = (inr (GData.access_token data),
        (with_accessToken c0 (GData.access_token data), w1)).
Proof.
  intros Ht c0 Hn Hok Hj Hd.
  split; [reflexivity |]. split; [reflexivity |].
  split; [simpl; tauto |].
  exact (proj1 (access_token_is_fetched_once c0 w w1 response data
                  eq_refl Ht Hn Hok Hj Hd)).
Qed.

(** X26: [exchangeCodeForTokens] on an answer that is ok keeps the access
    token of the answer, and replaces the refresh token only when the
    answer brings one; it returns both as they came.  On an answer that is
    not ok it throws with the body of the answer and keeps nothing. *)
Theorem exchangeCodeForTokens_updates
        (c : GoogleCalendarClient.t) (code : jsval) (w w1 : World)
        (response : Response.t GData.t) :
  net (Requests.exchange_request c code) w = (Responded response, w1) ->
  (forall data,
      Response.ok response = true ->
      Response.json response = inr data ->
      let c' :=
        if truthy (GData.refresh_token data)
        then with_refreshToken (with_accessToken c (GData.access_token data))
                               (GData.refresh_token data)
        else with_accessToken c (GData.access_token data) in
      exchangeCodeForTokens net code (c, w)
      = (inr {| Tokens.access_token := GData.access_token data;
                Tokens.refresh_token := GData.refresh_token data |}, (c', w1))
      /\ accessToken c' = GData.access_token data
      /\ (truthy (GData.refresh_token data) = false ->
          refreshToken c' = refreshToken c)
      /\ (truthy (GData.refresh_token data) = true ->
          refreshToken c' = GData.refresh_token data))
  /\ (forall body,
        Response.ok response = false ->
        Response.text response = inr body ->
        exchangeCodeForTokens net code (c, w)
        = (inl (ErrorObj ("Failed to exchange code for tokens: " ++ body)), (c, w1))).
Proof.
  intros Hn.
  assert (Hreq : {| GRequest.method := "POST"; GRequest.url := TOKEN_URL;
                    GRequest.query := []; GRequest.headers := FORM_HEADERS;
                    GRequest.body :=
                      Form [("client_id", clientId c);
                            ("client_secret", clientSecret c);
                            ("code", to_str code);
                            ("redirect_uri", redirectUri c);
                            ("grant_type", "authorization_code")] |}
                 = Requests.exchange_request c code) by reflexivity.
  split.
  - intros data Hok Hj c'.
    split; [| split; [| split]].
    + unfold exchangeCodeForTokens. client_unfold. rewrite Hreq, Hn, Hok.
      cbn [negb]. rewrite Hj. unfold c'.
      destruct (truthy (GData.refresh_token data)); reflexivity.
    + unfold c'. destruct (truthy (GData.refresh_token data)); reflexivity.
    + intros H. unfold c'. rewrite H. reflexivity.
    + intros H. unfold c'. rewrite H. reflexivity.
  - intros body Hok Ht.
    unfold exchangeCodeForTokens. client_unfold. rewrite Hreq, Hn, Hok.
    cbn [negb]. rewrite Ht. reflexivity.
Qed.
End Client.

(** ** The further properties at work in the concrete world *)

(** The second course down: both tools answer with the fault. *)
Lemma tools_report_fetch_fault_witness :
  let args := {| ToolArgs.code := JUndef; ToolArgs.eventId := JUndef;
                 ToolArgs.title := JUndef; ToolArgs.description := JUndef;
                 ToolArgs.startTime := JUndef; ToolArgs.endTime := JUndef;
                 ToolArgs.timezone := JUndef; ToolArgs.daysAhead := None;
                 ToolArgs.maxResults := None |} in
  call_tool NewYork.platform (Demo.services true false) Demo2.admin
            Demo2.substring_0_100 Demo2.show "sync_to_calendar" args Demo.start
  = ({| ToolResult.text :=
          "Error: Failed to fetch assignments for course " ++ dquote ++ "Logic"
          ++ dquote ++ ": Canvas API error: 500 Internal Server Error";
        ToolResult.isError := true |}, Demo.start + 1).
Proof.
  intros args.
  exact (proj1 (tools_report_fetch_fault NewYork.platform (Demo.services true false)
                  Demo2.admin Demo2.substring_0_100 Demo2.show args
                  _ Demo.start (Demo.start + 1) eq_refl)).
Defined.


(** The instant of the motivating case, piece by piece. *)
Lemma convertToEST_reorders_the_date_witness :
  toLocaleString_numeric NewYork.platform 1762577999000
  = Some ("11" ++ "/" ++ "07" ++ "/" ++ "2025" ++ ", " ++ "23:59:59")
  /\ convertToEST NewYork.platform (JStr "2025-11-08T04:59:59Z")
     = Some {| EST.datetime := "2025" ++ "-" ++ "11" ++ "-" ++ "07" ++ "T" ++ "23:59:59";
               EST.readable := "November 7, 2025 at 11:59 PM" |}.
Proof.
  assert (Hn : toLocaleString_numeric NewYork.platform 1762577999000
               = Some ("11" ++ "/" ++ "07" ++ "/" ++ "2025" ++ ", " ++ "23:59:59"))
    by (vm_compute; reflexivity).
  split; [exact Hn |].
  apply (convertToEST_reorders_the_date NewYork.platform
           (JStr "2025-11-08T04:59:59Z") 1762577999000
           "11" "07" "2025" "23:59:59" "November 7, 2025 at 11:59 PM");
    try reflexivity; try (vm_compute; reflexivity); try exact Hn.
  discriminate.
Defined.


(** The garbled item is left out, the two others are shown in order. *)
Lemma get_canvas_assignments_lists_witness :
  exists mapped,
    format_all NewYork.platform Demo2.substring_0_100
               [Demo.essay_item; Demo2.garbled_item; Demo.quiz2_item]
    = inr mapped
    /\ map Formatted.name (drop_nulls mapped) = [JStr "Essay 1"; JStr "Quiz 2"].
Proof.
  eexists. split; [vm_compute; reflexivity |].
  match goal with
  | |- map _ (drop_nulls ?m) = _ =>
      rewrite (proj1 (get_canvas_assignments_lists NewYork.platform
                        Demo2.substring_0_100
                        [Demo.essay_item; Demo2.garbled_item; Demo.quiz2_item]
                        m ltac:(vm_compute; reflexivity)))
  end.
  vm_compute. reflexivity.
Defined.

(** A description that is a number spoils the list. *)
Lemma get_canvas_assignments_odd_description_witness :
  In Demo2.numbered_item [Demo.essay_item; Demo2.numbered_item]
  /\ listed NewYork.platform Demo2.numbered_item = true
  /\ odd_description (Item.description Demo2.numbered_item) = true
  /\ format_all NewYork.platform Demo2.substring_0_100
                [Demo.essay_item; Demo2.numbered_item]
     = inl TYPE_ERROR.
Proof.
  assert (Hin : In Demo2.numbered_item [Demo.essay_item; Demo2.numbered_item])
    by (right; left; reflexivity).
  assert (Hl : listed NewYork.platform Demo2.numbered_item = true)
    by (vm_compute; reflexivity).
  assert (Ho : odd_description (Item.description Demo2.numbered_item) = true)
    by reflexivity.
  split; [exact Hin |]. split; [exact Hl |]. split; [exact Ho |].
  exact (get_canvas_assignments_odd_description NewYork.platform
           Demo2.substring_0_100 _ _ Hin Hl Ho).
Defined.

(** Without tokens, a deletion is refused and the server has seen nothing. *)
Lemma client_without_tokens_sends_nothing_witness :
  GoogleCalendarClient.deleteEvent DemoGoogle.net "evt" (DemoGoogle.signed_out, 0%nat)
  = (inl (ErrorObj GoogleCalendarClient.NO_REFRESH_TOKEN),
     (DemoGoogle.signed_out, 0%nat)).
Proof.
  exact (proj1 (proj2 (proj2 (proj2
           (client_without_tokens_sends_nothing DemoGoogle.net DemoGoogle.signed_out
              0%nat eq_refl eq_refl)))) "evt").
Defined.

(** The first call signs in with one request; asking again costs none. *)
Lemma access_token_is_fetched_once_witness :
  GoogleCalendarClient.getAccessToken DemoGoogle.net (DemoGoogle.client, 0%nat)
  = (inr (JStr "ya29"), (DemoGoogle.signed_in, 1%nat))
  /\ GoogleCalendarClient.getAccessToken DemoGoogle.net (DemoGoogle.signed_in, 1%nat)
     = (inr (JStr "ya29"), (DemoGoogle.signed_in, 1%nat)).
Proof.
  destruct (access_token_is_fetched_once DemoGoogle.net DemoGoogle.client
              0%nat 1%nat
              (DemoGoogle.answer 200 (inr DemoGoogle.token_data) EmptyString)
              DemoGoogle.token_data eq_refl eq_refl eq_refl eq_refl eq_refl eq_refl)
    as (H1 & _ & H2).
  split; [exact H1 | exact (H2 1%nat)].
Defined.

(** A refused refresh token: the creation fails with the body of the
    answer and the client is as before. *)
Lemma refused_refresh_is_not_cached_witness :
  GoogleCalendarClient.createEvent DemoGoogle.net_refusing DemoGoogle.meeting
                                   (DemoGoogle.client, 0%nat)
  = (inl (ErrorObj "Failed to refresh access token: invalid_grant"),
     (DemoGoogle.client, 1%nat)).
Proof.
  exact (proj2 (refused_refresh_is_not_cached DemoGoogle.net_refusing
                  DemoGoogle.client 0%nat 1%nat
                  (DemoGoogle.answer 400 (inr DemoGoogle.token_data) "invalid_grant")
                  "invalid_grant" eq_refl eq_refl eq_refl eq_refl eq_refl)
               DemoGoogle.meeting).
Defined.

(** Signed in, the creation of the meeting is one request. *)
Lemma createEvent_with_token_witness :
  GoogleCalendarClient.createEvent DemoGoogle.net DemoGoogle.meeting
                                   (DemoGoogle.signed_in, 1%nat)
  = (inr DemoGoogle.event_data, (DemoGoogle.signed_in, 2%nat)).
Proof.
  rewrite (createEvent_with_token DemoGoogle.net DemoGoogle.signed_in 1%nat
             DemoGoogle.meeting eq_refl).
  reflexivity.
Defined.

(** Signed in, the deletion succeeds although the answer has no body. *)
Lemma deleteEvent_with_token_witness :
  GoogleCalendarClient.deleteEvent DemoGoogle.net "evt" (DemoGoogle.signed_in, 1%nat)
  = (inr {| DeleteResult.success := true;
            DeleteResult.message := "Event deleted successfully" |},
     (DemoGoogle.signed_in, 2%nat)).
Proof.
  rewrite (deleteEvent_with_token DemoGoogle.net DemoGoogle.signed_in 1%nat
             "evt" eq_refl).
  reflexivity.
Defined.

(** The query of a listing with the default number of results. *)
Lemma listEvents_query_witness :
  GoogleCalendarClient.listEvents DemoGoogle.net "2025-11-01T12:00:00.000Z"
    "2025-11-08T12:00:00.000Z" (Some (num_or (Some 0) 10)) (DemoGoogle.signed_in, 1%nat)
  = (inr DemoGoogle.event_data, (DemoGoogle.signed_in, 2%nat))
  /\ (Requests.list_query "2025-11-01T12:00:00.000Z" "2025-11-08T12:00:00.000Z"
      ++ [("maxResults", "10")])%list
     = [("timeMin", "2025-11-01T12:00:00.000Z"); ("timeMax", "2025-11-08T12:00:00.000Z");
        ("singleEvents", "true"); ("orderBy", "startTime"); ("maxResults", "10")].
Proof.
  destruct (listEvents_query DemoGoogle.net DemoGoogle.signed_in 1%nat
              "2025-11-01T12:00:00.000Z" "2025-11-08T12:00:00.000Z"
              (Some (num_or (Some 0) 10)) eq_refl) as (H & _).
  split; [rewrite H; reflexivity | reflexivity].
Defined.

(** A new refresh token given to a client that was signed in. *)
Lemma setRefreshToken_forces_a_refresh_witness :
  GoogleCalendarClient.accessToken
    (GoogleCalendarClient.setRefreshToken (JStr "1//new") DemoGoogle.signed_in)
  = JNull
  /\ GoogleCalendarClient.getAccessToken DemoGoogle.net
       (GoogleCalendarClient.setRefreshToken (JStr "1//new") DemoGoogle.signed_in,
        5%nat)
     = (inr (JStr "ya29"),
        (GoogleCalendarClient.with_accessToken
           (GoogleCalendarClient.setRefreshToken (JStr "1//new") DemoGoogle.signed_in)
           (JStr "ya29"), 6%nat)).
Proof.
  destruct (setRefreshToken_forces_a_refresh DemoGoogle.net DemoGoogle.signed_in
              (JStr "1//new") 5%nat 6%nat
              (DemoGoogle.answer 200 (inr DemoGoogle.token_data) EmptyString)
              DemoGoogle.token_data eq_refl eq_refl eq_refl eq_refl eq_refl)
    as (H1 & _ & _ & H2).
  split; [exact H1 | exact H2].
Defined.

(** An exchange whose answer brings no refresh token: the old one stays. *)
Lemma exchangeCodeForTokens_updates_witness :
  GoogleCalendarClient.exchangeCodeForTokens DemoGoogle.net (JStr "4/code")
                                             (DemoGoogle.client, 0%nat)
  = (inr {| Tokens.access_token := JStr "ya29"; Tokens.refresh_token := JUndef |},
     (DemoGoogle.signed_in, 1%nat))
  /\ GoogleCalendarClient.refreshToken DemoGoogle.signed_in = JStr "1//refresh".
Proof.
  destruct (exchangeCodeForTokens_updates DemoGoogle.net DemoGoogle.client
              (JStr "4/code") 0%nat 1%nat
              (DemoGoogle.answer 200 (inr DemoGoogle.token_data) EmptyString)
              eq_refl) as (Hok & _).
  destruct (Hok DemoGoogle.token_data eq_refl eq_refl) as (H1 & _ & H2 & _).
  split; [exact H1 | exact (H2 eq_refl)].
Defined.

(** ** A window that is not positive *)

Section EmptyWindow.
Context (P : Platform) {World : Type} (S : Services World).

Lemma sync_item_empty_window daysAhead assignment log w :
  (forall daysDiff, in_window daysAhead daysDiff = false) ->
  exists r w',
    sync_item P S daysAhead assignment w = (inr (Skipped r), w')
    /\ sync_item P (logged S) daysAhead assignment (log, w)
       = (inr (Skipped r), (log, w')).
Proof.
  intros Hw.
  unfold sync_item, sync_try. eff_unfold. cbn [logged clock].
  destruct (truthy (dueAtField_of assignment)); cbn [negb]; [| eauto].
  destruct (Date_new P (dueAtField_of assignment)) as [due |];
    cbn [Date_toISOString]; [| eauto].
  destruct (clock S w) as [now w1]. rewrite Hw. eauto.
Qed.

(** X27: only 0 is replaced by the default: a negative [daysAhead] is used
    as it is, its window holds no day, and the run syncs nothing: every
    item is skipped and [createEvent] is never called. *)
Theorem negative_window_syncs_nothing (n : Z) (assignments : list Item.t) :
  n < 0 ->
  num_or (Some n) 14 = n
  /\ forall synced skipped log w,
     exists new_skipped w',
       sync_loop P S (num_or (Some n) 14) assignments synced skipped w
       = (inr (synced, (skipped ++ new_skipped)%list), w')
       /\ sync_loop P (logged S) (num_or (Some n) 14) assignments synced skipped
                    (log, w)
          = (inr (synced, (skipped ++ new_skipped)%list), (log, w'))
       /\ List.length new_skipped = List.length assignments.
Proof.
  intros Hn.
  assert (E : num_or (Some n) 14 = n).
  { unfold num_or. destruct (n =? 0) eqn:E0; [| reflexivity].
    apply Z.eqb_eq in E0. lia. }
  split; [exact E |]. rewrite E.
  assert (Hw : forall daysDiff, in_window n daysDiff = false)
    by (intros d; apply in_window_false; lia).
  induction assignments as [|a rest IH]; intros synced skipped log w.
  - exists [], w. rewrite app_nil_r. repeat split.
  - destruct (sync_item_empty_window n a log w Hw) as (r & w1 & Ho & Hl).
    rewrite (sync_loop_step P S n a rest synced skipped w _ w1 Ho).
    rewrite (sync_loop_step P (logged S) n a rest synced skipped (log, w) _ _ Hl).
    destruct (IH synced (skipped ++ [r])%list log w1) as (k & w' & E1 & E2 & L).
    exists (r :: k), w'. rewrite E1, E2, <- app_assoc.
    repeat split. simpl. now rewrite L.
Qed.
End EmptyWindow.

(** The three items of the concrete world under a window of -1 days. *)
Lemma negative_window_syncs_nothing_witness :
  sync_loop NewYork.platform (logged (Demo.services false false)) (num_or (Some (-1)) 14)
            [Demo.essay_item; Demo.quiz2_item; Demo.lab3_item] [] [] ([], Demo.start)
  = (inr ([], ["Essay 1 (outside -1 day window - 7 days away)";
               "Quiz 2 (outside -1 day window - 8 days away)";
               "Lab 3 (outside -1 day window - 9 days away)"]),
     ([], Demo.start + 3)).
Proof.
  destruct (negative_window_syncs_nothing NewYork.platform (Demo.services false false)
              (-1) [Demo.essay_item; Demo.quiz2_item; Demo.lab3_item]
              ltac:(lia)) as (_ & H).
  destruct (H [] [] [] Demo.start) as (k & w' & _ & E & _).
  rewrite E. vm_compute in E. vm_compute.
  inversion E. reflexivity.
Defined.

(** ** canvas.ts: the two type detections *)

(** X28: [detectItemType] answers one of four kinds, each exactly under its
    condition: quiz for a quiz id or the submission type [online_quiz];
    discussion, when it is not a quiz, for a discussion topic or the
    submission type [discussion_topic]; assignment, when it is neither, for
    a nested assignment or the type [assignment]; event otherwise. *)
Theorem detectItemType_kinds (event : CanvasEvent.t) :
  let a := CanvasEvent.assignment event in
  let quiz_marker :=
    truthy (nested Assignment.quiz_id a) || nested_includes a "online_quiz" in
  let discussion_marker :=
    truthy (nested Assignment.discussion_topic a)
    || nested_includes a "discussion_topic" in
  let assignment_marker :=
    (match a with Some _ => true | None => false end)
    || (match CanvasEvent.type event with
        | JStr s => String.eqb s "assignment"
        | _ => false
        end) in
  (detectItemType event = "quiz" <-> quiz_marker = true)
  /\ (detectItemType event = "discussion" <->
      quiz_marker = false /\ discussion_marker = true)
  /\ (detectItemType event = "assignment" <->
      quiz_marker = false /\ discussion_marker = false /\ assignment_marker = true)
  /\ (detectItemType event = "event" <->
      quiz_marker = false /\ discussion_marker = false /\ assignment_marker = false).
Proof.
  cbv zeta. unfold detectItemType.
  destruct (truthy (nested Assignment.quiz_id (CanvasEvent.assignment event))
            || nested_includes (CanvasEvent.assignment event) "online_quiz");
    destruct (truthy (nested Assignment.discussion_topic (CanvasEvent.assignment event))
              || nested_includes (CanvasEvent.assignment event) "discussion_topic");
    destruct ((match CanvasEvent.assignment event with
               | Some _ => true
               | None => false
               end)
              || (match CanvasEvent.type event with
                  | JStr s => String.eqb s "assignment"
                  | _ => false
                  end));
    repeat split; intros; try discriminate; try tauto;
      repeat match goal with H : _ /\ _ |- _ => destruct H end;
      try discriminate; auto.
Qed.

(** X29: the detection that [getUpcomingAssignments] runs answers quiz
    exactly for [is_quiz_assignment] or a quiz id, whatever the submission
    types; discussion exactly when it is not a quiz and the submission
    types include [discussion_topic]; and assignment in every other case.
    The submission type [online_quiz] and the discussion topic of the
    record play no part. *)
Theorem itemType_kinds_iff (assignment : Assignment.t) :
  let quiz_marker :=
    truthy (Assignment.is_quiz_assignment assignment)
    || truthy (Assignment.quiz_id assignment) in
  let discussion_marker :=
    arr_includes (Assignment.submission_types assignment) "discussion_topic" in
  (itemType assignment = "quiz" <-> quiz_marker = true)
  /\ (itemType assignment = "discussion" <->
      quiz_marker = false /\ discussion_marker = true)
  /\ (itemType assignment = "assignment" <->
      quiz_marker = false /\ discussion_marker = false)
  /\ (forall other,
        Assignment.is_quiz_assignment other = Assignment.is_quiz_assignment assignment ->
        Assignment.quiz_id other = Assignment.quiz_id assignment ->
        arr_includes (Assignment.submission_types other) "discussion_topic"
        = discussion_marker ->
        itemType other = itemType assignment).
Proof.
  cbv zeta. unfold itemType, js_or.
  split; [| split; [| split]].
  - destruct (truthy (Assignment.is_quiz_assignment assignment)) eqn:E1;
      simpl; rewrite ?E1;
      destruct (truthy (Assignment.quiz_id assignment));
      destruct (arr_includes (Assignment.submission_types assignment)
                             "discussion_topic");
      split; intros; try discriminate; auto.
  - destruct (truthy (Assignment.is_quiz_assignment assignment)) eqn:E1;
      simpl; rewrite ?E1;
      destruct (truthy (Assignment.quiz_id assignment));
      destruct (arr_includes (Assignment.submission_types assignment)
                             "discussion_topic");
      split; intros; try discriminate; auto;
      repeat match goal with H : _ /\ _ |- _ => destruct H end;
      try discriminate.
  - destruct (truthy (Assignment.is_quiz_assignment assignment)) eqn:E1;
      simpl; rewrite ?E1;
      destruct (truthy (Assignment.quiz_id assignment));
      destruct (arr_includes (Assignment.submission_types assignment)
                             "discussion_topic");
      split; intros; try discriminate; auto;
      repeat match goal with H : _ /\ _ |- _ => destruct H end;
      try discriminate.
  - intros other H1 H2 H3. rewrite H1, H2, H3. reflexivity.
Qed.

(** ** The sync loop with its arrays as state *)

Section PushSites.
Context (P : Platform) {World : Type} (S : Services World).

(** One iteration, path by path: whichever way the [try] block goes, by a
    [continue] after a push, to its end after [synced.push], or into the
    [catch] by a throw, which on every path comes before any push, the
    iteration ends without a fault having pushed exactly one entry, the one
    the outcome form of the iteration returns, on the world that form
    leaves. *)
Lemma sync_iteration_pushes daysAhead assignment (a : Arrays.t) (w : World) :
  exists o w',
    sync_item P S daysAhead assignment w = (inr o, w')
    /\ sync_iteration P S daysAhead assignment (a, w)
       = (inr tt, (push_outcome o a, w')).
Proof.
  unfold sync_iteration, sync_try_block, sync_item, sync_try, create_in_window.
  unfold synced_push, skipped_push, in_world. eff_unfold.
  destruct (truthy (dueAtField_of assignment)); cbn [negb];
    [| do 2 eexists; split; reflexivity].
  destruct (Date_new P (dueAtField_of assignment)) as [due |];
    cbn [Date_toISOString]; [| do 2 eexists; split; reflexivity].
  destruct (clock S w) as [now w1].
  destruct (in_window daysAhead (daysDiff_of due now));
    [| do 2 eexists; split; reflexivity].
  destruct (convertToEST P (dueAtField_of assignment)) as [dueEST |];
    [| do 2 eexists; split; reflexivity].
  destruct (TimeClip (due + 60 * 60 * 1000)) as [endTime |];
    cbn [Date_toISOString]; [| do 2 eexists; split; reflexivity].
  destruct (convertToEST P (JStr (toISOString P endTime))) as [endEST |];
    [| do 2 eexists; split; reflexivity].
  destruct (createEvent S (sync_event assignment dueEST endEST) w1)
    as [[e | g] w2]; do 2 eexists; split; reflexivity.
Qed.

(** The loop ends without a fault, and what it leaves in the arrays is what
    was there followed by the entries pushed, one per item. *)
Lemma sync_for_appends daysAhead assignments :
  forall (a : Arrays.t) (w : World),
  exists new_synced new_skipped w',
    sync_for P S daysAhead assignments (a, w)
    = (inr tt, ({| Arrays.synced := (Arrays.synced a ++ new_synced)%list;
                   Arrays.skipped := (Arrays.skipped a ++ new_skipped)%list |}, w'))
    /\ sync_loop P S daysAhead assignments (Arrays.synced a) (Arrays.skipped a) w
       = (inr ((Arrays.synced a ++ new_synced)%list,
               (Arrays.skipped a ++ new_skipped)%list), w')
    /\ (List.length new_synced + List.length new_skipped
        = List.length assignments)%nat.
Proof.
  induction assignments as [|item rest IH]; intros a w.
  - exists [], [], w. rewrite !app_nil_r. destruct a. repeat split.
  - destruct (sync_iteration_pushes daysAhead item a w) as (o & w1 & Ho & Hi).
    cbn [sync_for]. unfold Eff.bind at 1. rewrite Hi.
    rewrite (sync_loop_step P S daysAhead item rest _ _ w o w1 Ho).
    destruct (IH (push_outcome o a) w1) as (s & k & w' & E & El & L).
    destruct o as [m | r]; cbn [push_outcome Arrays.push_synced Arrays.push_skipped
                                Arrays.synced Arrays.skipped] in *.
    + exists (m :: s), k, w'. rewrite E, El, <- !app_assoc.
      repeat split. simpl. lia.
    + exists s, (r :: k), w'. rewrite E, El, <- !app_assoc.
      repeat split. simpl. lia.
Qed.

(** C8: with [synced] and [skipped] as arrays that every push site of the
    handler pushes on: each iteration, whatever the item and whatever the
    arrays hold, ends without a fault with exactly one entry more on exactly
    one of the two arrays, the other one untouched; so when
    [getUpcomingAssignments] returns [items], the run of [sync_to_calendar]
    starts from two empty arrays and ends with arrays whose lengths add up
    to the number of items, from which the text of the response is
    written. *)
Theorem sync_pushes_once_per_item args_daysAhead items w w1 :
  getUpcomingAssignments S w = (inr items, w1) ->
  let daysAhead := num_or args_daysAhead 14 in
  (forall assignment (a : Arrays.t) w2,
      exists entry w3,
        sync_iteration P S daysAhead assignment (a, w2)
        = (inr tt, ({| Arrays.synced := (Arrays.synced a ++ [entry])%list;
                       Arrays.skipped := Arrays.skipped a |}, w3))
        \/ sync_iteration P S daysAhead assignment (a, w2)
           = (inr tt, ({| Arrays.synced := Arrays.synced a;
                          Arrays.skipped := (Arrays.skipped a ++ [entry])%list |}, w3)))
  /\ exists synced skipped w',
       sync_for P S daysAhead items (Arrays.empty, w1)
       = (inr tt, ({| Arrays.synced := synced; Arrays.skipped := skipped |}, w'))
       /\ (List.length synced + List.length skipped = List.length items)%nat
       /\ sync_to_calendar_arrays P S args_daysAhead w
          = (inr (sync_result_text synced skipped), w').
Proof.
  intros Hg daysAhead. split.
  - intros assignment a w2.
    destruct (sync_iteration_pushes daysAhead assignment a w2) as (o & w3 & _ & Hi).
    destruct o as [m | r]; [exists m, w3; left | exists r, w3; right]; exact Hi.
  - destruct (sync_for_appends daysAhead items Arrays.empty w1)
      as (s & k & w' & E & _ & L).
    cbn [Arrays.empty Arrays.synced Arrays.skipped app] in E.
    exists s, k, w'. split; [exact E |]. split; [exact L |].
    unfold sync_to_calendar_arrays. rewrite Hg. fold daysAhead. rewrite E.
    reflexivity.
Qed.

(** X8: the loop only appends to its arrays: run from arrays that hold
    anything, it ends without a fault with arrays that begin with what they
    held, in the same order, followed by as many new entries as there are
    items; no push site removes, replaces or reorders an entry. *)
Theorem sync_arrays_only_grow daysAhead assignments (a : Arrays.t) (w : World) :
  exists new_synced new_skipped w',
    sync_for P S daysAhead assignments (a, w)
    = (inr tt, ({| Arrays.synced := (Arrays.synced a ++ new_synced)%list;
                   Arrays.skipped := (Arrays.skipped a ++ new_skipped)%list |}, w'))
    /\ (List.length new_synced + List.length new_skipped
        = List.length assignments)%nat.
Proof.
  destruct (sync_for_appends daysAhead assignments a w)
    as (s & k & w' & E & _ & L).
  exists s, k, w'. split; assumption.
Qed.
End PushSites.

(** With every course up and the calendar rejecting the quiz, the three
    items leave two entries in [synced] and one in [skipped]. *)
Lemma sync_pushes_once_per_item_witness :
  getUpcomingAssignments (Demo.services false true) Demo.start
  = (inr [Demo.essay_item; Demo.quiz2_item; Demo.lab3_item], Demo.start + 1)
  /\ exists synced skipped w',
       sync_for NewYork.platform (Demo.services false true) (num_or (Some 14) 14)
                [Demo.essay_item; Demo.quiz2_item; Demo.lab3_item]
                (Arrays.empty, Demo.start + 1)
       = (inr tt, ({| Arrays.synced := synced; Arrays.skipped := skipped |}, w'))
       /\ (List.length synced + List.length skipped = 3)%nat
       /\ sync_to_calendar_arrays NewYork.platform (Demo.services false true)
                                  (Some 14) Demo.start
          = (inr (sync_result_text synced skipped), w').
Proof.
  assert (Hg : getUpcomingAssignments (Demo.services false true) Demo.start
               = (inr [Demo.essay_item; Demo.quiz2_item; Demo.lab3_item],
                  Demo.start + 1)) by reflexivity.
  split; [exact Hg |].
  exact (proj2 (sync_pushes_once_per_item NewYork.platform
                  (Demo.services false true) (Some 14) _ Demo.start
                  (Demo.start + 1) Hg)).
Defined.

(** The other way the end time goes wrong: an assignment due at
    2025-11-02T05:30:00Z, half past one in the morning in New York before the
    clocks go back, ends one hour later at half past one again; the payload
    carries the two local times without their offsets, so its start and its
    end are the same. *)
Lemma repeated_hour_start_equals_end :
  exists dueEST endEST,
    convertToEST NewYork.platform (dueAtField_of DemoEdges.fall_back_item)
    = Some dueEST
    /\ convertToEST NewYork.platform
         (JStr (toISOString NewYork.platform (1762061400000 + 3600000)))
       = Some endEST
    /\ Date_new NewYork.platform (dueAtField_of DemoEdges.fall_back_item)
       = Some 1762061400000
    /\ CalendarEvent.start (sync_event DemoEdges.fall_back_item dueEST endEST)
       = {| EventTime.dateTime := JStr "2025-11-02T01:30:00";
            EventTime.timeZone := NEW_YORK |}
    /\ CalendarEvent.end_ (sync_event DemoEdges.fall_back_item dueEST endEST)
       = CalendarEvent.start (sync_event DemoEdges.fall_back_item dueEST endEST)
    /\ sync_item NewYork.platform (Demo.services false false) 14
                 DemoEdges.fall_back_item Demo.start
       = (inr (Synced "Fall back (Canvas Assignment) - Due: November 2, 2025 at 1:30 AM"),
          Demo.start + 1).
Proof.
  exists {| EST.datetime := "2025-11-02T01:30:00";
            EST.readable := "November 2, 2025 at 1:30 AM" |},
    {| EST.datetime := "2025-11-02T01:30:00";
       EST.readable := "November 2, 2025 at 1:30 AM" |}.
  repeat split; vm_compute; reflexivity.
Qed.
